(** * docker-sweep: resource categorisation, filtering and ordered deletion

    A shallow embedding of the analysis and deletion engine of docker-sweep
    (packages [internal/docker], [internal/sweep] and [internal/config], and
    the flags of package [cmd]) and properties of it: those that the
    specification states, and others that the code shows.

    Conventions of the embedding.
    - A Go [string] is a byte sequence: Rocq's [string] (a list of 8-bit
      [ascii]).  [len] is [String.length].
    - A Go [map[string]string] that may be [nil] is an
      [option (gmap string string)]; [None] is the nil map.  Reading a key
      that is absent (or reading a nil map) yields the empty string.
    - A Go [error] is its message; a nil-able [error] is an [option string].
    - [time.Time] is the number of nanoseconds since the zero instant
      (January 1, year 1, 00:00:00 UTC), a [Z]; [time.Duration] is a signed
      64-bit count of nanoseconds, a [Z] with the saturation of [Time.Sub]
      written out.
    - Code that talks to the container runtime threads an explicit world
      through a small state monad. *)

From Stdlib Require Import String Ascii List ZArith Lia Bool.
From Stdlib Require Import DecimalString DecimalPos DecimalN.
From stdpp Require Import base gmap strings list.
From Equations Require Import Equations.

Local Open Scope Z_scope.

(* ===================================================================== *)
(** * Go's [strings] package, on byte strings *)
(* ===================================================================== *)

Module GoStrings.

(** [strings.HasPrefix(s, prefix)]. *)
Definition HasPrefix (s prefix : string) : bool := String.prefix prefix s.

(** [strings.Contains(s, substr)]: [substr] occurs at some offset of [s]. *)
Fixpoint Contains (s substr : string) : bool :=
  HasPrefix s substr ||
  match s with
  | EmptyString => false
  | String _ rest => Contains rest substr
  end.

(** [s[n:]]. *)
Fixpoint drop (n : nat) (s : string) : string :=
  match n, s with
  | O, _ => s
  | S _, EmptyString => EmptyString
  | S n', String _ rest => drop n' rest
  end.

(** [s[:n]]. *)
Fixpoint take (n : nat) (s : string) : string :=
  match n, s with
  | O, _ => EmptyString
  | S _, EmptyString => EmptyString
  | S n', String c rest => String c (take n' rest)
  end.

(** [strings.TrimPrefix(s, prefix)]. *)
Definition TrimPrefix (s prefix : string) : string :=
  if HasPrefix s prefix then drop (String.length prefix) s else s.

(** One byte of [strings.ToLower]: the letters [A]..[Z] move to
    [a]..[z]; every other byte below 128 is kept.  Bytes from 128 on are
    kept as well: the embedding covers ASCII text, for which Go takes the
    same byte-wise path. *)
Definition lowerByte (c : ascii) : ascii :=
  let n := nat_of_ascii c in
  if (Nat.leb 65 n && Nat.leb n 90)%bool then ascii_of_nat (n + 32) else c.

(** [strings.ToLower(s)]. *)
Fixpoint ToLower (s : string) : string :=
  match s with
  | EmptyString => EmptyString
  | String c rest => String (lowerByte c) (ToLower rest)
  end.

(** [strings.TrimLeft] by the ASCII white space of [unicode.IsSpace]:
    tab, line feed, vertical tab, form feed, carriage return, space. *)
Fixpoint trimLeftSpace (s : string) : string :=
  match s with
  | EmptyString => EmptyString
  | String c rest => if Ascii.is_space c then trimLeftSpace rest else s
  end.

(** The same from the right end: the bytes kept are those up to the last
    one that is not white space. *)
Fixpoint trimRightSpace (s : string) : string :=
  match s with
  | EmptyString => EmptyString
  | String c rest =>
      match trimRightSpace rest with
      | EmptyString => if Ascii.is_space c then EmptyString else String c EmptyString
      | kept => String c kept
      end
  end.

(** [strings.TrimSpace(s)]. *)
Definition TrimSpace (s : string) : string := trimRightSpace (trimLeftSpace s).

(** [strings.Join(elems, sep)]. *)
Fixpoint Join (elems : list string) (sep : string) : string :=
  match elems with
  | [] => ""
  | [e] => e
  | e :: rest => e +:+ sep +:+ Join rest sep
  end.

(** [strings.Cut(s, sep)]: the text before and after the first occurrence
    of [sep], or [None] when [sep] does not occur. *)
Fixpoint Cut (s sep : string) : option (string * string) :=
  if HasPrefix s sep then Some ("", drop (String.length sep) s)
  else match s with
       | EmptyString => None
       | String c rest =>
           match Cut rest sep with
           | Some (before, after) => Some (String c before, after)
           | None => None
           end
       end.

(** [strings.SplitN(s, sep, 2)], for a separator that is not empty. *)
Definition SplitN2 (s sep : string) : list string :=
  match Cut s sep with
  | Some (before, after) => [before; after]
  | None => [s]
  end.

(** The scan of [strings.Split(s, sep)] for a separator that is not
    empty: [current] holds the bytes of the piece being read, last byte
    first, and [skip] counts the bytes of a separator just found that
    are still to be passed over. *)
Fixpoint splitScan (skip : nat) (current : list ascii) (s sep : string) : list string :=
  match s with
  | EmptyString => [string_of_list_ascii (rev current)]
  | String c rest =>
      match skip with
      | S skip' => splitScan skip' current rest sep
      | O =>
          if HasPrefix s sep
          then string_of_list_ascii (rev current)
               :: splitScan (String.length sep - 1) [] rest sep
          else splitScan O (c :: current) rest sep
      end
  end.

(** [strings.Split(s, sep)], for a separator that is not empty. *)
Definition Split (s sep : string) : list string := splitScan O [] s sep.

End GoStrings.

(* ===================================================================== *)
(** * Results, and the state monad of runtime calls *)
(* ===================================================================== *)

(** A Go result pair [(value, error)] of which exactly one side is used. *)
Inductive Fallible (A : Type) : Type :=
| Ok (value : A)
| Err (msg : string).
Arguments Ok {A} value.
Arguments Err {A} msg.

(** A computation that may call the container runtime: it reads and
    changes the world [W] (the runtime's state and the clock). *)
Definition M (W A : Type) : Type := W -> A * W.

Definition ret {W A : Type} (a : A) : M W A := fun w => (a, w).

Definition bind {W A B : Type} (c : M W A) (k : A -> M W B) : M W B :=
  fun w => let (a, w') := c w in k a w'.

Notation "x <- c ;; k" := (bind c (fun x => k))
  (at level 100, c at next level, right associativity).

(** [for _, x := range xs { ... continue ... results = append(results, y) }]:
    the body either skips the element or appends one record. *)
Fixpoint rangeCollect {W A B : Type} (body : A -> M W (option B)) (xs : list A)
  : M W (list B) :=
  match xs with
  | [] => ret []
  | x :: rest =>
      r <- body x ;;
      tail <- rangeCollect body rest ;;
      ret (match r with Some y => y :: tail | None => tail end)
  end.

(** [for _, x := range xs { ... }] over a loop state. *)
Fixpoint rangeFold {W A S : Type} (body : A -> S -> M W S) (xs : list A) (s : S)
  : M W S :=
  match xs with
  | [] => ret s
  | x :: rest => s' <- body x s ;; rangeFold body rest s'
  end.

(** [time.Time] and [time.Duration]. *)
Abbreviation Time := Z (only parsing).
Abbreviation Duration := Z (only parsing).

Module GoTime.
Definition minDuration : Z := - 2 ^ 63.
Definition maxDuration : Z := 2 ^ 63 - 1.

(** [t.IsZero()]. *)
Definition IsZero (t : Time) : bool := t =? 0.

(** [t.Sub(u)]: the difference, or the largest (smallest) duration when
    the difference does not fit a [Duration]. *)
Definition Sub (t u : Time) : Duration :=
  let d := t - u in
  if d <? minDuration then minDuration
  else if maxDuration <? d then maxDuration
  else d.

(** [time.Since(t)] when the clock reads [now]; the times compared here
    are parsed from text and carry no monotonic clock reading. *)
Definition Since (now t : Time) : Duration := Sub now t.
End GoTime.

(** A [map[string]string] that may be nil. *)
Abbreviation StringMap := (option (gmap string string)) (only parsing).

(** [m[key]] on a [map[string]string]. *)
Definition index (m : StringMap) (key : string) : string :=
  match m with
  | Some g => default "" (g !! key)
  | None => ""
  end.

(** [m[key]] on a [map[string]bool]. *)
Definition member (m : gmap string bool) (key : string) : bool :=
  default false (m !! key).

(** Arithmetic on [int64]: the result of an addition or multiplication
    is the mathematical result reduced to the interval from [-2^63] to
    [2^63 - 1]. *)
Module Int64.
Definition min : Z := - 2 ^ 63.
Definition max : Z := 2 ^ 63 - 1.
Definition wrap (z : Z) : Z := (z + 2 ^ 63) mod 2 ^ 64 - 2 ^ 63.
Definition add (a b : Z) : Z := wrap (a + b).
Definition mul (a b : Z) : Z := wrap (a * b).
End Int64.

(* ===================================================================== *)
(** * Package [internal/config] *)
(* ===================================================================== *)

Module Config.
(** [config.Config]. *)
Record t : Type := mk {
  Yes : bool;
  DryRun : bool;
  OlderThan : Duration;
  MinSize : Z;
  Dangling : bool;
  NoDangling : bool;
  Exited : bool;
  Anonymous : bool
}.

(** [config.DefaultConfig()]: the zero value. *)
Definition DefaultConfig : t :=
  {| Yes := false; DryRun := false; OlderThan := 0; MinSize := 0;
     Dangling := false; NoDangling := false; Exited := false;
     Anonymous := false |}.

(** The decimal value of a byte that is a digit. *)
Definition digitValue (c : ascii) : option Z :=
  let n := nat_of_ascii c in
  if (Nat.leb 48 n && Nat.leb n 57)%bool then Some (Z.of_nat (n - 48)) else None.

(** The value of a string of decimal digits read from the left, [acc]
    being the value of the digits read so far; [None] if a byte is not a
    digit. *)
Fixpoint decimalFrom (acc : Z) (s : string) : option Z :=
  match s with
  | EmptyString => Some acc
  | String c rest =>
      match digitValue c with
      | Some d => decimalFrom (10 * acc + d) rest
      | None => None
      end
  end.

(** What [n, _ := strconv.Atoi(digits)] leaves in [n] for a string of one
    or more decimal digits: their value, or the largest [int] (of 64
    bits) when the value does not fit (the range error is dropped). *)
Definition atoiDigits (digits : string) : option Z :=
  match digits with
  | EmptyString => None
  | _ =>
      match decimalFrom 0 digits with
      | Some n => Some (if Int64.max <? n then Int64.max else n)
      | None => None
      end
  end.

(** The match of the regular expression [^(\d+)([dwmMy])$]: the digits
    and the unit of a string made of one or more decimal digits and one
    of the five unit letters, [None] for any other string. *)
Fixpoint matchCustom (s : string) : option (string * ascii) :=
  match s with
  | EmptyString => None
  | String c EmptyString => None
  | String c (String u EmptyString) =>
      match digitValue c with
      | Some _ =>
          if (Ascii.eqb u "d" || Ascii.eqb u "w" || Ascii.eqb u "m"
              || Ascii.eqb u "M" || Ascii.eqb u "y")%bool
          then Some (String c EmptyString, u) else None
      | None => None
      end
  | String c rest =>
      match digitValue c, matchCustom rest with
      | Some _, Some (digits, u) => Some (String c digits, u)
      | _, _ => None
      end
  end.

(** [time.Hour], in nanoseconds. *)
Definition Hour : Z := 3600000000000.

(** [ParseDuration].  [timeParseDuration] is [time.ParseDuration] of the
    standard library, [None] when it returns an error. *)
Definition ParseDuration (timeParseDuration : string -> option Z) (s : string)
  : Fallible Z :=
  if decide (s = "") then Ok 0
  else
    match timeParseDuration s with
    | Some d => Ok d
    | None =>
        match matchCustom s with
        | None =>
            Err ("invalid duration: " +:+ s +:+ " (use format like 7d, 2w, 24h)")
        | Some (digits, unit) =>
            let n := default 0 (atoiDigits digits) in
            if Ascii.eqb unit "d" then Ok (Int64.mul (Int64.mul n 24) Hour)
            else if Ascii.eqb unit "w"
            then Ok (Int64.mul (Int64.mul (Int64.mul n 7) 24) Hour)
            else if (Ascii.eqb unit "m" || Ascii.eqb unit "M")%bool
            then Ok (Int64.mul (Int64.mul (Int64.mul n 30) 24) Hour)
            else if Ascii.eqb unit "y"
            then Ok (Int64.mul (Int64.mul (Int64.mul n 365) 24) Hour)
            else Err ("invalid duration unit: " +:+ String unit EmptyString)
        end
    end.

End Config.

(* ===================================================================== *)
(** * Package [internal/docker] *)
(* ===================================================================== *)

Module Docker.

Definition LabelProtect : string := "sweep.protect".
Definition LabelComposeProject : string := "com.docker.compose.project".
Definition LabelPodmanProject : string := "io.podman.compose.project".

(** [ComposeProjectFromLabels]. *)
Definition ComposeProjectFromLabels (labels : StringMap) : string :=
  match labels with
  | None => ""
  | Some _ =>
      let project := index labels LabelComposeProject in
      if decide (project = "") then index labels LabelPodmanProject else project
  end.

(** The listing records. *)
Module Container.
Record t : Type := mk {
  ID : string; Names : string; Image : string; State : string;
  Status : string; CreatedAt : Time; Size : string; Labels : StringMap
}.
End Container.

Module Image.
Record t : Type := mk {
  ID : string; Repository : string; Tag : string; CreatedAt : string;
  Size : string;
  SizeBytes : Z; HasSize : bool;
  CreatedAtTime : Time; HasCreatedAt : bool;
  ListLabels : StringMap; HasListLabels : bool
}.
End Image.

Module Volume.
Record t : Type := mk { Name : string; Driver : string; Mountpoint : string }.
End Volume.

Module Network.
Record t : Type := mk {
  ID : string; Name : string; Driver : string; Scope : string
}.
End Network.

(** The inspection records. *)
Module ContainerInspect.
Record t : Type := mk { ID : string; Created : Time; ConfigLabels : StringMap }.
End ContainerInspect.

Module ImageInspect.
Record t : Type := mk {
  ID : string; Size : Z; Created : string; Labels : StringMap;
  ConfigLabels : StringMap
}.
End ImageInspect.

Module VolumeInspect.
Record t : Type := mk {
  Name : string; Driver : string; Mountpoint : string;
  CreatedAt : string; Labels : StringMap
}.
End VolumeInspect.

Module NetworkInspect.
Record t : Type := mk {
  ID : string; Name : string; Created : string; Driver : string;
  Labels : StringMap
}.
End NetworkInspect.

(** [SystemNetworks]. *)
Definition SystemNetworks : gmap string bool :=
  list_to_map [("bridge", true); ("host", true); ("none", true); ("podman", true)].

(** The test of one rune of [IsAnonymousVolume]:
    [(c >= '0' && c <= '9') || (c >= 'a' && c <= 'f')].  The loop ranges
    over runes; a byte below 128 is its own rune, and the runes decoded
    from other bytes are 128 or more (or the replacement rune), outside
    both intervals, as the byte itself is here. *)
Definition isLowerHex (c : ascii) : bool :=
  let n := nat_of_ascii c in
  ((Nat.leb 48 n && Nat.leb n 57) || (Nat.leb 97 n && Nat.leb n 102))%bool.

(** The loop of [IsAnonymousVolume]: [false] at the first rune that fails
    the test, [true] at the end of the string. *)
Fixpoint allLowerHex (s : string) : bool :=
  match s with
  | EmptyString => true
  | String c rest => if negb (isLowerHex c) then false else allLowerHex rest
  end.

(** [IsAnonymousVolume]. *)
Definition IsAnonymousVolume (name : string) : bool :=
  if negb (Nat.eqb (String.length name) 64) then false
  else allLowerHex name.

(** [NormalizeImageID]. *)
Definition NormalizeImageID (id : string) : string :=
  GoStrings.TrimPrefix (GoStrings.TrimSpace id) "sha256:".

(** [ParseLabels]: the pairs [key=value] of a comma-separated list; a
    piece without [=] is skipped, and a later pair replaces an earlier
    one with the same key. *)
Definition ParseLabels (labels : string) : gmap string string :=
  if decide (labels = "") then ∅
  else
    fold_left
      (fun (result : gmap string string) (pair : string) =>
         match GoStrings.SplitN2 pair "=" with
         | [key; value] => <[key := value]> result
         | _ => result
         end)
      (GoStrings.Split labels ",") ∅.

(** What [exec.Command(runtime, args...).Output()] gives back: the
    standard output of a command that ran and exited with status 0, or
    a failure with what the command wrote to its standard error. *)
Inductive ExecResult : Type :=
| Exited (stdout : string)
| Failed (stderr : string).

(** The environment of the package: the runtime binary in use (the
    package variable [cliRuntime]), the operating system's process
    execution, the JSON decoders of [encoding/json] at the types decoded in
    batches or one by one, the clock, and the queries of the package that
    the analysis consumes as they are (listings, in-use sets, the
    inspection of one network). *)
Record Env (W : Type) : Type := mkEnv {
  cliRuntime : string;
  exec : string -> list string -> M W ExecResult;
  unmarshalContainerInspect : string -> Fallible ContainerInspect.t;
  unmarshalContainerInspects : string -> Fallible (list ContainerInspect.t);
  unmarshalImageInspect : string -> Fallible ImageInspect.t;
  unmarshalImageInspects : string -> Fallible (list ImageInspect.t);
  unmarshalVolumeInspect : string -> Fallible VolumeInspect.t;
  unmarshalVolumeInspects : string -> Fallible (list VolumeInspect.t);
  ListContainers : M W (Fallible (list Container.t));
  ListImages : M W (Fallible (list Image.t));
  ListVolumes : M W (Fallible (list Volume.t));
  ListNetworks : M W (Fallible (list Network.t));
  GetImagesInUse : M W (Fallible (gmap string bool));
  GetVolumesInUse : M W (Fallible (gmap string bool));
  GetNetworksInUse : M W (Fallible (gmap string bool));
  InspectNetwork : string -> M W (Fallible NetworkInspect.t);
  timeNow : M W Time;
  timeParseRFC3339Nano : string -> option Time
}.
Arguments cliRuntime {W}.
Arguments exec {W}.
Arguments unmarshalContainerInspect {W}.
Arguments unmarshalContainerInspects {W}.
Arguments unmarshalImageInspect {W}.
Arguments unmarshalImageInspects {W}.
Arguments unmarshalVolumeInspect {W}.
Arguments unmarshalVolumeInspects {W}.
Arguments ListContainers {W}.
Arguments ListImages {W}.
Arguments ListVolumes {W}.
Arguments ListNetworks {W}.
Arguments GetImagesInUse {W}.
Arguments GetVolumesInUse {W}.
Arguments GetNetworksInUse {W}.
Arguments InspectNetwork {W}.
Arguments timeNow {W}.
Arguments timeParseRFC3339Nano {W}.

Section Runtime.
Context {W : Type} (E : Env W).

(** [Run]: the command's output, or the error
    ["<runtime> <args joined by spaces>: <trimmed stderr>"]. *)
Definition Run (args : list string) : M W (Fallible string) :=
  r <- exec E (cliRuntime E) args ;;
  ret (match r with
       | Exited out => Ok out
       | Failed stderr =>
           Err (cliRuntime E +:+ " " +:+ GoStrings.Join args " " +:+ ": "
                +:+ GoStrings.TrimSpace stderr)
       end).

(** [Remove]: [None] is the nil error. *)
Definition Remove (resourceType id : string) : M W (option string) :=
  let run (args : list string) : M W (option string) :=
    r <- Run args ;;
    ret (match r with Ok _ => None | Err e => Some e end) in
  if decide (resourceType = "container") then run ["rm"; id]
  else if decide (resourceType = "image") then run ["rmi"; id]
  else if decide (resourceType = "volume") then run ["volume"; "rm"; id]
  else if decide (resourceType = "network") then run ["network"; "rm"; id]
  else ret (Some ("unknown resource type: " +:+ resourceType)).

(** [InspectContainer]. *)
Definition InspectContainer (id : string) : M W (Fallible ContainerInspect.t) :=
  r <- Run ["inspect"; "--format"; "{{json .}}"; id] ;;
  ret (match r with
       | Err e => Err e
       | Ok out => unmarshalContainerInspect E out
       end).

(** [InspectVolume]. *)
Definition InspectVolume (name : string) : M W (Fallible VolumeInspect.t) :=
  r <- Run ["volume"; "inspect"; "--format"; "{{json .}}"; name] ;;
  ret (match r with
       | Err e => Err e
       | Ok out => unmarshalVolumeInspect E out
       end).

(** [if item.Labels == nil { item.Labels = item.Config.Labels }]. *)
Definition withConfigLabels (item : ImageInspect.t) : ImageInspect.t :=
  match ImageInspect.Labels item with
  | Some _ => item
  | None =>
      {| ImageInspect.ID := ImageInspect.ID item;
         ImageInspect.Size := ImageInspect.Size item;
         ImageInspect.Created := ImageInspect.Created item;
         ImageInspect.Labels := ImageInspect.ConfigLabels item;
         ImageInspect.ConfigLabels := ImageInspect.ConfigLabels item |}
  end.

(** [InspectImage]. *)
Definition InspectImage (id : string) : M W (Fallible ImageInspect.t) :=
  r <- Run ["inspect"; "--format"; "{{json .}}"; id] ;;
  ret (match r with
       | Err e => Err e
       | Ok out =>
           match unmarshalImageInspect E out with
           | Err e => Err e
           | Ok inspect => Ok (withConfigLabels inspect)
           end
       end).

Definition batchSize : nat := 100.

(** [xs[start:end]], for [start <= end <= len(xs)]. *)
Definition slice {A : Type} (xs : list A) (start end_ : nat) : list A :=
  take (end_ - start) (drop start xs).

(** [end := start + batchSize; if end > len(xs) { end = len(xs) }]. *)
Definition batchEnd {A : Type} (xs : list A) (start : nat) : nat :=
  let end_ := (start + batchSize)%nat in
  if Nat.ltb (length xs) end_ then length xs else end_.

(** The body of [for i := range inspected] in [InspectContainers]. *)
Definition addContainerInspect (result : gmap string ContainerInspect.t)
    (item : ContainerInspect.t) : gmap string ContainerInspect.t :=
  if decide (ContainerInspect.ID item = "") then result
  else <[ContainerInspect.ID item := item]> result.

(** The body of [for i := range inspected] in [InspectImages]. *)
Definition addImageInspect (result : gmap string ImageInspect.t)
    (item : ImageInspect.t) : gmap string ImageInspect.t :=
  let item := withConfigLabels item in
  let key := NormalizeImageID (ImageInspect.ID item) in
  if decide (key = "") then result else <[key := item]> result.

(** The body of [for i := range inspected] in [InspectVolumes]. *)
Definition addVolumeInspect (result : gmap string VolumeInspect.t)
    (item : VolumeInspect.t) : gmap string VolumeInspect.t :=
  if decide (VolumeInspect.Name item = "") then result
  else <[VolumeInspect.Name item := item]> result.

(** The loop [for start := 0; start < len(ids); start += batchSize] of
    the three batch inspections, from [start] on: [command] is the
    runtime command the batch is appended to, [decode] the decoder of
    its output ([wrap] rewrites the decoder's error), [add] the loop
    that stores the decoded entries. *)
Equations? inspectFrom {I : Type} (command : list string)
    (decode : string -> Fallible (list I)) (wrap : string -> string)
    (add : gmap string I -> I -> gmap string I)
    (ids : list string) (start : nat) (result : gmap string I) (w : W)
  : Fallible (gmap string I) * W by wf (length ids - start)%nat lt :=
  inspectFrom command decode wrap add ids start result w
    with lt_dec start (length ids) := {
    | right _ => (Ok result, w)
    | left _
        with Run (command ++ slice ids start (batchEnd ids start)) w := {
        | (Err e, w1) => (Err e, w1)
        | (Ok out, w1) with decode out := {
            | Err e => (Err (wrap e), w1)
            | Ok inspected =>
                inspectFrom command decode wrap add ids
                  (start + batchSize)%nat (fold_left add inspected result) w1 } } }.
Proof. unfold batchSize. lia. Qed.

(** [InspectContainers]. *)
Definition InspectContainers (ids : list string)
  : M W (Fallible (gmap string ContainerInspect.t)) :=
  match ids with
  | [] => ret (Ok ∅)
  | _ => inspectFrom ["inspect"] (unmarshalContainerInspects E) (fun e => e)
           addContainerInspect ids 0 ∅
  end.

(** [InspectImages]. *)
Definition InspectImages (ids : list string)
  : M W (Fallible (gmap string ImageInspect.t)) :=
  match ids with
  | [] => ret (Ok ∅)
  | _ => inspectFrom ["inspect"] (unmarshalImageInspects E)
           (fun e => "failed to parse inspect output: " +:+ e)
           addImageInspect ids 0 ∅
  end.

(** [InspectVolumes]. *)
Definition InspectVolumes (names : list string)
  : M W (Fallible (gmap string VolumeInspect.t)) :=
  match names with
  | [] => ret (Ok ∅)
  | _ => inspectFrom ["volume"; "inspect"] (unmarshalVolumeInspects E) (fun e => e)
           addVolumeInspect names 0 ∅
  end.



End Runtime.

(** The listing and in-use queries of the package, and the inspection of
    one network, as the package implements them over [Run].  [encoding/json]
    is taken as it is: each decoder is the function from the text to the
    value (or the error) that [json.Unmarshal] computes at that type. *)
Module Impl.

(** A mount of a container, as [GetVolumesInUse] decodes it. *)
Module Mount.
Record t : Type := mk { Type' : string; Name : string; Source : string }.
End Mount.

(** The decoders of the queries: a container, an image, a volume and a
    network of a listing; the mounts of inspected containers, container
    by container; the names of the networks a container is attached to;
    the inspection record of a network (with the fallback to the raw
    fields, which reads the same text). *)
Record Decoders : Type := mkDecoders {
  unmarshalContainer : string -> Fallible Container.t;
  unmarshalImage : string -> Fallible Image.t;
  unmarshalVolume : string -> Fallible Volume.t;
  unmarshalNetwork : string -> Fallible Network.t;
  unmarshalMounts : string -> Fallible (list (list Mount.t));
  unmarshalNetworkNames : string -> Fallible (list string);
  unmarshalNetworkInspect : string -> Fallible NetworkInspect.t
}.

(** The line feed. *)
Definition newline : string := String (ascii_of_nat 10) EmptyString.

(** [strings.Split(strings.TrimSpace(string(out)), "\n")]. *)
Definition outputLines (out : string) : list string :=
  GoStrings.Split (GoStrings.TrimSpace out) newline.

(** The loop of [RunJSON] over the lines, [results] being the items
    decoded so far. *)
Fixpoint decodeLines {T : Type} (unmarshal : string -> Fallible T)
    (lines : list string) (results : list T) : Fallible (list T) :=
  match lines with
  | [] => Ok results
  | line :: rest =>
      if decide (line = "") then decodeLines unmarshal rest results
      else match unmarshal line with
           | Err e => Err ("failed to parse JSON: " +:+ e)
           | Ok item => decodeLines unmarshal rest (results ++ [item])
           end
  end.

Section Queries.
Context {W : Type} (E : Env W) (D : Decoders).

(** [RunJSON]. *)
Definition RunJSON {T : Type} (unmarshal : string -> Fallible T) (args : list string)
  : M W (Fallible (list T)) :=
  r <- Run E args ;;
  ret (match r with
       | Err e => Err e
       | Ok out => decodeLines unmarshal (outputLines out) []
       end).

(** [ListContainers], [ListImages], [ListVolumes], [ListNetworks]. *)
Definition ListContainers : M W (Fallible (list Container.t)) :=
  RunJSON (unmarshalContainer D) ["ps"; "-a"; "--no-trunc"; "--format"; "{{json .}}"].

Definition ListImages : M W (Fallible (list Image.t)) :=
  RunJSON (unmarshalImage D) ["images"; "-a"; "--no-trunc"; "--format"; "{{json .}}"].

Definition ListVolumes : M W (Fallible (list Volume.t)) :=
  RunJSON (unmarshalVolume D) ["volume"; "ls"; "--format"; "{{json .}}"].

Definition ListNetworks : M W (Fallible (list Network.t)) :=
  RunJSON (unmarshalNetwork D) ["network"; "ls"; "--no-trunc"; "--format"; "{{json .}}"].

(** [for _, line := range lines { if line != "" { inUse[line] = true } }]. *)
Definition addName (inUse : gmap string bool) (line : string) : gmap string bool :=
  if decide (line = "") then inUse else <[line := true]> inUse.

(** The loop over the lines of the inspection in [GetImagesInUse]. *)
Definition addImageID (inUse : gmap string bool) (line : string) : gmap string bool :=
  let imageID := NormalizeImageID (GoStrings.TrimSpace line) in
  if decide (imageID = "") then inUse else <[imageID := true]> inUse.

(** [for _, cid := range containerIDs { if cid != "" { ids = append(ids, cid) } }]. *)
Definition containerIDs (out : string) : list string :=
  filter (fun cid => cid <> "") (outputLines out).

(** [GetImagesInUse]. *)
Definition GetImagesInUse : M W (Fallible (gmap string bool)) :=
  names <- Run E ["ps"; "-a"; "--format"; "{{.Image}}"] ;;
  match names with
  | Err e => ret (Err e)
  | Ok out =>
      let inUse := fold_left addName (outputLines out) ∅ in
      listed <- Run E ["ps"; "-a"; "--no-trunc"; "--format"; "{{.ID}}"] ;;
      match listed with
      | Err e => ret (Err e)
      | Ok out =>
          match containerIDs out with
          | [] => ret (Ok inUse)
          | ids =>
              inspected <- Run E (["inspect"; "--format"; "{{.Image}}"] ++ ids) ;;
              ret (match inspected with
                   | Err _ => Ok inUse
                   | Ok inspectOut =>
                       Ok (fold_left addImageID (outputLines inspectOut) inUse)
                   end)
          end
      end
  end.

(** The two loops over the decoded containers and their mounts in
    [GetVolumesInUse]. *)
Definition addMount (inUse : gmap string bool) (m : Mount.t) : gmap string bool :=
  if (bool_decide (Mount.Type' m = "volume") && negb (bool_decide (Mount.Name m = "")))%bool
  then <[Mount.Name m := true]> inUse else inUse.

Definition addMounts (inUse : gmap string bool) (containers : list (list Mount.t))
  : gmap string bool :=
  fold_left (fun inUse mounts => fold_left addMount mounts inUse) containers inUse.

(** [GetVolumesInUse]. *)
Definition GetVolumesInUse : M W (Fallible (gmap string bool)) :=
  listed <- Run E ["ps"; "-a"; "--no-trunc"; "--format"; "{{.ID}}"] ;;
  match listed with
  | Err e => ret (Err e)
  | Ok out =>
      match containerIDs out with
      | [] => ret (Ok ∅)
      | ids =>
          inspected <- Run E (["inspect"] ++ ids) ;;
          ret (match inspected with
               | Err _ => Ok ∅
               | Ok inspectOut =>
                   match unmarshalMounts D inspectOut with
                   | Err _ => Ok ∅
                   | Ok containers => Ok (addMounts ∅ containers)
                   end
               end)
      end
  end.

(** The body of the loop over the container IDs in [GetNetworksInUse]. *)
Definition addNetworksOf (cid : string) (inUse : gmap string bool)
  : M W (gmap string bool) :=
  if decide (cid = "") then ret inUse
  else
    netOut <- Run E ["inspect"; "--format"; "{{json .NetworkSettings.Networks}}"; cid] ;;
    ret (match netOut with
         | Err _ => inUse
         | Ok out =>
             match unmarshalNetworkNames D out with
             | Err _ => inUse
             | Ok names => fold_left (fun m name => <[name := true]> m) names inUse
             end
         end).

(** [GetNetworksInUse]. *)
Definition GetNetworksInUse : M W (Fallible (gmap string bool)) :=
  listed <- Run E ["ps"; "-a"; "--format"; "{{.ID}}"] ;;
  match listed with
  | Err e => ret (Err e)
  | Ok out =>
      inUse <- rangeFold addNetworksOf (outputLines out) ∅ ;;
      ret (Ok inUse)
  end.

(** [InspectNetwork]. *)
Definition InspectNetwork (id : string) : M W (Fallible NetworkInspect.t) :=
  r <- Run E ["network"; "inspect"; "--format"; "{{json .}}"; id] ;;
  ret (match r with
       | Err e => Err e
       | Ok out => unmarshalNetworkInspect D out
       end).

(** The environment whose queries are the package's own, over the
    process execution, the batch decoders and the clock of [E]. *)
Definition implemented : Env W :=
  {| cliRuntime := cliRuntime E;
     exec := exec E;
     unmarshalContainerInspect := unmarshalContainerInspect E;
     unmarshalContainerInspects := unmarshalContainerInspects E;
     unmarshalImageInspect := unmarshalImageInspect E;
     unmarshalImageInspects := unmarshalImageInspects E;
     unmarshalVolumeInspect := unmarshalVolumeInspect E;
     unmarshalVolumeInspects := unmarshalVolumeInspects E;
     Docker.ListContainers := ListContainers;
     Docker.ListImages := ListImages;
     Docker.ListVolumes := ListVolumes;
     Docker.ListNetworks := ListNetworks;
     Docker.GetImagesInUse := GetImagesInUse;
     Docker.GetVolumesInUse := GetVolumesInUse;
     Docker.GetNetworksInUse := GetNetworksInUse;
     Docker.InspectNetwork := InspectNetwork;
     timeNow := timeNow E;
     timeParseRFC3339Nano := timeParseRFC3339Nano E |}.

End Queries.

End Impl.

End Docker.

(* ===================================================================== *)
(** * Package [internal/sweep]: the resource model *)
(* ===================================================================== *)

Module Sweep.

(** [type ResourceType string] and its four constants. *)
Abbreviation ResourceType := string (only parsing).
Definition TypeContainer : ResourceType := "container".
Definition TypeImage : ResourceType := "image".
Definition TypeVolume : ResourceType := "volume".
Definition TypeNetwork : ResourceType := "network".

(** [type Category string] and its four constants. *)
Abbreviation Category := string (only parsing).
Definition CategoryProtected : Category := "protected".
Definition CategoryInUse : Category := "in_use".
Definition CategorySuggested : Category := "suggested".
Definition CategoryUnused : Category := "unused".

(** A value of the interface [Resource].  Its methods take no argument
    and read an analysed record that is never written again, so the
    value is given by what each method returns. *)
Record Resource : Type := mkResource {
  ID : string;
  Type' : ResourceType;
  DisplayName : string;
  Category' : Category;
  Details : string;
  Size : Z;
  IsProtected : bool;
  IsSuggested : bool
}.

(** [if len(name) > limit { name = name[:limit-3] + "..." }]. *)
Definition truncate (limit : nat) (name : string) : string :=
  if Nat.ltb limit (String.length name)
  then GoStrings.take (limit - 3) name +:+ "..."
  else name.

(** [ContainerResource] and its methods. *)
Module ContainerResource.
Record t : Type := mk {
  container : Docker.Container.t;
  category : Category;
  labels : StringMap;
  createdAt : Time;
  composeProject : string;
  protectReason : string
}.

Definition ID (c : t) : string := Docker.Container.ID (container c).
Definition Type' (c : t) : ResourceType := TypeContainer.
Definition Category' (c : t) : Category := category c.
Definition Size (c : t) : Z := 0.
Definition IsProtected (c : t) : bool := bool_decide (category c = CategoryProtected).
Definition IsSuggested (c : t) : bool := bool_decide (category c = CategorySuggested).
Definition CreatedAt (c : t) : Time := createdAt c.
Definition ProtectReason (c : t) : string := protectReason c.
Definition ComposeProject (c : t) : string := composeProject c.

Definition DisplayName (c : t) : string :=
  truncate 20 (GoStrings.TrimPrefix (Docker.Container.Names (container c)) "/").

Definition Details (c : t) : string :=
  Docker.Container.State (container c) +:+ "  "
  +:+ truncate 25 (Docker.Container.Image (container c)).

(** The record as a [Resource] (the conversion [&r.Containers[i]]). *)
Definition asResource (c : t) : Resource :=
  {| Sweep.ID := ID c; Sweep.Type' := Type' c; Sweep.DisplayName := DisplayName c;
     Sweep.Category' := Category' c; Sweep.Details := Details c;
     Sweep.Size := Size c; Sweep.IsProtected := IsProtected c;
     Sweep.IsSuggested := IsSuggested c |}.
End ContainerResource.

(** [trimImageID]. *)
Definition trimImageID (id : string) : string :=
  let id :=
    if (Nat.ltb 7 (String.length id) && bool_decide (GoStrings.take 7 id = "sha256:"))%bool
    then GoStrings.drop 7 id else id in
  if Nat.ltb 12 (String.length id) then GoStrings.take 12 id else id.

(** [ImageResource] and its methods. *)
Module ImageResource.
Record t : Type := mk {
  image : Docker.Image.t;
  category : Category;
  inUse : bool;
  size : Z;
  labels : StringMap;
  createdAt : Time;
  protectReason : string
}.

Definition ID (i : t) : string := Docker.Image.ID (image i).
Definition Type' (i : t) : ResourceType := TypeImage.
Definition Category' (i : t) : Category := category i.
Definition Size (i : t) : Z := size i.
Definition IsProtected (i : t) : bool := bool_decide (category i = CategoryProtected).
Definition IsSuggested (i : t) : bool := bool_decide (category i = CategorySuggested).
Definition CreatedAt (i : t) : Time := createdAt i.
Definition ProtectReason (i : t) : string := protectReason i.

Definition DisplayName (i : t) : string :=
  if decide (Docker.Image.Repository (image i) = "<none>")
  then "<none>:" +:+ trimImageID (Docker.Image.ID (image i))
  else
    let name := Docker.Image.Repository (image i) in
    let name :=
      if decide (Docker.Image.Tag (image i) = "<none>") then name
      else name +:+ ":" +:+ Docker.Image.Tag (image i) in
    truncate 30 name.

Definition Details (i : t) : string :=
  if inUse i then "in use"
  else if decide (Docker.Image.Repository (image i) = "<none>") then "dangling"
  else "unused".

Definition IsDangling (i : t) : bool :=
  (bool_decide (Docker.Image.Repository (image i) = "<none>")
   && bool_decide (Docker.Image.Tag (image i) = "<none>"))%bool.

Definition asResource (i : t) : Resource :=
  {| Sweep.ID := ID i; Sweep.Type' := Type' i; Sweep.DisplayName := DisplayName i;
     Sweep.Category' := Category' i; Sweep.Details := Details i;
     Sweep.Size := Size i; Sweep.IsProtected := IsProtected i;
     Sweep.IsSuggested := IsSuggested i |}.
End ImageResource.

(** [VolumeResource] and its methods. *)
Module VolumeResource.
Record t : Type := mk {
  volume : Docker.Volume.t;
  category : Category;
  inUse : bool;
  labels : StringMap;
  createdAt : Time;
  composeProject : string;
  protectReason : string
}.

Definition ID (v : t) : string := Docker.Volume.Name (volume v).
Definition Type' (v : t) : ResourceType := TypeVolume.
Definition Category' (v : t) : Category := category v.
Definition Size (v : t) : Z := 0.
Definition IsProtected (v : t) : bool := bool_decide (category v = CategoryProtected).
Definition IsSuggested (v : t) : bool := bool_decide (category v = CategorySuggested).
Definition CreatedAt (v : t) : Time := createdAt v.
Definition ProtectReason (v : t) : string := protectReason v.
Definition ComposeProject (v : t) : string := composeProject v.

Definition DisplayName (v : t) : string :=
  truncate 30 (Docker.Volume.Name (volume v)).

Definition Details (v : t) : string :=
  if inUse v then "in use"
  else if Docker.IsAnonymousVolume (Docker.Volume.Name (volume v)) then "anonymous"
  else "unused".

Definition IsAnonymous (v : t) : bool :=
  Docker.IsAnonymousVolume (Docker.Volume.Name (volume v)).

Definition asResource (v : t) : Resource :=
  {| Sweep.ID := ID v; Sweep.Type' := Type' v; Sweep.DisplayName := DisplayName v;
     Sweep.Category' := Category' v; Sweep.Details := Details v;
     Sweep.Size := Size v; Sweep.IsProtected := IsProtected v;
     Sweep.IsSuggested := IsSuggested v |}.
End VolumeResource.

(** [NetworkResource] and its methods. *)
Module NetworkResource.
Record t : Type := mk {
  network : Docker.Network.t;
  category : Category;
  inUse : bool;
  labels : StringMap;
  createdAt : Time;
  composeProject : string;
  protectReason : string
}.

Definition ID (n : t) : string := Docker.Network.ID (network n).
Definition Type' (n : t) : ResourceType := TypeNetwork.
Definition Category' (n : t) : Category := category n.
Definition Size (n : t) : Z := 0.
Definition IsProtected (n : t) : bool := bool_decide (category n = CategoryProtected).
Definition IsSuggested (n : t) : bool := bool_decide (category n = CategorySuggested).
Definition CreatedAt (n : t) : Time := createdAt n.
Definition ProtectReason (n : t) : string := protectReason n.
Definition ComposeProject (n : t) : string := composeProject n.

Definition DisplayName (n : t) : string :=
  truncate 30 (Docker.Network.Name (network n)).

Definition Details (n : t) : string :=
  if member Docker.SystemNetworks (Docker.Network.Name (network n)) then "system"
  else if inUse n then "in use"
  else Docker.Network.Driver (network n).

Definition Driver (n : t) : string := Docker.Network.Driver (network n).

Definition asResource (n : t) : Resource :=
  {| Sweep.ID := ID n; Sweep.Type' := Type' n; Sweep.DisplayName := DisplayName n;
     Sweep.Category' := Category' n; Sweep.Details := Details n;
     Sweep.Size := Size n; Sweep.IsProtected := IsProtected n;
     Sweep.IsSuggested := IsSuggested n |}.
End NetworkResource.

(** [Result]: what the four analyses returned. *)
Module Result.
Record t : Type := mk {
  Containers : list ContainerResource.t;
  Images : list ImageResource.t;
  Volumes : list VolumeResource.t;
  Networks : list NetworkResource.t
}.

(** [Suggested]. *)
Definition Suggested (r : t) : list Resource :=
  map ContainerResource.asResource (filter (fun c => ContainerResource.IsSuggested c = true) (Containers r))
  ++ map ImageResource.asResource (filter (fun i => ImageResource.IsSuggested i = true) (Images r))
  ++ map VolumeResource.asResource (filter (fun v => VolumeResource.IsSuggested v = true) (Volumes r))
  ++ map NetworkResource.asResource (filter (fun n => NetworkResource.IsSuggested n = true) (Networks r)).

(** [All]: every resource that is not protected. *)
Definition All (r : t) : list Resource :=
  map ContainerResource.asResource (filter (fun c => ContainerResource.IsProtected c = false) (Containers r))
  ++ map ImageResource.asResource (filter (fun i => ImageResource.IsProtected i = false) (Images r))
  ++ map VolumeResource.asResource (filter (fun v => VolumeResource.IsProtected v = false) (Volumes r))
  ++ map NetworkResource.asResource (filter (fun n => NetworkResource.IsProtected n = false) (Networks r)).


(** [TotalSize]: the sizes of the suggested resources, added as [int64]. *)
Definition TotalSize (r : t) : Z :=
  fold_left (fun total res => Int64.add total (Sweep.Size res)) (Suggested r) 0.

End Result.

(* ------------------------------------------------------------------- *)
(** ** The deletion orchestrator *)
(* ------------------------------------------------------------------- *)

(** [isDependencyError]. *)
Definition isDependencyError (err : option string) : bool :=
  match err with
  | None => false
  | Some e =>
      let errStr := GoStrings.ToLower e in
      (GoStrings.Contains errStr "dependent"
       || GoStrings.Contains errStr "has dependent child images"
       || GoStrings.Contains errStr "image is being used"
       || GoStrings.Contains errStr "image has dependent child images")%bool
  end.

(** [isAlreadyRemovedError].  The [switch] under [if common] returns for
    the four kinds and falls through for any other type. *)
Definition isAlreadyRemovedError (resourceType : ResourceType) (err : option string) : bool :=
  match err with
  | None => false
  | Some e =>
      let errStr := GoStrings.ToLower e in
      let common :=
        (GoStrings.Contains errStr "not found" || GoStrings.Contains errStr "no such")%bool in
      let switched : option bool :=
        if common then
          if decide (resourceType = TypeImage) then Some (GoStrings.Contains errStr "image")
          else if decide (resourceType = TypeContainer) then Some (GoStrings.Contains errStr "container")
          else if decide (resourceType = TypeVolume) then Some (GoStrings.Contains errStr "volume")
          else if decide (resourceType = TypeNetwork) then Some (GoStrings.Contains errStr "network")
          else None
        else None in
      match switched with
      | Some answer => answer
      | None =>
          if (bool_decide (resourceType = TypeImage)
              && GoStrings.Contains errStr "image not known")%bool
          then true else false
      end
  end.

(** The four slices [DeleteResources] separates its input into. *)
Record Separated : Type := mkSeparated {
  containers : list Resource;
  images : list Resource;
  volumes : list Resource;
  networks : list Resource
}.

(** The [switch r.Type()] of the separating loop: a resource of none of
    the four types is appended nowhere. *)
Definition separateOne (s : Separated) (r : Resource) : Separated :=
  if decide (Type' r = TypeContainer) then
    mkSeparated (containers s ++ [r]) (images s) (volumes s) (networks s)
  else if decide (Type' r = TypeImage) then
    mkSeparated (containers s) (images s ++ [r]) (volumes s) (networks s)
  else if decide (Type' r = TypeVolume) then
    mkSeparated (containers s) (images s) (volumes s ++ [r]) (networks s)
  else if decide (Type' r = TypeNetwork) then
    mkSeparated (containers s) (images s) (volumes s) (networks s ++ [r])
  else s.

Definition separate (resources : list Resource) : Separated :=
  fold_left separateOne resources (mkSeparated [] [] [] []).

(** What the loop of [deleteAll] does with the answer [err] of the
    removal of [res], on the loop state [(deleted, errors)].  An error is
    kept as its message; the count is a natural number (it never exceeds
    the length of the input). *)
Definition deleteAllStep (res : Resource) (err : option string)
    (st : nat * list string) : nat * list string :=
  let (deleted, errors) := st in
  match err with
  | Some e =>
      if isAlreadyRemovedError (Type' res) err then (S deleted, errors)
      else (deleted, errors ++ [DisplayName res +:+ ": " +:+ e])
  | None => (S deleted, errors)
  end.

(** What the inner loop of [deleteImagesWithRetry] does with the answer
    [err] of the removal of [r], on the loop state
    [(failed, deleted, errors)]. *)
Definition imagePassStep (r : Resource) (err : option string)
    (st : list Resource * nat * list string) : list Resource * nat * list string :=
  let '(failed, deleted, errors) := st in
  match err with
  | Some e =>
      if isAlreadyRemovedError (Type' r) err then (failed, S deleted, errors)
      else if isDependencyError err then (failed ++ [r], deleted, errors)
      else (failed, deleted, errors ++ [DisplayName r +:+ ": " +:+ e])
  | None => (failed, S deleted, errors)
  end.

Section Orchestrator.
Context {W : Type} (E : Docker.Env W).

(** The body of the loop of [deleteAll]. *)
Definition deleteAllBody (res : Resource) (st : nat * list string)
  : M W (nat * list string) :=
  err <- Docker.Remove E (Type' res) (ID res) ;;
  ret (deleteAllStep res err st).

(** [deleteAll]. *)
Definition deleteAll (resources : list Resource) : M W (nat * list string) :=
  rangeFold deleteAllBody resources (O, []).

(** The body of the inner loop of [deleteImagesWithRetry]. *)
Definition imagePassBody (r : Resource) (st : list Resource * nat * list string)
  : M W (list Resource * nat * list string) :=
  err <- Docker.Remove E (Type' r) (ID r) ;;
  ret (imagePassStep r err st).

(** One pass over the pending images: [var failed []Resource], the
    inner loop, and [pending = failed]. *)
Definition imagePass (pending : list Resource) (deleted : nat) (errors : list string)
  : M W (list Resource * nat * list string) :=
  rangeFold imagePassBody pending ([], deleted, errors).

(** [for attempt := 0; attempt < 3 && len(pending) > 0; attempt++], with
    [attemptsLeft = 3 - attempt]. *)
Fixpoint imagePasses (attemptsLeft : nat) (pending : list Resource)
    (deleted : nat) (errors : list string)
  : M W (list Resource * nat * list string) :=
  match attemptsLeft, pending with
  | S attemptsLeft', _ :: _ =>
      st <- imagePass pending deleted errors ;;
      let '(failed, deleted', errors') := st in
      imagePasses attemptsLeft' failed deleted' errors'
  | _, _ => ret (pending, deleted, errors)
  end.

(** The error of an image that is still pending after the last pass. *)
Definition dependentError (r : Resource) : string :=
  DisplayName r +:+ ": has dependent images (not deleted)".

(** [deleteImagesWithRetry]. *)
Definition deleteImagesWithRetry (resources : list Resource) : M W (nat * list string) :=
  st <- imagePasses 3 resources O [] ;;
  let '(pending, deleted, errors) := st in
  ret (deleted, errors ++ map dependentError pending).

(** [DeleteResources]. *)
Definition DeleteResources (resources : list Resource) : M W (nat * list string) :=
  let s := separate resources in
  r1 <- deleteAll (containers s) ;;
  r2 <- deleteAll (networks s) ;;
  r3 <- deleteAll (volumes s) ;;
  r4 <- deleteImagesWithRetry (images s) ;;
  ret ((fst r1 + fst r2 + fst r3 + fst r4)%nat,
       snd r1 ++ snd r2 ++ snd r3 ++ snd r4).

End Orchestrator.

(* ------------------------------------------------------------------- *)
(** ** The categorisation policy *)
(* ------------------------------------------------------------------- *)

(** [categorizeContainer]. *)
Definition categorizeContainer (c : Docker.Container.t) (labels : StringMap)
    (cfg : Config.t) : Category * string :=
  if decide (index labels Docker.LabelProtect = "true") then
    (CategoryProtected, "protected by label")
  else
    let state := Docker.Container.State c in
    if decide (state = "running") then (CategoryProtected, "running")
    else if decide (state = "paused") then (CategoryProtected, "paused")
    else if decide (state = "restarting") then (CategoryProtected, "restarting")
    else if decide (state = "exited" \/ state = "dead" \/ state = "created")
         then (CategorySuggested, "")
    else (CategoryUnused, "").

(** [labels != nil && labels[docker.LabelProtect] == "true"]. *)
Definition protectedByLabel (labels : StringMap) : bool :=
  match labels with
  | None => false
  | Some _ => bool_decide (index labels Docker.LabelProtect = "true")
  end.

(** [img.Repository == "<none>" && img.Tag == "<none>"]. *)
Definition isDangling (img : Docker.Image.t) : bool :=
  (bool_decide (Docker.Image.Repository img = "<none>")
   && bool_decide (Docker.Image.Tag img = "<none>"))%bool.

(** [categorizeImage]. *)
Definition categorizeImage (img : Docker.Image.t) (inUse : bool) (labels : StringMap)
    (cfg : Config.t) : Category * string :=
  if protectedByLabel labels then (CategoryProtected, "protected by label")
  else if inUse then (CategoryProtected, "in use by container")
  else if isDangling img then (CategorySuggested, "")
  else (CategoryUnused, "").

(** [categorizeVolume]. *)
Definition categorizeVolume (vol : Docker.Volume.t) (inUse : bool) (labels : StringMap)
    (cfg : Config.t) : Category * string :=
  if protectedByLabel labels then (CategoryProtected, "protected by label")
  else if inUse then (CategoryProtected, "mounted by container")
  else if Docker.IsAnonymousVolume (Docker.Volume.Name vol) then (CategorySuggested, "")
  else (CategoryUnused, "").

(** [categorizeNetwork]. *)
Definition categorizeNetwork (net : Docker.Network.t) (inUse : bool) (labels : StringMap)
    (cfg : Config.t) : Category * string :=
  if protectedByLabel labels then (CategoryProtected, "protected by label")
  else if member Docker.SystemNetworks (Docker.Network.Name net)
       then (CategoryProtected, "system network")
  else if inUse then (CategoryProtected, "in use by container")
  else (CategorySuggested, "").

(* ------------------------------------------------------------------- *)
(** ** The analysers *)
(* ------------------------------------------------------------------- *)

(** [for k, v := range extra { labels[k] = v }]. *)
Definition mergeLabels (labels : gmap string string) (extra : StringMap)
  : gmap string string :=
  match extra with
  | Some g => g ∪ labels
  | None => labels
  end.

(** An in-use query that failed counts as the empty set. *)
Definition orNothingInUse (r : Fallible (gmap string bool)) : gmap string bool :=
  match r with
  | Ok inUse => inUse
  | Err _ => ∅
  end.

Section Analysers.
Context {W : Type} (E : Docker.Env W).

(** The age filter, the same statement in the four analysers:
    [if cfg.OlderThan > 0 && !createdAt.IsZero() {
       if time.Since(createdAt) < cfg.OlderThan { continue } }].
    The result is [true] when the loop continues with the next record. *)
Definition notOldEnough (cfg : Config.t) (createdAt : Time) : M W bool :=
  if ((0 <? Config.OlderThan cfg) && negb (GoTime.IsZero createdAt))%bool then
    now <- Docker.timeNow E ;;
    ret (GoTime.Since now createdAt <? Config.OlderThan cfg)
  else ret false.

(** [if t, err := time.Parse(time.RFC3339Nano, s); err == nil { createdAt = t }]. *)
Definition parsedOr (createdAt : Time) (s : string) : Time :=
  match Docker.timeParseRFC3339Nano E s with
  | Some t => t
  | None => createdAt
  end.

(** *** Containers *)

(** The creation time and the labels of one container: from the batch
    inspection, else from an inspection of its own, else from the
    listing alone. *)
Definition containerDetail (inspectByID : gmap string Docker.ContainerInspect.t)
    (c : Docker.Container.t) : M W (Time * gmap string string) :=
  let labels := mergeLabels ∅ (Docker.Container.Labels c) in
  match inspectByID !! Docker.Container.ID c with
  | Some inspect =>
      ret (Docker.ContainerInspect.Created inspect,
           mergeLabels labels (Docker.ContainerInspect.ConfigLabels inspect))
  | None =>
      r <- Docker.InspectContainer E (Docker.Container.ID c) ;;
      ret (match r with
           | Ok inspect =>
               (Docker.ContainerInspect.Created inspect,
                mergeLabels labels (Docker.ContainerInspect.ConfigLabels inspect))
           | Err _ => (0, labels)
           end)
  end.

(** The body of the loop over the listed containers. *)
Definition containerBody (cfg : Config.t)
    (inspectByID : gmap string Docker.ContainerInspect.t) (c : Docker.Container.t)
  : M W (option ContainerResource.t) :=
  d <- containerDetail inspectByID c ;;
  let (createdAt, labels) := d in
  let composeProject := Docker.ComposeProjectFromLabels (Some labels) in
  let (category, protectReason) := categorizeContainer c (Some labels) cfg in
  skip <- notOldEnough cfg createdAt ;;
  if skip then ret None
  else if (Config.Exited cfg
           && negb (bool_decide (Docker.Container.State c = "exited")))%bool
  then ret None
  else ret (Some (ContainerResource.mk c category (Some labels) createdAt
                    composeProject protectReason)).

(** [AnalyzeContainersWithConfig]. *)
Definition AnalyzeContainersWithConfig (cfg : Config.t)
  : M W (Fallible (list ContainerResource.t)) :=
  listed <- Docker.ListContainers E ;;
  match listed with
  | Err e => ret (Err e)
  | Ok containers =>
      let containerIDs :=
        filter (fun id => id <> "") (map Docker.Container.ID containers) in
      batch <- Docker.InspectContainers E containerIDs ;;
      let inspectByID := match batch with Ok m => m | Err _ => ∅ end in
      results <- rangeCollect (containerBody cfg inspectByID) containers ;;
      ret (Ok results)
  end.

(** [AnalyzeContainers]. *)
Definition AnalyzeContainers : M W (Fallible (list ContainerResource.t)) :=
  AnalyzeContainersWithConfig Config.DefaultConfig.

(** *** Images *)

(** [needsInspect] of the first loop over the listed images. *)
Definition needsInspect (cfg : Config.t) (img : Docker.Image.t) : bool :=
  ((0 <? Config.MinSize cfg)
     && (negb (Docker.Image.HasSize img) || (Docker.Image.SizeBytes img =? 0))
   || (0 <? Config.OlderThan cfg) && negb (Docker.Image.HasCreatedAt img)
   || negb (Docker.Image.HasListLabels img))%bool.

(** The first loop: the normalised IDs, and those to inspect. *)
Definition inspectPlan (cfg : Config.t) (images : list Docker.Image.t)
  : list string * gmap string bool :=
  fold_left
    (fun (acc : list string * gmap string bool) img =>
       let (imageIDs, inspectNeeded) := acc in
       let id := Docker.NormalizeImageID (Docker.Image.ID img) in
       if decide (id = "") then acc
       else (imageIDs ++ [id],
             if needsInspect cfg img then <[id := true]> inspectNeeded
             else inspectNeeded))
    images ([], ∅).

(** What an inspection record overrides: size, labels, creation time. *)
Definition fromImageInspect (createdAt : Time) (inspect : Docker.ImageInspect.t)
  : Z * StringMap * Time :=
  (Docker.ImageInspect.Size inspect, Docker.ImageInspect.Labels inspect,
   parsedOr createdAt (Docker.ImageInspect.Created inspect)).

(** Size, labels and creation time of one image, before the fallbacks
    to the listing. *)
Definition imageDetail (inspectByID : gmap string Docker.ImageInspect.t)
    (inspectNeeded : gmap string bool) (img : Docker.Image.t)
  : M W (Z * StringMap * Time) :=
  let normalizedID := Docker.NormalizeImageID (Docker.Image.ID img) in
  let listed := (Docker.Image.SizeBytes img, Docker.Image.ListLabels img,
                 Docker.Image.CreatedAtTime img) in
  match inspectByID !! normalizedID with
  | Some inspect => ret (fromImageInspect (Docker.Image.CreatedAtTime img) inspect)
  | None =>
      if member inspectNeeded normalizedID then
        r <- Docker.InspectImage E (Docker.Image.ID img) ;;
        ret (match r with
             | Ok inspect => fromImageInspect (Docker.Image.CreatedAtTime img) inspect
             | Err _ => listed
             end)
      else ret listed
  end.

(** The fallbacks to the listing, after the inspection. *)
Definition imageFallbacks (img : Docker.Image.t) (d : Z * StringMap * Time)
  : Z * StringMap * Time :=
  let '(size, labels, createdAt) := d in
  let labels := match labels with Some g => Some g | None => Some ∅ end in
  let size :=
    if ((size =? 0) && Docker.Image.HasSize img)%bool
    then Docker.Image.SizeBytes img else size in
  let createdAt :=
    if (GoTime.IsZero createdAt && Docker.Image.HasCreatedAt img)%bool
    then Docker.Image.CreatedAtTime img else createdAt in
  let createdAt :=
    if (GoTime.IsZero createdAt
        && negb (bool_decide (Docker.Image.CreatedAt img = "")))%bool
    then parsedOr createdAt (Docker.Image.CreatedAt img) else createdAt in
  (size, labels, createdAt).

(** The body of the second loop over the listed images. *)
Definition imageBody (cfg : Config.t) (inUse : gmap string bool)
    (inspectByID : gmap string Docker.ImageInspect.t)
    (inspectNeeded : gmap string bool) (img : Docker.Image.t)
  : M W (option ImageResource.t) :=
  let normalizedID := Docker.NormalizeImageID (Docker.Image.ID img) in
  let used :=
    (member inUse (Docker.Image.Repository img +:+ ":" +:+ Docker.Image.Tag img)
     || member inUse normalizedID)%bool in
  d <- imageDetail inspectByID inspectNeeded img ;;
  let '(size, labels, createdAt) := imageFallbacks img d in
  skip <- notOldEnough cfg createdAt ;;
  if skip then ret None
  else if ((0 <? Config.MinSize cfg) && (size <? Config.MinSize cfg))%bool
  then ret None
  else if (Config.Dangling cfg && negb (isDangling img))%bool then ret None
  else if (Config.NoDangling cfg && isDangling img)%bool then ret None
  else
    let (category, protectReason) := categorizeImage img used labels cfg in
    ret (Some (ImageResource.mk img category used size labels createdAt
                 protectReason)).

(** [AnalyzeImagesWithConfig]. *)
Definition AnalyzeImagesWithConfig (cfg : Config.t)
  : M W (Fallible (list ImageResource.t)) :=
  listed <- Docker.ListImages E ;;
  match listed with
  | Err e => ret (Err e)
  | Ok images =>
      used <- Docker.GetImagesInUse E ;;
      let inUse := orNothingInUse used in
      let (imageIDs, inspectNeeded) := inspectPlan cfg images in
      inspectByID <-
        (if decide (inspectNeeded = ∅) then ret ∅
         else
           let idsToInspect :=
             filter (fun id => member inspectNeeded id = true) imageIDs in
           batch <- Docker.InspectImages E idsToInspect ;;
           ret (match batch with Ok m => m | Err _ => ∅ end)) ;;
      results <- rangeCollect (imageBody cfg inUse inspectByID inspectNeeded) images ;;
      ret (Ok results)
  end.

(** [AnalyzeImages]. *)
Definition AnalyzeImages : M W (Fallible (list ImageResource.t)) :=
  AnalyzeImagesWithConfig Config.DefaultConfig.

(** *** Volumes *)

(** What an inspection record of a volume gives: labels, creation time
    and compose project. *)
Definition fromVolumeInspect (inspect : Docker.VolumeInspect.t)
  : StringMap * Time * string :=
  (Docker.VolumeInspect.Labels inspect,
   parsedOr 0 (Docker.VolumeInspect.CreatedAt inspect),
   Docker.ComposeProjectFromLabels (Docker.VolumeInspect.Labels inspect)).

(** Labels, creation time and compose project of one volume. *)
Definition volumeDetail (inspectByName : gmap string Docker.VolumeInspect.t)
    (vol : Docker.Volume.t) : M W (StringMap * Time * string) :=
  match inspectByName !! Docker.Volume.Name vol with
  | Some inspect => ret (fromVolumeInspect inspect)
  | None =>
      r <- Docker.InspectVolume E (Docker.Volume.Name vol) ;;
      ret (match r with
           | Ok inspect => fromVolumeInspect inspect
           | Err _ => (None, 0, "")
           end)
  end.

(** The body of the loop over the listed volumes. *)
Definition volumeBody (cfg : Config.t) (inUse : gmap string bool)
    (inspectByName : gmap string Docker.VolumeInspect.t) (vol : Docker.Volume.t)
  : M W (option VolumeResource.t) :=
  let used := member inUse (Docker.Volume.Name vol) in
  d <- volumeDetail inspectByName vol ;;
  let '(labels, createdAt, composeProject) := d in
  skip <- notOldEnough cfg createdAt ;;
  if skip then ret None
  else if (Config.Anonymous cfg
           && negb (Docker.IsAnonymousVolume (Docker.Volume.Name vol)))%bool
  then ret None
  else
    let (category, protectReason) := categorizeVolume vol used labels cfg in
    ret (Some (VolumeResource.mk vol category used labels createdAt
                 composeProject protectReason)).

(** [AnalyzeVolumesWithConfig]. *)
Definition AnalyzeVolumesWithConfig (cfg : Config.t)
  : M W (Fallible (list VolumeResource.t)) :=
  listed <- Docker.ListVolumes E ;;
  match listed with
  | Err e => ret (Err e)
  | Ok volumes =>
      let volumeNames :=
        filter (fun name => name <> "") (map Docker.Volume.Name volumes) in
      batch <- Docker.InspectVolumes E volumeNames ;;
      let inspectByName := match batch with Ok m => m | Err _ => ∅ end in
      used <- Docker.GetVolumesInUse E ;;
      let inUse := orNothingInUse used in
      results <- rangeCollect (volumeBody cfg inUse inspectByName) volumes ;;
      ret (Ok results)
  end.

(** [AnalyzeVolumes]. *)
Definition AnalyzeVolumes : M W (Fallible (list VolumeResource.t)) :=
  AnalyzeVolumesWithConfig Config.DefaultConfig.

(** *** Networks *)

(** Labels, creation time and compose project of one network. *)
Definition networkDetail (net : Docker.Network.t) : M W (StringMap * Time * string) :=
  r <- Docker.InspectNetwork E (Docker.Network.ID net) ;;
  ret (match r with
       | Ok inspect =>
           (Docker.NetworkInspect.Labels inspect,
            parsedOr 0 (Docker.NetworkInspect.Created inspect),
            Docker.ComposeProjectFromLabels (Docker.NetworkInspect.Labels inspect))
       | Err _ => (None, 0, "")
       end).

(** The body of the loop over the listed networks. *)
Definition networkBody (cfg : Config.t) (inUse : gmap string bool)
    (net : Docker.Network.t) : M W (option NetworkResource.t) :=
  let used := member inUse (Docker.Network.Name net) in
  d <- networkDetail net ;;
  let '(labels, createdAt, composeProject) := d in
  skip <- notOldEnough cfg createdAt ;;
  if skip then ret None
  else
    let (category, protectReason) := categorizeNetwork net used labels cfg in
    ret (Some (NetworkResource.mk net category used labels createdAt
                 composeProject protectReason)).

(** [AnalyzeNetworksWithConfig]. *)
Definition AnalyzeNetworksWithConfig (cfg : Config.t)
  : M W (Fallible (list NetworkResource.t)) :=
  listed <- Docker.ListNetworks E ;;
  match listed with
  | Err e => ret (Err e)
  | Ok networks =>
      used <- Docker.GetNetworksInUse E ;;
      let inUse := orNothingInUse used in
      results <- rangeCollect (networkBody cfg inUse) networks ;;
      ret (Ok results)
  end.

(** [AnalyzeNetworks]. *)
Definition AnalyzeNetworks : M W (Fallible (list NetworkResource.t)) :=
  AnalyzeNetworksWithConfig Config.DefaultConfig.

End Analysers.

End Sweep.

(* ===================================================================== *)
(** * Package [cmd]: the flags and the configuration built from them *)
(* ===================================================================== *)

Module Cmd.

(** The package variables that the command line sets. *)
Record Flags : Type := mkFlags {
  flagYes : bool;
  flagDryRun : bool;
  flagOlderThan : string;
  flagMinSize : string;
  flagDangling : bool;
  flagNoDangling : bool;
  flagGC : bool;
  flagExited : bool;
  flagAnonymous : bool
}.

(** [buildConfig].  [timeParseDuration] is [time.ParseDuration];
    [parseSize] is [config.ParseSize], whose arithmetic is in floating
    point and is taken as it is. *)
Definition buildConfig (timeParseDuration : string -> option Z)
    (parseSize : string -> Fallible Z) (f : Flags) : Fallible Config.t :=
  let dangling := if flagGC f then false else flagDangling f in
  let noDangling :=
    if flagGC f then false
    else if (negb (flagDangling f) && negb (flagNoDangling f))%bool then true
    else flagNoDangling f in
  let yes := if flagGC f then true else flagYes f in
  let olderThan :=
    if negb (bool_decide (flagOlderThan f = ""))
    then Config.ParseDuration timeParseDuration (flagOlderThan f)
    else Ok 0 in
  match olderThan with
  | Err e => Err e
  | Ok d =>
      let minSize :=
        if negb (bool_decide (flagMinSize f = "")) then parseSize (flagMinSize f)
        else Ok 0 in
      match minSize with
      | Err e => Err e
      | Ok sz =>
          Ok {| Config.Yes := yes; Config.DryRun := flagDryRun f;
                Config.OlderThan := d; Config.MinSize := sz;
                Config.Dangling := dangling; Config.NoDangling := noDangling;
                Config.Exited := flagExited f; Config.Anonymous := flagAnonymous f |}
      end
  end.

(** [validateTypeSpecificFlags]: [None] is the nil error. *)
Definition validateTypeSpecificFlags (f : Flags)
    (includeContainers includeImages includeVolumes includeNetworks : bool)
  : option string :=
  if (flagExited f && negb includeContainers)%bool then
    Some "--exited only applies to containers; include --containers or -c"
  else if (negb (bool_decide (flagMinSize f = "")) && negb includeImages)%bool then
    Some "--min-size only applies to images; include --images or -i"
  else if (flagDangling f && negb includeImages)%bool then
    Some "--dangling only applies to images; include --images or -i"
  else if (flagNoDangling f && negb includeImages)%bool then
    Some "--no-dangling only applies to images; include --images or -i"
  else if (flagDangling f && flagNoDangling f)%bool then
    Some "--dangling and --no-dangling are mutually exclusive"
  else if (flagGC f && flagDangling f)%bool then
    Some "--gc and --dangling are mutually exclusive"
  else if (flagGC f && flagNoDangling f)%bool then
    Some "--gc and --no-dangling are mutually exclusive"
  else if (flagAnonymous f && negb includeVolumes)%bool then
    Some "--anonymous only applies to volumes; include --volumes or -v"
  else None.

End Cmd.

(* ===================================================================== *)
(** * Vocabulary of the statements *)
(* ===================================================================== *)

(** The bytes of a string. *)
Definition bytes (s : string) : list ascii := list_ascii_of_string s.

(** The sixteen lower-case hexadecimal digits. *)
Definition lowerHexDigits : list ascii := bytes "0123456789abcdef".

(** The hexadecimal digits in either case. *)
Definition hexDigits : list ascii := bytes "0123456789abcdefABCDEF".

(** A name of 64 hexadecimal digits, the letters in upper case. *)
Definition upperHexName : string :=
  "0123456789ABCDEF0123456789ABCDEF0123456789ABCDEF0123456789ABCDEF".

(** The four kinds of resource. *)
Definition kinds : list string :=
  [Sweep.TypeContainer; Sweep.TypeImage; Sweep.TypeVolume; Sweep.TypeNetwork].

(** A container used in the examples: listed with the given state and
    nothing else. *)
Definition containerInState (state : string) : Docker.Container.t :=
  Docker.Container.mk "c1" "c1" "" state "" 0 "" None.

(** The runtime commands [Remove] executes for a resource of the given
    type: one for each of the four kinds, none for any other type. *)
Definition removeCalls (resourceType id : string) : list (list string) :=
  if decide (resourceType = "container") then [["rm"; id]]
  else if decide (resourceType = "image") then [["rmi"; id]]
  else if decide (resourceType = "volume") then [["volume"; "rm"; id]]
  else if decide (resourceType = "network") then [["network"; "rm"; id]]
  else [].

(** A computation of the world [W] run in a world that also carries a
    journal, which it leaves as it is. *)
Definition journaled {W A : Type} (c : M W A) : M (W * list (list string)) A :=
  fun wl => let (a, w') := c (fst wl) in (a, (w', snd wl)).

(** The environment [E] observed: every command given to the operating
    system is appended to a journal, in the order of execution; nothing
    else changes. *)
Definition recording {W : Type} (E : Docker.Env W) : Docker.Env (W * list (list string)) :=
  {| Docker.cliRuntime := Docker.cliRuntime E;
     Docker.exec := fun runtime args wl =>
       let (r, w') := Docker.exec E runtime args (fst wl) in
       (r, (w', snd wl ++ [args]));
     Docker.unmarshalContainerInspect := Docker.unmarshalContainerInspect E;
     Docker.unmarshalContainerInspects := Docker.unmarshalContainerInspects E;
     Docker.unmarshalImageInspect := Docker.unmarshalImageInspect E;
     Docker.unmarshalImageInspects := Docker.unmarshalImageInspects E;
     Docker.unmarshalVolumeInspect := Docker.unmarshalVolumeInspect E;
     Docker.unmarshalVolumeInspects := Docker.unmarshalVolumeInspects E;
     Docker.ListContainers := journaled (Docker.ListContainers E);
     Docker.ListImages := journaled (Docker.ListImages E);
     Docker.ListVolumes := journaled (Docker.ListVolumes E);
     Docker.ListNetworks := journaled (Docker.ListNetworks E);
     Docker.GetImagesInUse := journaled (Docker.GetImagesInUse E);
     Docker.GetVolumesInUse := journaled (Docker.GetVolumesInUse E);
     Docker.GetNetworksInUse := journaled (Docker.GetNetworksInUse E);
     Docker.InspectNetwork := fun id => journaled (Docker.InspectNetwork E id);
     Docker.timeNow := journaled (Docker.timeNow E);
     Docker.timeParseRFC3339Nano := Docker.timeParseRFC3339Nano E |}.

(** The journal of a computation started with an empty journal. *)
Definition journal {W A : Type} (c : M (W * list (list string)) A) (w : W)
  : list (list string) :=
  snd (snd (c (w, []))).

(** The resources of one type, in their order. *)
Definition ofType (resourceType : string) (resources : list Sweep.Resource)
  : list Sweep.Resource :=
  filter (fun r => Sweep.Type' r = resourceType) resources.

(** A removal failure "indicates that the resource no longer exists", in
    the words of the specification: the message holds ["not found"] or
    ["no such"] together with the name of the kind, or, for an image,
    ["image not known"]. *)
Definition indicatesGone (kind msg : string) : bool :=
  ((GoStrings.Contains msg "not found" || GoStrings.Contains msg "no such")
   && GoStrings.Contains msg kind
   || bool_decide (kind = "image") && GoStrings.Contains msg "image not known")%bool.


(** The runtime commands that remove the given resources, one after the
    other. *)
Definition callsOf (resources : list Sweep.Resource) : list (list string) :=
  flat_map (fun r => removeCalls (Sweep.Type' r) (Sweep.ID r)) resources.

(** Each list is a sublist of the one before it, the first of [start]. *)
Fixpoint narrowing (start : list Sweep.Resource) (passes : list (list Sweep.Resource))
  : Prop :=
  match passes with
  | [] => True
  | p :: rest => sublist p start /\ narrowing p rest
  end.

(** An environment over a world without state: every command is answered
    by [script], the clock reads [now], and the listing and inspection
    queries answer that the runtime is unavailable. *)
Definition scriptedEnv (script : list string -> Docker.ExecResult) (now : Z)
  : Docker.Env unit :=
  {| Docker.cliRuntime := "docker";
     Docker.exec := fun _ args w => (script args, w);
     Docker.unmarshalContainerInspect := fun _ => Err "unexpected end of JSON input";
     Docker.unmarshalContainerInspects := fun _ => Err "unexpected end of JSON input";
     Docker.unmarshalImageInspect := fun _ => Err "unexpected end of JSON input";
     Docker.unmarshalImageInspects := fun _ => Err "unexpected end of JSON input";
     Docker.unmarshalVolumeInspect := fun _ => Err "unexpected end of JSON input";
     Docker.unmarshalVolumeInspects := fun _ => Err "unexpected end of JSON input";
     Docker.ListContainers := ret (Err "unavailable");
     Docker.ListImages := ret (Err "unavailable");
     Docker.ListVolumes := ret (Err "unavailable");
     Docker.ListNetworks := ret (Err "unavailable");
     Docker.GetImagesInUse := ret (Err "unavailable");
     Docker.GetVolumesInUse := ret (Err "unavailable");
     Docker.GetNetworksInUse := ret (Err "unavailable");
     Docker.InspectNetwork := fun _ => ret (Err "unavailable");
     Docker.timeNow := ret now;
     Docker.timeParseRFC3339Nano := fun _ => None |}.

(** The resources of the examples: a stopped container [c1], the images
    [i1] and [i2] (untagged, so that they display as their repository
    name), the network [n1] and the volume [v1]. *)
Definition exampleContainer : Sweep.Resource :=
  Sweep.ContainerResource.asResource
    (Sweep.ContainerResource.mk (containerInState "exited") Sweep.CategorySuggested
       None 0 "" "").

Definition exampleImage (name : string) : Sweep.Resource :=
  Sweep.ImageResource.asResource
    (Sweep.ImageResource.mk
       (Docker.Image.mk name name "<none>" "" "" 0 false 0 false None false)
       Sweep.CategoryUnused false 0 None 0 "").

Definition exampleNetwork : Sweep.Resource :=
  Sweep.NetworkResource.asResource
    (Sweep.NetworkResource.mk (Docker.Network.mk "n1" "n1" "bridge" "local")
       Sweep.CategorySuggested false None 0 "" "").

Definition exampleVolume : Sweep.Resource :=
  Sweep.VolumeResource.asResource
    (Sweep.VolumeResource.mk (Docker.Volume.mk "v1" "local" "")
       Sweep.CategoryUnused false None 0 "" "").

(** The runtime of the scenario of the specification: removing [c1] fails
    with "no such container", removing [i1] fails every time with "has
    dependent child images", every other command succeeds. *)
Definition scenarioScript (args : list string) : Docker.ExecResult :=
  if decide (args = ["rm"; "c1"]) then Docker.Failed "no such container"
  else if decide (args = ["rmi"; "i1"]) then Docker.Failed "has dependent child images"
  else Docker.Exited "".

Definition scenarioEnv : Docker.Env unit := scriptedEnv scenarioScript 0.

(** The runtime answers every attempt to remove [r] with a failure whose
    message indicates that [r] no longer exists. *)
Definition answersGone {W : Type} (E : Docker.Env W) (r : Sweep.Resource) : Prop :=
  forall w : W, exists msg,
    fst (Docker.Remove E (Sweep.Type' r) (Sweep.ID r) w) = Some msg
    /\ indicatesGone (Sweep.Type' r) (GoStrings.ToLower msg) = true.










(** The label mapping [{"sweep.protect": "true"}]. *)
Definition protectLabels : option (gmap string string) :=
  Some {[ "sweep.protect" := "true" ]}.




(** The sizes of the suggested images of a result, added up. *)
Definition suggestedImageBytes (r : Sweep.Result.t) : Z :=
  foldr Z.add 0
    (map Sweep.ImageResource.size
       (filter (fun i => Sweep.ImageResource.IsSuggested i = true) (Sweep.Result.Images r))).

(** A result of the examples: one suggested (dangling) image of 10 MB,
    one unused image of 50 MB, and the unused named volume [data-01]. *)
Definition exampleResult : Sweep.Result.t :=
  {| Sweep.Result.Containers := [];
     Sweep.Result.Images :=
       [Sweep.ImageResource.mk
          (Docker.Image.mk "sha256:0123456789abcdef0123" "<none>" "<none>" "" ""
             10485760 true 0 false None false)
          Sweep.CategorySuggested false 10485760 (Some ∅) 0 "";
        Sweep.ImageResource.mk
          (Docker.Image.mk "sha256:aa" "nginx" "latest" "" "" 52428800 true 0 false None false)
          Sweep.CategoryUnused false 52428800 (Some ∅) 0 ""];
     Sweep.Result.Volumes :=
       [Sweep.VolumeResource.mk (Docker.Volume.mk "data-01" "local" "")
          Sweep.CategoryUnused false None 0 "" ""];
     Sweep.Result.Networks := [] |}.

(** What a runtime of the examples lists: a stopped and a running
    container, a dangling image and the image [nginx:latest], the named
    volume [data-01] and an anonymous volume, the system network
    [bridge] and the network [backend].  Nothing is in use, and every
    inspection fails, so that the analysers work from the listings. *)
Definition danglingImage : Docker.Image.t :=
  Docker.Image.mk "sha256:0123456789abcdef0123" "<none>" "<none>" "" "10MB"
    10485760 true 0 false (Some ∅) true.

Definition nginxImage : Docker.Image.t :=
  Docker.Image.mk "sha256:aa" "nginx" "latest" "" "50MB" 52428800 true 0 false (Some ∅) true.

Definition anonymousName : string :=
  "0123456789abcdef0123456789abcdef0123456789abcdef0123456789abcdef".

Definition listingEnv : Docker.Env unit :=
  {| Docker.cliRuntime := "docker";
     Docker.exec := fun _ _ w => (Docker.Failed "unavailable", w);
     Docker.unmarshalContainerInspect := fun _ => Err "unexpected end of JSON input";
     Docker.unmarshalContainerInspects := fun _ => Err "unexpected end of JSON input";
     Docker.unmarshalImageInspect := fun _ => Err "unexpected end of JSON input";
     Docker.unmarshalImageInspects := fun _ => Err "unexpected end of JSON input";
     Docker.unmarshalVolumeInspect := fun _ => Err "unexpected end of JSON input";
     Docker.unmarshalVolumeInspects := fun _ => Err "unexpected end of JSON input";
     Docker.ListContainers :=
       ret (Ok [containerInState "exited";
                Docker.Container.mk "c2" "/web" "nginx" "running" "" 0 "" None]);
     Docker.ListImages := ret (Ok [danglingImage; nginxImage]);
     Docker.ListVolumes :=
       ret (Ok [Docker.Volume.mk "data-01" "local" "";
                Docker.Volume.mk anonymousName "local" ""]);
     Docker.ListNetworks :=
       ret (Ok [Docker.Network.mk "n0" "bridge" "bridge" "local";
                Docker.Network.mk "n1" "backend" "bridge" "local"]);
     Docker.GetImagesInUse := ret (Ok ∅);
     Docker.GetVolumesInUse := ret (Ok ∅);
     Docker.GetNetworksInUse := ret (Ok ∅);
     Docker.InspectNetwork := fun _ => ret (Err "unavailable");
     Docker.timeNow := ret 0;
     Docker.timeParseRFC3339Nano := fun _ => None |}.

(** No flag given but [--yes]. *)
Definition yesFlags : Cmd.Flags :=
  Cmd.mkFlags true false "" "" false false false false false.

(** The configuration with every filter of a kind switched on. *)
Definition narrowConfig : Config.t :=
  {| Config.Yes := false; Config.DryRun := false;
     Config.OlderThan := 0; Config.MinSize := 20971520;
     Config.Dangling := false; Config.NoDangling := true;
     Config.Exited := true; Config.Anonymous := true |}.

(** The configuration of a sweep started with [--yes] alone, and what its
    analysis of the images of [listingEnv] returns. *)
Definition yesConfig : Config.t :=
  {| Config.Yes := true; Config.DryRun := false;
     Config.OlderThan := 0; Config.MinSize := 0;
     Config.Dangling := false; Config.NoDangling := true;
     Config.Exited := false; Config.Anonymous := false |}.

Definition yesResult : Sweep.Result.t :=
  {| Sweep.Result.Containers := [];
     Sweep.Result.Images :=
       [Sweep.ImageResource.mk nginxImage Sweep.CategoryUnused false 52428800
          (Some ∅) 0 ""];
     Sweep.Result.Volumes := [];
     Sweep.Result.Networks := [] |}.

(** The text [key=value] of a label, and the listing of labels that the
    runtime prints: the labels separated by commas. *)
Definition renderLabel (label : string * string) : string :=
  fst label +:+ "=" +:+ snd label.

Definition renderLabels (labels : list (string * string)) : string :=
  GoStrings.Join (map renderLabel labels) ",".

(** A label that the listing can carry: no comma and no equals sign in
    the key, no comma in the value. *)
Definition plainLabel (label : string * string) : Prop :=
  GoStrings.Contains (fst label) "," = false
  /\ GoStrings.Contains (fst label) "=" = false
  /\ GoStrings.Contains (snd label) "," = false.

(** The map that holds the labels, a later one replacing an earlier one
    with the same key. *)
Definition labelMap (labels : list (string * string)) : gmap string string :=
  fold_left (fun m label => <[fst label := snd label]> m) labels ∅.

(** A natural number written in decimal digits. *)
Definition decimal (n : N) : string := NilZero.string_of_uint (N.to_uint n).

(** The unit letters of a duration in days, and the days of each. *)
Definition customUnits : list ascii := ["d"; "w"; "m"; "M"; "y"]%char.

Definition unitDays (unit : ascii) : Z :=
  if Ascii.eqb unit "d" then 1
  else if Ascii.eqb unit "w" then 7
  else if Ascii.eqb unit "y" then 365
  else 30.

(** The identifiers cut into batches of one hundred, in their order;
    [fuel] bounds the number of batches. *)
Fixpoint batchesFrom (fuel : nat) (ids : list string) : list (list string) :=
  match fuel with
  | O => []
  | S fuel' =>
      match ids with
      | [] => []
      | _ => firstn 100 ids :: batchesFrom fuel' (skipn 100 ids)
      end
  end.


(** An error of a deletion that names one of the resources [rs], of one
    of the four kinds: the name shown for it, a colon, and a text. *)
Definition attributed (rs : list Sweep.Resource) (e : string) : Prop :=
  exists r text,
    In r rs /\ In (Sweep.Type' r) kinds
    /\ e = Sweep.DisplayName r +:+ ": " +:+ text.

(** A command that inspects: [inspect ...] or [volume inspect ...]. *)
Definition inspection (args : list string) : Prop :=
  exists rest, args = "inspect" :: rest \/ args = "volume" :: "inspect" :: rest.

(** A computation in an observed world adds to the journal only
    commands that satisfy [P]. *)
Definition runsOnly {W A : Type} (P : list string -> Prop)
    (c : M (W * list (list string)) A) : Prop :=
  forall (w : W) (log : list (list string)),
    exists added, snd (snd (c (w, log))) = log ++ added /\ Forall P added.

(** The runtime of [listingEnv] when its in-use queries fail. *)
Definition blindEnv : Docker.Env unit :=
  {| Docker.cliRuntime := "docker";
     Docker.exec := fun _ _ w => (Docker.Failed "unavailable", w);
     Docker.unmarshalContainerInspect := fun _ => Err "unexpected end of JSON input";
     Docker.unmarshalContainerInspects := fun _ => Err "unexpected end of JSON input";
     Docker.unmarshalImageInspect := fun _ => Err "unexpected end of JSON input";
     Docker.unmarshalImageInspects := fun _ => Err "unexpected end of JSON input";
     Docker.unmarshalVolumeInspect := fun _ => Err "unexpected end of JSON input";
     Docker.unmarshalVolumeInspects := fun _ => Err "unexpected end of JSON input";
     Docker.ListContainers := Docker.ListContainers listingEnv;
     Docker.ListImages := Docker.ListImages listingEnv;
     Docker.ListVolumes := Docker.ListVolumes listingEnv;
     Docker.ListNetworks := Docker.ListNetworks listingEnv;
     Docker.GetImagesInUse := ret (Err "unavailable");
     Docker.GetVolumesInUse := ret (Err "unavailable");
     Docker.GetNetworksInUse := ret (Err "unavailable");
     Docker.InspectNetwork := fun _ => ret (Err "unavailable");
     Docker.timeNow := ret 0;
     Docker.timeParseRFC3339Nano := fun _ => None |}.

(** A command that reads: a listing or an inspection. *)
Definition readOnly (args : list string) : Prop :=
  exists rest,
    args = "ps" :: rest \/ args = "images" :: rest \/ args = "inspect" :: rest
    \/ args = "volume" :: "ls" :: rest \/ args = "volume" :: "inspect" :: rest
    \/ args = "network" :: "ls" :: rest \/ args = "network" :: "inspect" :: rest.


(* ===================================================================== *)
(** * Facts about byte strings *)
(* ===================================================================== *)

Import GoStrings.

Lemma app_cons (c : ascii) (s t : string) : String c s +:+ t = String c (s +:+ t).
Proof. reflexivity. Qed.

Lemma app_assoc_string (a b c : string) : (a +:+ b) +:+ c = a +:+ b +:+ c.
Proof.
  induction a as [|x a IH]; [reflexivity|].
  rewrite !app_cons. congruence.
Qed.

Lemma HasPrefix_spec (s p : string) :
  HasPrefix s p = true <-> exists rest, s = p +:+ rest.
Proof.
  unfold HasPrefix. revert s.
  induction p as [|c p IH]; intros s.
  - destruct s; simpl; split; eauto.
  - destruct s as [|d s]; simpl.
    + split; [discriminate | intros [rest H]; discriminate].
    + destruct (ascii_dec c d) as [->|Hne].
      * rewrite IH. split; intros [rest H]; exists rest.
        -- rewrite app_cons. f_equal. exact H.
        -- rewrite app_cons in H. congruence.
      * split; [discriminate|].
        intros [rest H]. rewrite app_cons in H. congruence.
Qed.

(** [Contains] is the substring relation. *)
Lemma Contains_spec (s p : string) :
  Contains s p = true <-> exists before after, s = before +:+ p +:+ after.
Proof.
  induction s as [|c s IH]; cbn [Contains].
  - rewrite orb_false_r, HasPrefix_spec. split.
    + intros [rest H]. exists "", rest. exact H.
    + intros [[|d before] [after H]].
      * exists after. exact H.
      * rewrite app_cons in H. discriminate.
  - rewrite orb_true_iff, HasPrefix_spec, IH. split.
    + intros [[rest H] | [before [after H]]].
      * exists "", rest. exact H.
      * exists (String c before), after. rewrite app_cons. congruence.
    + intros [[|d before] [after H]].
      * left. exists after. exact H.
      * right. rewrite app_cons in H. injection H as -> ->. eauto.
Qed.

Lemma Contains_trans (s p q : string) :
  Contains s p = true -> Contains p q = true -> Contains s q = true.
Proof.
  rewrite !Contains_spec. intros (a & b & ->) (c & d & ->).
  exists (a +:+ c), (d +:+ b). rewrite !app_assoc_string. reflexivity.
Qed.

Lemma ToLower_app (a b : string) : ToLower (a +:+ b) = ToLower a +:+ ToLower b.
Proof.
  induction a as [|x a IH]; [reflexivity|].
  rewrite app_cons. simpl. rewrite IH. reflexivity.
Qed.

(** A pattern without upper-case letters that occurs in a message occurs
    in the lowered message. *)
Lemma Contains_ToLower (s p : string) :
  ToLower p = p -> Contains s p = true -> Contains (ToLower s) p = true.
Proof.
  intros Hp. rewrite !Contains_spec. intros (a & b & ->).
  exists (ToLower a), (ToLower b). rewrite !ToLower_app, Hp. reflexivity.
Qed.

(* ===================================================================== *)
(** * Anonymous volume names *)
(* ===================================================================== *)

Lemma isLowerHex_spec (c : ascii) :
  Docker.isLowerHex c = true <-> In c lowerHexDigits.
Proof.
  destruct c as [[] [] [] [] [] [] [] []];
    vm_compute; split; intros H; try discriminate; auto 20;
    repeat (destruct H as [H|H]; [discriminate H|]); destruct H.
Qed.

Lemma allLowerHex_spec (s : string) :
  Docker.allLowerHex s = true <-> Forall (fun c => In c lowerHexDigits) (bytes s).
Proof.
  induction s as [|c s IH]; simpl.
  - split; [constructor | reflexivity].
  - destruct (Docker.isLowerHex c) eqn:Hc; simpl.
    + rewrite IH. split.
      * intros H. constructor; [apply isLowerHex_spec; exact Hc | exact H].
      * intros H. inversion H; assumption.
    + split; [discriminate|]. intros H. inversion H as [|? ? Hin _]; subst.
      apply isLowerHex_spec in Hin. congruence.
Qed.

(** C7 (as amended): [IsAnonymousVolume name] is [true] exactly when the
    name is 64 bytes long and each of them is one of the lower-case
    hexadecimal digits [0-9a-f]; for every other name, names with an
    upper-case hexadecimal letter among them, it is [false]. *)
Theorem IsAnonymousVolume_iff (name : string) :
  (Docker.IsAnonymousVolume name = true <->
   String.length name = 64%nat /\
   Forall (fun c => In c lowerHexDigits) (bytes name))
  /\ (Docker.IsAnonymousVolume name = false <->
      String.length name <> 64%nat \/
      Exists (fun c => ~ In c lowerHexDigits) (bytes name)).
Proof.
  assert (Hiff : Docker.IsAnonymousVolume name = true <->
                 String.length name = 64%nat /\
                 Forall (fun c => In c lowerHexDigits) (bytes name)). {
    unfold Docker.IsAnonymousVolume.
    destruct (Nat.eqb_spec (String.length name) 64) as [Hlen|Hlen]; simpl.
    - rewrite allLowerHex_spec. tauto.
    - split; [discriminate | tauto].
  }
  split; [exact Hiff|].
  rewrite <- not_true_iff_false, Hiff. split.
  - intros Hn. destruct (Nat.eq_dec (String.length name) 64%nat) as [Hlen|Hlen]; [|tauto].
    right. apply neg_Forall_Exists_neg; [|tauto].
    intros c. destruct (In_dec ascii_dec c lowerHexDigits); tauto.
  - intros [Hlen | Hex] [Hl Hall]; [tauto|].
    apply Exists_exists in Hex as (c & Hin & Hc).
    rewrite Forall_forall in Hall. apply Hc, Hall. exact Hin.
Qed.

(** C7 (as stated) fails: a name of exactly 64 hexadecimal digits whose
    letters are in upper case is not recognised. *)
Lemma IsAnonymousVolume_upper_case_hex :
  String.length upperHexName = 64%nat
  /\ Forall (fun c => In c hexDigits) (bytes upperHexName)
  /\ Docker.IsAnonymousVolume upperHexName = false.
Proof.
  split; [reflexivity|]. split; [|reflexivity].
  apply Forall_forall. intros c Hc. apply list_elem_of_In in Hc.
  vm_compute in Hc. vm_compute.
  repeat (destruct Hc as [<-|Hc]; [auto 30|]). destruct Hc.
Qed.

(* ===================================================================== *)
(** * The resource model *)
(* ===================================================================== *)

Import Sweep.

(** Every resource record presents its own type, and the interface value
    made of it answers as the record does. *)
Lemma asResource_types (c : ContainerResource.t) (i : ImageResource.t)
    (v : VolumeResource.t) (n : NetworkResource.t) :
  Type' (ContainerResource.asResource c) = TypeContainer
  /\ Type' (ImageResource.asResource i) = TypeImage
  /\ Type' (VolumeResource.asResource v) = TypeVolume
  /\ Type' (NetworkResource.asResource n) = TypeNetwork.
Proof. repeat split. Qed.

(** C6: for the records of the four kinds, [IsProtected] holds exactly
    when the stored category is [protected] and [IsSuggested] exactly when
    it is [suggested]; the interface value answers the same; and two
    records with the same stored category agree on both, whatever their
    labels and other fields are. *)
Theorem IsProtected_IsSuggested_from_category :
  (forall c : ContainerResource.t,
      (ContainerResource.IsProtected c = true <-> ContainerResource.category c = CategoryProtected)
      /\ (ContainerResource.IsSuggested c = true <-> ContainerResource.category c = CategorySuggested)
      /\ (IsProtected (ContainerResource.asResource c) = true
          <-> Category' (ContainerResource.asResource c) = CategoryProtected)
      /\ (IsSuggested (ContainerResource.asResource c) = true
          <-> Category' (ContainerResource.asResource c) = CategorySuggested))
  /\ (forall i : ImageResource.t,
      (ImageResource.IsProtected i = true <-> ImageResource.category i = CategoryProtected)
      /\ (ImageResource.IsSuggested i = true <-> ImageResource.category i = CategorySuggested)
      /\ (IsProtected (ImageResource.asResource i) = true
          <-> Category' (ImageResource.asResource i) = CategoryProtected)
      /\ (IsSuggested (ImageResource.asResource i) = true
          <-> Category' (ImageResource.asResource i) = CategorySuggested))
  /\ (forall v : VolumeResource.t,
      (VolumeResource.IsProtected v = true <-> VolumeResource.category v = CategoryProtected)
      /\ (VolumeResource.IsSuggested v = true <-> VolumeResource.category v = CategorySuggested)
      /\ (IsProtected (VolumeResource.asResource v) = true
          <-> Category' (VolumeResource.asResource v) = CategoryProtected)
      /\ (IsSuggested (VolumeResource.asResource v) = true
          <-> Category' (VolumeResource.asResource v) = CategorySuggested))
  /\ (forall n : NetworkResource.t,
      (NetworkResource.IsProtected n = true <-> NetworkResource.category n = CategoryProtected)
      /\ (NetworkResource.IsSuggested n = true <-> NetworkResource.category n = CategorySuggested)
      /\ (IsProtected (NetworkResource.asResource n) = true
          <-> Category' (NetworkResource.asResource n) = CategoryProtected)
      /\ (IsSuggested (NetworkResource.asResource n) = true
          <-> Category' (NetworkResource.asResource n) = CategorySuggested))
  /\ (forall (cat : Category) (k k' : Docker.Container.t) (l l' : option (gmap string string)) (t t' : Z) (q q' p p' : string),
      ContainerResource.IsProtected (ContainerResource.mk k cat l t q p) = ContainerResource.IsProtected (ContainerResource.mk k' cat l' t' q' p')
      /\ ContainerResource.IsSuggested (ContainerResource.mk k cat l t q p) = ContainerResource.IsSuggested (ContainerResource.mk k' cat l' t' q' p'))
  /\ (forall (cat : Category) (k k' : Docker.Image.t) (u u' : bool) (sz sz' : Z) (l l' : option (gmap string string)) (t t' : Z) (p p' : string),
      ImageResource.IsProtected (ImageResource.mk k cat u sz l t p) = ImageResource.IsProtected (ImageResource.mk k' cat u' sz' l' t' p')
      /\ ImageResource.IsSuggested (ImageResource.mk k cat u sz l t p) = ImageResource.IsSuggested (ImageResource.mk k' cat u' sz' l' t' p'))
  /\ (forall (cat : Category) (k k' : Docker.Volume.t) (u u' : bool) (l l' : option (gmap string string)) (t t' : Z) (q q' p p' : string),
      VolumeResource.IsProtected (VolumeResource.mk k cat u l t q p) = VolumeResource.IsProtected (VolumeResource.mk k' cat u' l' t' q' p')
      /\ VolumeResource.IsSuggested (VolumeResource.mk k cat u l t q p) = VolumeResource.IsSuggested (VolumeResource.mk k' cat u' l' t' q' p'))
  /\ (forall (cat : Category) (k k' : Docker.Network.t) (u u' : bool) (l l' : option (gmap string string)) (t t' : Z) (q q' p p' : string),
      NetworkResource.IsProtected (NetworkResource.mk k cat u l t q p) = NetworkResource.IsProtected (NetworkResource.mk k' cat u' l' t' q' p')
      /\ NetworkResource.IsSuggested (NetworkResource.mk k cat u l t q p) = NetworkResource.IsSuggested (NetworkResource.mk k' cat u' l' t' q' p')).
Proof.
  repeat split; intros;
    cbv [ContainerResource.IsProtected ContainerResource.IsSuggested
         ImageResource.IsProtected ImageResource.IsSuggested
         VolumeResource.IsProtected VolumeResource.IsSuggested
         NetworkResource.IsProtected NetworkResource.IsSuggested
         ContainerResource.asResource ImageResource.asResource
         VolumeResource.asResource NetworkResource.asResource
         ContainerResource.Category' ImageResource.Category'
         VolumeResource.Category' NetworkResource.Category'
         IsProtected IsSuggested Category'] in *;
    solve [ match goal with
            | H : bool_decide _ = true |- _ => apply bool_decide_eq_true in H; exact H
            end
          | apply bool_decide_eq_true_2; assumption ].
Qed.

(* ===================================================================== *)
(** * The categorisation policy *)
(* ===================================================================== *)

(** The label test of the image, volume and network policies reads the
    map as the container policy does: a nil map holds no label. *)
Lemma protectedByLabel_index (labels : option (gmap string string)) :
  protectedByLabel labels = true <-> index labels Docker.LabelProtect = "true".
Proof.
  unfold protectedByLabel. destruct labels as [g|].
  - apply bool_decide_eq_true.
  - simpl. split; discriminate.
Qed.

(** C5: a container whose labels do not hold [sweep.protect=true] is
    categorised by its state alone: [running], [paused] and [restarting]
    give [protected] (the state is the reason), [exited], [dead] and
    [created] give [suggested], and every other state gives [unused]. *)
Theorem categorizeContainer_by_state (c : Docker.Container.t)
    (labels : option (gmap string string)) (cfg : Config.t) :
  index labels Docker.LabelProtect <> "true" ->
  let state := Docker.Container.State c in
  (In state ["running"; "paused"; "restarting"] ->
   categorizeContainer c labels cfg = (CategoryProtected, state))
  /\ (In state ["exited"; "dead"; "created"] ->
      categorizeContainer c labels cfg = (CategorySuggested, ""))
  /\ (~ In state ["running"; "paused"; "restarting"; "exited"; "dead"; "created"] ->
      categorizeContainer c labels cfg = (CategoryUnused, "")).
Proof.
  intros Hlabel state. unfold categorizeContainer. fold state.
  destruct (decide (index labels Docker.LabelProtect = "true")) as [Heq|_];
    [contradiction|].
  repeat split; intros Hstate; simpl in Hstate;
    repeat case_decide; subst; try reflexivity; try congruence;
    intuition (try discriminate; try congruence).
Qed.

Lemma categorizeContainer_by_state_witness :
  index None Docker.LabelProtect <> "true"
  /\ categorizeContainer (containerInState "paused") None Config.DefaultConfig
     = (CategoryProtected, "paused")
  /\ categorizeContainer (containerInState "dead") None Config.DefaultConfig
     = (CategorySuggested, "")
  /\ categorizeContainer (containerInState "removing") None Config.DefaultConfig
     = (CategoryUnused, "").
Proof.
  split; [discriminate|].
  split; [|split].
  - apply (categorizeContainer_by_state (containerInState "paused") None
             Config.DefaultConfig); [discriminate | simpl; auto].
  - apply (categorizeContainer_by_state (containerInState "dead") None
             Config.DefaultConfig); [discriminate | simpl; auto].
  - apply (categorizeContainer_by_state (containerInState "removing") None
             Config.DefaultConfig); [discriminate |].
    simpl. intros H. repeat (destruct H as [H|H]; [discriminate H|]). exact H.
Defined.

(* ===================================================================== *)
(** * Runtime calls and their journal *)
(* ===================================================================== *)

(** Unfolds the monad and names the result of every runtime call. *)
Ltac run_step :=
  match goal with
  | |- context [let (_, _) := ?c in _] =>
      let a := fresh "a" in let w := fresh "w" in let E := fresh "Hrun" in
      destruct c as [a w] eqn:E
  end.

Ltac run := unfold bind, ret in *; repeat run_step.

Lemma bind_run {W A B : Type} (c : M W A) (k : A -> M W B) (w : W) :
  bind c k w = (let (a, w') := c w in k a w').
Proof. reflexivity. Qed.

Lemma rangeFold_cons {W A S : Type} (body : A -> S -> M W S) (x : A) (xs : list A)
    (s : S) (w : W) :
  rangeFold body (x :: xs) s w
  = (let (s', w') := body x s w in rangeFold body xs s' w').
Proof. reflexivity. Qed.

Lemma rangeFold_app {W A S : Type} (body : A -> S -> M W S) (xs ys : list A)
    (s : S) (w : W) :
  rangeFold body (xs ++ ys) s w
  = (let (s', w') := rangeFold body xs s w in rangeFold body ys s' w').
Proof.
  revert s w. induction xs as [|x xs IH]; intros s w; [reflexivity|].
  rewrite <- app_comm_cons, !rangeFold_cons.
  destruct (body x s w) as [s1 w1]. apply IH.
Qed.

Section Journal.
Context {W : Type} (E : Docker.Env W).

(** [Run] in the observed environment: the same result, and the
    command in the journal. *)
Lemma Run_recording (args : list string) (w : W) (log : list (list string)) :
  Docker.Run (recording E) args (w, log)
  = (fst (Docker.Run E args w), (snd (Docker.Run E args w), log ++ [args])).
Proof.
  unfold Docker.Run, bind, ret. simpl.
  destruct (Docker.exec E (Docker.cliRuntime E) args w) as [r w']. reflexivity.
Qed.

(** [Remove] in the observed environment. *)
Lemma Remove_recording (resourceType id : string) (w : W) (log : list (list string)) :
  Docker.Remove (recording E) resourceType id (w, log)
  = (fst (Docker.Remove E resourceType id w),
     (snd (Docker.Remove E resourceType id w), log ++ removeCalls resourceType id)).
Proof.
  unfold Docker.Remove, removeCalls.
  repeat case_decide;
    try (unfold bind, ret; rewrite Run_recording;
         destruct (Docker.Run E _ w) as [r w']; reflexivity).
  unfold ret. simpl. rewrite app_nil_r. reflexivity.
Qed.

(** The journal of a loop over resources whose body calls [Remove] once
    and does nothing else with the world. *)
Lemma rangeFold_recording {S : Type}
    (step : Resource -> option string -> S -> S)
    (rs : list Resource) (s : S) (w : W) (log : list (list string)) :
  rangeFold (fun r s => err <- Docker.Remove (recording E) (Type' r) (ID r) ;;
                        ret (step r err s)) rs s (w, log)
  = (fst (rangeFold (fun r s => err <- Docker.Remove E (Type' r) (ID r) ;;
                                ret (step r err s)) rs s w),
     (snd (rangeFold (fun r s => err <- Docker.Remove E (Type' r) (ID r) ;;
                                 ret (step r err s)) rs s w),
      log ++ flat_map (fun r => removeCalls (Type' r) (ID r)) rs)).
Proof.
  revert s w log. induction rs as [|r rs IH]; intros s w log.
  - simpl. unfold ret. rewrite app_nil_r. reflexivity.
  - rewrite !rangeFold_cons, !bind_run, Remove_recording. cbn [flat_map].
    destruct (Docker.Remove E (Type' r) (ID r) w) as [err w1]. cbn [fst snd].
    unfold ret at 1 2 3. rewrite IH, app_assoc. reflexivity.
Qed.

End Journal.

(* ===================================================================== *)
(** * The deletion orchestrator: separation and accounting *)
(* ===================================================================== *)

Lemma separate_from (rs : list Resource) (s : Separated) :
  fold_left separateOne rs s
  = mkSeparated (containers s ++ ofType TypeContainer rs)
                (images s ++ ofType TypeImage rs)
                (volumes s ++ ofType TypeVolume rs)
                (networks s ++ ofType TypeNetwork rs).
Proof.
  revert s. induction rs as [|r rs IH]; intros s.
  - simpl. unfold ofType. rewrite !filter_nil, !app_nil_r. destruct s; reflexivity.
  - cbn [fold_left]. rewrite IH. unfold separateOne, ofType.
    rewrite !(filter_cons _ r).
    unfold TypeContainer, TypeImage, TypeVolume, TypeNetwork.
    repeat case_decide; try congruence; cbn [containers images volumes networks];
      rewrite <- ?app_assoc; reflexivity.
Qed.

(** The four slices are the resources of the four types, each in the
    order of the input. *)
Lemma separate_spec (rs : list Resource) :
  separate rs
  = mkSeparated (ofType TypeContainer rs) (ofType TypeImage rs)
                (ofType TypeVolume rs) (ofType TypeNetwork rs).
Proof. unfold separate. rewrite separate_from. reflexivity. Qed.

(** A list whose resources are of the four kinds is the disjoint union of
    its four slices. *)
Lemma ofType_lengths (rs : list Resource) :
  (length (ofType TypeContainer rs) + length (ofType TypeNetwork rs)
   + length (ofType TypeVolume rs) + length (ofType TypeImage rs)
   = length (filter (fun r => In (Type' r) kinds) rs))%nat.
Proof.
  unfold ofType, kinds. induction rs as [|r rs IH]; [reflexivity|].
  rewrite !(filter_cons _ r).
  unfold TypeContainer, TypeImage, TypeVolume, TypeNetwork in *.
  repeat case_decide; cbn [length]; try lia; try congruence;
    cbn [In] in *; intuition congruence.
Qed.

Lemma deleteAllStep_count (res : Resource) (err : option string) (d : nat)
    (errs : list string) :
  (fst (deleteAllStep res err (d, errs)) + length (snd (deleteAllStep res err (d, errs)))
   = d + length errs + 1)%nat.
Proof.
  unfold deleteAllStep. destruct err as [e|]; [|simpl; lia].
  destruct (isAlreadyRemovedError _ _); simpl; rewrite ?length_app; simpl; lia.
Qed.

(** The pending, deleted and recorded images of a pass step: the image
    goes to exactly one of the three. *)
Lemma imagePassStep_cases (r : Resource) (err : option string)
    (failed : list Resource) (d : nat) (errs : list string) :
  exists f d' errs',
    imagePassStep r err (failed, d, errs) = (failed ++ f, d', errs')
    /\ sublist f [r]
    /\ (length f + d' + length errs' = d + length errs + 1)%nat.
Proof.
  unfold imagePassStep. destruct err as [e|].
  - destruct (isAlreadyRemovedError _ _).
    + exists [], (S d), errs. rewrite app_nil_r. repeat split; [|simpl; lia].
      apply sublist_nil_l.
    + destruct (isDependencyError _).
      * exists [r], d, errs. repeat split; [reflexivity | simpl; lia].
      * eexists [], d, _. rewrite app_nil_r. repeat split.
        -- apply sublist_nil_l.
        -- rewrite length_app. simpl. lia.
  - exists [], (S d), errs. rewrite app_nil_r. repeat split; [|simpl; lia].
    apply sublist_nil_l.
Qed.

Section Accounting.
Context {W : Type} (E : Docker.Env W).

Lemma deleteAll_from_count (rs : list Resource) (d : nat) (errs : list string) (w : W) :
  exists d' errs' w',
    rangeFold (deleteAllBody E) rs (d, errs) w = ((d', errs'), w')
    /\ (d' + length errs' = d + length errs + length rs)%nat.
Proof.
  revert d errs w. induction rs as [|r rs IH]; intros d errs w.
  - exists d, errs, w. simpl. split; [reflexivity | lia].
  - rewrite rangeFold_cons. unfold deleteAllBody at 1. rewrite bind_run.
    destruct (Docker.Remove E (Type' r) (ID r) w) as [err w1]. unfold ret.
    pose proof (deleteAllStep_count r err d errs) as Hstep.
    destruct (deleteAllStep r err (d, errs)) as [d1 errs1]. simpl in Hstep.
    destruct (IH d1 errs1 w1) as (d2 & errs2 & w2 & -> & Hcount).
    exists d2, errs2, w2. split; [reflexivity | simpl; lia].
Qed.

(** [deleteAll] accounts for every resource once. *)
Lemma deleteAll_count (rs : list Resource) (w : W) :
  (fst (fst (deleteAll E rs w)) + length (snd (fst (deleteAll E rs w)))
   = length rs)%nat.
Proof.
  unfold deleteAll.
  destruct (deleteAll_from_count rs 0 [] w) as (d & errs & w' & -> & Hcount).
  simpl in *. lia.
Qed.

(** One pass: the images still pending afterwards are a sublist of those
    attempted, and every attempted image is pending, deleted or
    recorded. *)
Lemma imagePass_from (pending failed0 : list Resource) (d : nat)
    (errs : list string) (w : W) :
  exists f d' errs' w',
    rangeFold (imagePassBody E) pending (failed0, d, errs) w
    = ((failed0 ++ f, d', errs'), w')
    /\ sublist f pending
    /\ (length f + d' + length errs' = d + length errs + length pending)%nat.
Proof.
  revert failed0 d errs w. induction pending as [|r rs IH]; intros failed0 d errs w.
  - exists [], d, errs, w. rewrite app_nil_r.
    split; [reflexivity | split; [constructor | simpl; lia]].
  - rewrite rangeFold_cons. unfold imagePassBody at 1. rewrite bind_run.
    destruct (Docker.Remove E (Type' r) (ID r) w) as [err w1]. unfold ret.
    destruct (imagePassStep_cases r err failed0 d errs)
      as (f1 & d1 & errs1 & -> & Hsub1 & Hcount1).
    destruct (IH (failed0 ++ f1) d1 errs1 w1)
      as (f2 & d2 & errs2 & w2 & -> & Hsub2 & Hcount2).
    exists (f1 ++ f2), d2, errs2, w2. rewrite app_assoc. repeat split.
    + change (r :: rs) with ([r] ++ rs). apply sublist_app; assumption.
    + rewrite length_app. simpl. lia.
Qed.

Lemma imagePass_spec (pending : list Resource) (d : nat) (errs : list string) (w : W) :
  exists failed d' errs' w',
    imagePass E pending d errs w = ((failed, d', errs'), w')
    /\ sublist failed pending
    /\ (length failed + d' + length errs' = d + length errs + length pending)%nat.
Proof.
  unfold imagePass.
  destruct (imagePass_from pending [] d errs w) as (f & d' & errs' & w' & H & Hs & Hc).
  exists f, d', errs', w'. rewrite H. auto.
Qed.

(** The passes: what is pending at the end is a sublist of what was
    pending at the start; nothing is lost. *)
Lemma imagePasses_spec (n : nat) (pending : list Resource) (d : nat)
    (errs : list string) (w : W) :
  exists left d' errs' w',
    imagePasses E n pending d errs w = ((left, d', errs'), w')
    /\ sublist left pending
    /\ (length left + d' + length errs' = length pending + d + length errs)%nat.
Proof.
  revert pending d errs w. induction n as [|n IH]; intros pending d errs w.
  - exists pending, d, errs, w.
    split; [destruct pending; reflexivity | split; [reflexivity | lia]].
  - destruct pending as [|r rs].
    + exists [], d, errs, w. split; [reflexivity | split; [constructor | simpl; lia]].
    + cbn [imagePasses]. rewrite bind_run.
      destruct (imagePass_spec (r :: rs) d errs w)
        as (failed & d1 & errs1 & w1 & -> & Hsub & Hcount).
      destruct (IH failed d1 errs1 w1) as (left & d2 & errs2 & w2 & -> & Hsub2 & Hc2).
      exists left, d2, errs2, w2. repeat split.
      * etransitivity; eassumption.
      * lia.
Qed.

(** [deleteImagesWithRetry] accounts for every image once. *)
Lemma deleteImagesWithRetry_count (rs : list Resource) (w : W) :
  (fst (fst (deleteImagesWithRetry E rs w))
   + length (snd (fst (deleteImagesWithRetry E rs w)))
   = length rs)%nat.
Proof.
  unfold deleteImagesWithRetry. rewrite bind_run.
  destruct (imagePasses_spec 3 rs 0 [] w) as (left & d & errs & w' & -> & _ & Hc).
  unfold ret. simpl. rewrite length_app, length_map. simpl in Hc. lia.
Qed.

End Accounting.

(* ===================================================================== *)
(** * The deletion orchestrator: the order of the runtime calls *)
(* ===================================================================== *)

Lemma callsOf_app (xs ys : list Resource) : callsOf (xs ++ ys) = callsOf xs ++ callsOf ys.
Proof. unfold callsOf. apply flat_map_app. Qed.

(** The calls for resources of one kind. *)
Lemma callsOf_ofType (rs : list Resource) :
  callsOf (ofType TypeContainer rs) = map (fun r => ["rm"; ID r]) (ofType TypeContainer rs)
  /\ callsOf (ofType TypeNetwork rs)
     = map (fun r => ["network"; "rm"; ID r]) (ofType TypeNetwork rs)
  /\ callsOf (ofType TypeVolume rs)
     = map (fun r => ["volume"; "rm"; ID r]) (ofType TypeVolume rs)
  /\ callsOf (ofType TypeImage rs) = map (fun r => ["rmi"; ID r]) (ofType TypeImage rs).
Proof.
  unfold callsOf, ofType.
  repeat split; induction rs as [|r rs IH]; try reflexivity;
    rewrite (filter_cons _ r); case_decide as Ht; try exact IH;
    cbn [flat_map map]; rewrite IH, Ht; reflexivity.
Qed.

Lemma narrowing_sublists (start : list Resource) (ps : list (list Resource)) :
  narrowing start ps -> Forall (fun p => sublist p start) ps.
Proof.
  revert start. induction ps as [|p ps IH]; intros start H; [constructor|].
  destruct H as [Hp Hrest]. constructor; [exact Hp|].
  eapply Forall_impl; [apply IH, Hrest|].
  intros q Hq. simpl in Hq. etransitivity; eassumption.
Qed.

Lemma narrowing_nil (n : nat) : narrowing [] (replicate n []).
Proof. induction n; simpl; auto. Qed.

Lemma callsOf_replicate_nil (n : nat) : flat_map callsOf (replicate n []) = [].
Proof. induction n; simpl; auto. Qed.

Lemma imagePasses_cons {W : Type} (E : Docker.Env W) (n : nat) (r : Resource)
    (rs : list Resource) (d : nat) (errs : list string) (w : W) :
  imagePasses E (S n) (r :: rs) d errs w
  = (let (st, w') := imagePass E (r :: rs) d errs w in
     imagePasses E n (fst (fst st)) (snd (fst st)) (snd st) w').
Proof.
  cbn [imagePasses]. rewrite bind_run.
  destruct (imagePass E (r :: rs) d errs w) as [[[failed d1] errs1] w1]. reflexivity.
Qed.

Section Order.
Context {W : Type} (E : Docker.Env W).

Lemma deleteAll_recording (rs : list Resource) (w : W) (log : list (list string)) :
  deleteAll (recording E) rs (w, log)
  = (fst (deleteAll E rs w), (snd (deleteAll E rs w), log ++ callsOf rs)).
Proof. unfold deleteAll, deleteAllBody, callsOf. apply rangeFold_recording. Qed.

Lemma imagePass_recording (pending : list Resource) (d : nat) (errs : list string)
    (w : W) (log : list (list string)) :
  imagePass (recording E) pending d errs (w, log)
  = (fst (imagePass E pending d errs w),
     (snd (imagePass E pending d errs w), log ++ callsOf pending)).
Proof. unfold imagePass, imagePassBody, callsOf. apply rangeFold_recording. Qed.

(** The journal of the passes: the pending images are attempted in the
    first pass, and each further pass attempts a sublist of the images
    of the pass before it. *)
Lemma imagePasses_recording (n : nat) (pending : list Resource) (d : nat)
    (errs : list string) (w : W) (log : list (list string)) :
  exists later,
    imagePasses (recording E) (S n) pending d errs (w, log)
    = (fst (imagePasses E (S n) pending d errs w),
       (snd (imagePasses E (S n) pending d errs w),
        log ++ callsOf pending ++ flat_map callsOf later))
    /\ length later = n
    /\ narrowing pending later.
Proof.
  revert pending d errs w log. induction n as [|n IH]; intros pending d errs w log.
  - exists []. destruct pending as [|r rs].
    + simpl. unfold ret. rewrite app_nil_r. repeat split.
    + cbn [imagePasses]. rewrite !bind_run, imagePass_recording.
      destruct (imagePass E (r :: rs) d errs w) as [[[failed d1] errs1] w1].
      cbn [fst snd imagePasses flat_map]. unfold ret. rewrite app_nil_r.
      destruct failed; repeat split.
  - destruct pending as [|r rs].
    + exists (replicate (S n) []). split; [|split].
      * cbn [imagePasses]. unfold ret. cbn [fst snd callsOf flat_map].
        rewrite callsOf_replicate_nil, !app_nil_r. reflexivity.
      * apply length_replicate.
      * apply narrowing_nil.
    + destruct (imagePass_spec E (r :: rs) d errs w)
        as (failed & d1 & errs1 & w1 & Hpass & Hsub & _).
      destruct (IH failed d1 errs1 w1 (log ++ callsOf (r :: rs)))
        as (later & Hrun & Hlen & Hnarrow).
      exists (failed :: later). split; [|split].
      * rewrite !(imagePasses_cons _ (S n)), imagePass_recording, Hpass.
        cbn [fst snd].
        rewrite Hrun. cbn [flat_map]. rewrite <- !app_assoc. reflexivity.
      * simpl. lia.
      * split; assumption.
Qed.

Lemma deleteImagesWithRetry_recording (rs : list Resource) (w : W)
    (log : list (list string)) :
  exists later,
    deleteImagesWithRetry (recording E) rs (w, log)
    = (fst (deleteImagesWithRetry E rs w),
       (snd (deleteImagesWithRetry E rs w),
        log ++ callsOf rs ++ flat_map callsOf later))
    /\ length later = 2%nat
    /\ narrowing rs later.
Proof.
  destruct (imagePasses_recording 2 rs 0 [] w log) as (later & Hrun & Hlen & Hnarrow).
  exists later. split; [|auto].
  unfold deleteImagesWithRetry. rewrite !bind_run, Hrun.
  destruct (imagePasses E 3 rs 0 [] w) as [[[left d] errs] w']. reflexivity.
Qed.

(** Observing [DeleteResources] changes neither its result nor the
    world; the journal lists the removals of the containers, then those
    of the networks, then those of the volumes, then the passes over the
    images. *)
Lemma DeleteResources_recording (rs : list Resource) (w : W) :
  exists later,
    DeleteResources (recording E) rs (w, [])
    = (fst (DeleteResources E rs w),
       (snd (DeleteResources E rs w),
        callsOf (ofType TypeContainer rs) ++ callsOf (ofType TypeNetwork rs)
        ++ callsOf (ofType TypeVolume rs) ++ callsOf (ofType TypeImage rs)
        ++ flat_map callsOf later))
    /\ length later = 2%nat
    /\ narrowing (ofType TypeImage rs) later.
Proof.
  unfold DeleteResources. rewrite separate_spec.
  cbn [containers images volumes networks].
  rewrite !bind_run, deleteAll_recording.
  destruct (deleteAll E (ofType TypeContainer rs) w) as [r1 w1]. cbn [fst snd].
  rewrite !bind_run, deleteAll_recording.
  destruct (deleteAll E (ofType TypeNetwork rs) w1) as [r2 w2]. cbn [fst snd].
  rewrite !bind_run, deleteAll_recording.
  destruct (deleteAll E (ofType TypeVolume rs) w2) as [r3 w3]. cbn [fst snd].
  rewrite !bind_run.
  destruct (deleteImagesWithRetry_recording (ofType TypeImage rs) w3
              ([] ++ callsOf (ofType TypeContainer rs)
               ++ callsOf (ofType TypeNetwork rs) ++ callsOf (ofType TypeVolume rs)))
    as (later & Hrun & Hlen & Hnarrow).
  exists later. split; [|auto].
  rewrite <- !app_assoc in Hrun |- *. rewrite Hrun.
  destruct (deleteImagesWithRetry E (ofType TypeImage rs) w3) as [r4 w4].
  unfold ret. cbn [fst snd]. rewrite ?app_nil_l, <- ?app_assoc. reflexivity.
Qed.

End Order.

Example scenario_result :
  DeleteResources scenarioEnv [exampleContainer; exampleImage "i1"; exampleImage "i2"] tt
  = ((2%nat, ["i1: has dependent images (not deleted)"]), tt).
Proof. vm_compute. reflexivity. Qed.

Example scenario_journal :
  journal (DeleteResources (recording scenarioEnv)
             [exampleImage "i1"; exampleVolume; exampleContainer; exampleNetwork;
              exampleImage "i2"]) tt
  = [["rm"; "c1"]; ["network"; "rm"; "n1"]; ["volume"; "rm"; "v1"];
     ["rmi"; "i1"]; ["rmi"; "i2"]; ["rmi"; "i1"]; ["rmi"; "i1"]].
Proof. vm_compute. reflexivity. Qed.

Lemma callsOf_images (p : list Resource) :
  Forall (fun r => Type' r = TypeImage) p ->
  callsOf p = map (fun r => ["rmi"; ID r]) p.
Proof.
  induction 1 as [|r p Hr _ IH]; [reflexivity|].
  unfold callsOf in *. cbn [flat_map map]. rewrite IH, Hr. reflexivity.
Qed.

Lemma ofType_Forall (t : string) (rs : list Resource) :
  Forall (fun r => Type' r = t) (ofType t rs).
Proof.
  unfold ofType. apply Forall_forall. intros r Hr.
  apply list_elem_of_filter in Hr. tauto.
Qed.

Lemma sublist_Forall_of {A : Type} (P : A -> Prop) (p l : list A) :
  sublist p l -> Forall P l -> Forall P p.
Proof.
  intros Hsub Hall. apply Forall_forall. intros x Hx.
  rewrite Forall_forall in Hall. apply Hall. eapply elem_of_sublist; eassumption.
Qed.

(** The retries of the image phase are removals of selected images. *)
Lemma retries_are_image_removals (images : list Resource) (later : list (list Resource)) :
  Forall (fun r => Type' r = TypeImage) images ->
  narrowing images later ->
  Forall (fun call => exists r, In r images /\ call = ["rmi"; ID r])
         (flat_map callsOf later).
Proof.
  intros Himg Hnarrow. apply narrowing_sublists in Hnarrow.
  induction Hnarrow as [|p later Hp _ IH]; [constructor|].
  cbn [flat_map]. apply Forall_app. split; [|exact IH].
  rewrite (callsOf_images p) by (eapply sublist_Forall_of; eassumption).
  apply Forall_forall. intros call Hcall.
  apply list_elem_of_fmap in Hcall as (r & -> & Hr).
  exists r. split; [|reflexivity].
  apply list_elem_of_In. eapply elem_of_sublist; eassumption.
Qed.

(** The retries over a single image. *)
Lemma retries_of_one (i : Resource) (later : list (list Resource)) :
  Type' i = TypeImage ->
  narrowing [i] later ->
  exists again, flat_map callsOf later = repeat ["rmi"; ID i] again
                /\ (again <= length later)%nat.
Proof.
  intros Hi Hnarrow. apply narrowing_sublists in Hnarrow.
  induction Hnarrow as [|p later Hp _ (again & IH & Hle)].
  - exists 0%nat. split; [reflexivity | simpl; lia].
  - cbn [flat_map]. rewrite IH.
    destruct p as [|r p].
    + exists again. split; [reflexivity | simpl; lia].
    + assert (r = i /\ p = []) as [-> ->]. {
        inversion Hp as [|? ? ? Hp'|? ? ? Hp']; subst.
        - apply sublist_nil_r in Hp'. auto.
        - apply sublist_nil_r in Hp'. discriminate.
      }
      exists (S again). split; [|simpl; lia].
      unfold callsOf. cbn [flat_map]. rewrite Hi. reflexivity.
Qed.

(** C2: whatever the runtime answers, the commands [DeleteResources]
    executes are, in this order: the removal of every selected container,
    of every selected network, of every selected volume, of every selected
    image, and then nothing but repeated removals of selected images.
    In particular, for a selection of one container, one network, one
    volume and one image, in any order, the container is removed first,
    then the network, then the volume, and every removal of the image
    comes after these three. *)
Theorem DeleteResources_call_order {W : Type} (E : Docker.Env W)
    (rs : list Resource) (w : W) :
  exists retries,
    journal (DeleteResources (recording E) rs) w
    = map (fun r => ["rm"; ID r]) (ofType TypeContainer rs)
      ++ map (fun r => ["network"; "rm"; ID r]) (ofType TypeNetwork rs)
      ++ map (fun r => ["volume"; "rm"; ID r]) (ofType TypeVolume rs)
      ++ map (fun r => ["rmi"; ID r]) (ofType TypeImage rs)
      ++ retries
    /\ Forall (fun call => exists r, In r (ofType TypeImage rs) /\ call = ["rmi"; ID r])
              retries
    /\ fst (DeleteResources (recording E) rs (w, [])) = fst (DeleteResources E rs w)
    /\ (forall c n v i : Resource,
           Type' c = TypeContainer -> Type' n = TypeNetwork ->
           Type' v = TypeVolume -> Type' i = TypeImage ->
           Permutation rs [c; n; v; i] ->
           exists again,
             journal (DeleteResources (recording E) rs) w
             = [["rm"; ID c]; ["network"; "rm"; ID n]; ["volume"; "rm"; ID v];
                ["rmi"; ID i]] ++ repeat ["rmi"; ID i] again
             /\ (again <= 2)%nat).
Proof.
  destruct (DeleteResources_recording E rs w) as (later & Hrun & Hlen & Hnarrow).
  destruct (callsOf_ofType rs) as (Hc & Hn & Hv & Hi).
  exists (flat_map callsOf later). unfold journal. rewrite Hrun. cbn [fst snd].
  rewrite Hc, Hn, Hv, Hi. split; [reflexivity|]. split; [|split; [reflexivity|]].
  - apply retries_are_image_removals; [apply ofType_Forall | exact Hnarrow].
  - intros c n v i Tc Tn Tv Ti Hperm.
    assert (Hsel : forall t, ofType t rs ≡ₚ ofType t [c; n; v; i]).
    { intros t. unfold ofType. rewrite Hperm. reflexivity. }
    assert (Hcs : ofType TypeContainer rs = [c]). {
      apply Permutation_singleton_r. rewrite Hsel. unfold ofType.
      rewrite !filter_cons, filter_nil, Tc, Tn, Tv, Ti.
      unfold TypeContainer, TypeNetwork, TypeVolume, TypeImage.
      repeat case_decide; try congruence. reflexivity. }
    assert (Hns : ofType TypeNetwork rs = [n]). {
      apply Permutation_singleton_r. rewrite Hsel. unfold ofType.
      rewrite !filter_cons, filter_nil, Tc, Tn, Tv, Ti.
      unfold TypeContainer, TypeNetwork, TypeVolume, TypeImage.
      repeat case_decide; try congruence. reflexivity. }
    assert (Hvs : ofType TypeVolume rs = [v]). {
      apply Permutation_singleton_r. rewrite Hsel. unfold ofType.
      rewrite !filter_cons, filter_nil, Tc, Tn, Tv, Ti.
      unfold TypeContainer, TypeNetwork, TypeVolume, TypeImage.
      repeat case_decide; try congruence. reflexivity. }
    assert (His : ofType TypeImage rs = [i]). {
      apply Permutation_singleton_r. rewrite Hsel. unfold ofType.
      rewrite !filter_cons, filter_nil, Tc, Tn, Tv, Ti.
      unfold TypeContainer, TypeNetwork, TypeVolume, TypeImage.
      repeat case_decide; try congruence. reflexivity. }
    rewrite His in Hnarrow.
    destruct (retries_of_one i later Ti Hnarrow) as (again & Hagain & Hle).
    exists again. rewrite Hcs, Hns, Hvs, His, Hagain. split; [reflexivity | lia].
Qed.

Lemma DeleteResources_call_order_witness :
  exists again,
    journal (DeleteResources (recording scenarioEnv)
               [exampleImage "i1"; exampleVolume; exampleContainer; exampleNetwork]) tt
    = [["rm"; "c1"]; ["network"; "rm"; "n1"]; ["volume"; "rm"; "v1"]; ["rmi"; "i1"]]
      ++ repeat ["rmi"; "i1"] again
    /\ (again <= 2)%nat.
Proof.
  destruct (DeleteResources_call_order scenarioEnv
              [exampleImage "i1"; exampleVolume; exampleContainer; exampleNetwork] tt)
    as (retries & _ & _ & _ & Hmixed).
  apply (Hmixed exampleContainer exampleNetwork exampleVolume (exampleImage "i1"));
    try reflexivity.
  change [exampleImage "i1"; exampleVolume; exampleContainer; exampleNetwork]
    with ([exampleImage "i1"; exampleVolume] ++ [exampleContainer; exampleNetwork]).
  rewrite Permutation_app_comm. simpl.
  apply perm_skip, perm_skip, perm_swap.
Defined.

(* ===================================================================== *)
(** * The deletion orchestrator: every resource is accounted for *)
(* ===================================================================== *)

(** The outcome of [DeleteResources] counts the resources of the four
    kinds, each once; a resource of another type is dropped by the
    separating loop and counted nowhere. *)
Lemma DeleteResources_count {W : Type} (E : Docker.Env W) (rs : list Resource) (w : W) :
  (fst (fst (DeleteResources E rs w)) + length (snd (fst (DeleteResources E rs w)))
   = length (filter (fun r => In (Type' r) kinds) rs))%nat.
Proof.
  rewrite <- ofType_lengths.
  unfold DeleteResources. rewrite separate_spec.
  cbn [containers images volumes networks]. rewrite !bind_run.
  pose proof (deleteAll_count E (ofType TypeContainer rs) w) as H1.
  destruct (deleteAll E (ofType TypeContainer rs) w) as [[d1 e1] w1].
  rewrite !bind_run.
  pose proof (deleteAll_count E (ofType TypeNetwork rs) w1) as H2.
  destruct (deleteAll E (ofType TypeNetwork rs) w1) as [[d2 e2] w2].
  rewrite !bind_run.
  pose proof (deleteAll_count E (ofType TypeVolume rs) w2) as H3.
  destruct (deleteAll E (ofType TypeVolume rs) w2) as [[d3 e3] w3].
  rewrite !bind_run.
  pose proof (deleteImagesWithRetry_count E (ofType TypeImage rs) w3) as H4.
  destruct (deleteImagesWithRetry E (ofType TypeImage rs) w3) as [[d4 e4] w4].
  unfold ret. cbn [fst snd] in *. rewrite !length_app. lia.
Qed.

(** The selections the commands pass to [DeleteResources] hold resources
    of the four kinds only. *)
Lemma selections_of_four_kinds (r : Sweep.Result.t) :
  Forall (fun x => In (Type' x) kinds) (Sweep.Result.Suggested r)
  /\ Forall (fun x => In (Type' x) kinds) (Sweep.Result.All r).
Proof.
  unfold Sweep.Result.Suggested, Sweep.Result.All.
  split; repeat (apply Forall_app; split);
    apply Forall_forall; intros x Hx;
    apply list_elem_of_fmap in Hx as (y & -> & _); simpl; auto.
Qed.

(** C10: for a selection of resources of the four kinds, the count of
    deleted resources and the number of errors that [DeleteResources]
    returns add up to the number of selected resources: each resource is
    counted as deleted or has one error, an image that was retried
    included. *)
Theorem DeleteResources_accounts_for_every_resource {W : Type} (E : Docker.Env W)
    (rs : list Resource) (w : W) :
  Forall (fun r => In (Type' r) kinds) rs ->
  (fst (fst (DeleteResources E rs w)) + length (snd (fst (DeleteResources E rs w)))
   = length rs)%nat.
Proof.
  intros Hkinds. rewrite DeleteResources_count. f_equal.
  induction Hkinds as [|r rs Hr _ IH]; [reflexivity|].
  rewrite filter_cons. case_decide; [|contradiction]. f_equal. exact IH.
Qed.

Lemma DeleteResources_accounts_for_every_resource_witness :
  Forall (fun r => In (Type' r) kinds)
         [exampleContainer; exampleImage "i1"; exampleImage "i2"]
  /\ (fst (fst (DeleteResources scenarioEnv
                 [exampleContainer; exampleImage "i1"; exampleImage "i2"] tt))
      + length (snd (fst (DeleteResources scenarioEnv
                 [exampleContainer; exampleImage "i1"; exampleImage "i2"] tt)))
      = 3)%nat.
Proof.
  assert (H : Forall (fun r => In (Type' r) kinds)
                     [exampleContainer; exampleImage "i1"; exampleImage "i2"]).
  { constructor; [simpl; auto|]. constructor; [simpl; auto|].
    constructor; [simpl; auto|]. constructor. }
  split; [exact H|].
  exact (DeleteResources_accounts_for_every_resource scenarioEnv
           [exampleContainer; exampleImage "i1"; exampleImage "i2"] tt H).
Defined.

(* ===================================================================== *)
(** * The deletion orchestrator: resources that are already gone *)
(* ===================================================================== *)

(** On the four kinds, [isAlreadyRemovedError] is the test of the
    specification, applied to the lowered message. *)
Lemma isAlreadyRemovedError_spec (kind msg : string) :
  In kind kinds ->
  isAlreadyRemovedError kind (Some msg) = indicatesGone kind (ToLower msg).
Proof.
  intros Hkind. unfold isAlreadyRemovedError, indicatesGone.
  set (errStr := ToLower msg).
  assert (Hink : Contains errStr "image not known" = true ->
                 Contains errStr "image" = true).
  { intros H. eapply Contains_trans; [exact H | reflexivity]. }
  simpl in Hkind.
  destruct Hkind as [<-|[<-|[<-|[<-|[]]]]];
    unfold TypeContainer, TypeImage, TypeVolume, TypeNetwork;
    repeat case_decide; try congruence;
    repeat match goal with
           | |- context [bool_decide ?P] =>
               first [ rewrite (bool_decide_eq_true_2 P) by congruence
                     | rewrite (bool_decide_eq_false_2 P) by congruence ]
           end;
    cbn [andb];
    destruct (Contains errStr "not found" || Contains errStr "no such")%bool;
    cbn [orb andb]; rewrite ?orb_false_r; try reflexivity.
  all: destruct (Contains errStr "image not known");
    rewrite ?Hink by reflexivity; rewrite ?orb_false_r; reflexivity.
Qed.

(** A message that passes the test as it is passes it lowered: the
    patterns hold no upper-case letter. *)
Lemma indicatesGone_ToLower (kind msg : string) :
  In kind kinds ->
  indicatesGone kind msg = true -> indicatesGone kind (ToLower msg) = true.
Proof.
  intros Hkind. unfold indicatesGone.
  assert (Hk : ToLower kind = kind).
  { simpl in Hkind. destruct Hkind as [<-|[<-|[<-|[<-|[]]]]]; reflexivity. }
  rewrite !orb_true_iff, !andb_true_iff, !orb_true_iff.
  intros [[[H|H] Hkd] | [Hi H]].
  - left. split; [left|]; apply Contains_ToLower; auto.
  - left. split; [right|]; apply Contains_ToLower; auto.
  - right. split; [exact Hi|]. apply Contains_ToLower; auto.
Qed.

Lemma deleteAllStep_gone (r : Resource) (msg : string) (d : nat) (errs : list string) :
  In (Type' r) kinds ->
  indicatesGone (Type' r) (ToLower msg) = true ->
  deleteAllStep r (Some msg) (d, errs) = (S d, errs).
Proof.
  intros Hkind Hgone. unfold deleteAllStep.
  rewrite isAlreadyRemovedError_spec, Hgone by exact Hkind. reflexivity.
Qed.

Lemma imagePassStep_gone (r : Resource) (msg : string) (failed : list Resource)
    (d : nat) (errs : list string) :
  In (Type' r) kinds ->
  indicatesGone (Type' r) (ToLower msg) = true ->
  imagePassStep r (Some msg) (failed, d, errs) = (failed, S d, errs).
Proof.
  intros Hkind Hgone. unfold imagePassStep.
  rewrite isAlreadyRemovedError_spec, Hgone by exact Hkind. reflexivity.
Qed.

Section Gone.
Context {W : Type} (E : Docker.Env W).

Lemma deleteAll_gone (rs : list Resource) (d : nat) (errs : list string) (w : W) :
  Forall (fun r => In (Type' r) kinds /\ answersGone E r) rs ->
  fst (rangeFold (deleteAllBody E) rs (d, errs) w) = ((d + length rs)%nat, errs).
Proof.
  intros Hall. revert d w. induction Hall as [|r rs [Hkind Hgone] _ IH]; intros d w.
  - simpl. rewrite Nat.add_0_r. reflexivity.
  - rewrite rangeFold_cons. unfold deleteAllBody at 1. rewrite bind_run.
    destruct (Hgone w) as (msg & Hmsg & Hmatch).
    destruct (Docker.Remove E (Type' r) (ID r) w) as [err w1].
    simpl in Hmsg. subst err. unfold ret.
    rewrite deleteAllStep_gone by assumption.
    rewrite IH. cbn [length]. rewrite Nat.add_succ_r. reflexivity.
Qed.

Lemma imagePass_gone (rs failed : list Resource) (d : nat) (errs : list string) (w : W) :
  Forall (fun r => In (Type' r) kinds /\ answersGone E r) rs ->
  fst (rangeFold (imagePassBody E) rs (failed, d, errs) w)
  = (failed, (d + length rs)%nat, errs).
Proof.
  intros Hall. revert d w. induction Hall as [|r rs [Hkind Hgone] _ IH]; intros d w.
  - simpl. rewrite Nat.add_0_r. reflexivity.
  - rewrite rangeFold_cons. unfold imagePassBody at 1. rewrite bind_run.
    destruct (Hgone w) as (msg & Hmsg & Hmatch).
    destruct (Docker.Remove E (Type' r) (ID r) w) as [err w1].
    simpl in Hmsg. subst err. unfold ret.
    rewrite imagePassStep_gone by assumption.
    rewrite IH. cbn [length]. rewrite Nat.add_succ_r. reflexivity.
Qed.

Lemma deleteImagesWithRetry_gone (rs : list Resource) (w : W) :
  Forall (fun r => In (Type' r) kinds /\ answersGone E r) rs ->
  fst (deleteImagesWithRetry E rs w) = (length rs, []).
Proof.
  intros Hall. unfold deleteImagesWithRetry. rewrite bind_run.
  destruct rs as [|r rs]; [reflexivity|].
  rewrite imagePasses_cons. unfold imagePass.
  pose proof (imagePass_gone (r :: rs) [] 0 [] w Hall) as Hpass.
  destruct (rangeFold (imagePassBody E) (r :: rs) ([], 0%nat, []) w) as [st w1].
  simpl in Hpass. subst st. reflexivity.
Qed.

Lemma ofType_gone (t : string) (rs : list Resource) :
  Forall (fun r => In (Type' r) kinds /\ answersGone E r) rs ->
  Forall (fun r => In (Type' r) kinds /\ answersGone E r) (ofType t rs).
Proof.
  intros Hall. apply Forall_forall. intros r Hr.
  unfold ofType in Hr. apply list_elem_of_filter in Hr as [_ Hr].
  rewrite Forall_forall in Hall. auto.
Qed.

(** When every selected resource is answered as already gone, all of
    them count as deleted and there is no error. *)
Lemma DeleteResources_gone (rs : list Resource) (w : W) :
  Forall (fun r => In (Type' r) kinds /\ answersGone E r) rs ->
  fst (DeleteResources E rs w) = (length rs, []).
Proof.
  intros Hall.
  assert (Hlen : length (filter (fun r => In (Type' r) kinds) rs) = length rs).
  { f_equal. clear w. induction Hall as [|r rs [Hr _] _ IH]; [reflexivity|].
    rewrite filter_cons. case_decide; [|contradiction]. f_equal. exact IH. }
  rewrite <- Hlen, <- ofType_lengths.
  unfold DeleteResources. rewrite separate_spec.
  cbn [containers images volumes networks]. rewrite !bind_run.
  pose proof (deleteAll_gone (ofType TypeContainer rs) 0 [] w
                (ofType_gone _ _ Hall)) as H1.
  unfold deleteAll.
  destruct (rangeFold (deleteAllBody E) (ofType TypeContainer rs) (0%nat, []) w)
    as [r1 w1]. simpl in H1. subst r1. rewrite !bind_run.
  pose proof (deleteAll_gone (ofType TypeNetwork rs) 0 [] w1
                (ofType_gone _ _ Hall)) as H2.
  destruct (rangeFold (deleteAllBody E) (ofType TypeNetwork rs) (0%nat, []) w1)
    as [r2 w2]. simpl in H2. subst r2. rewrite !bind_run.
  pose proof (deleteAll_gone (ofType TypeVolume rs) 0 [] w2
                (ofType_gone _ _ Hall)) as H3.
  destruct (rangeFold (deleteAllBody E) (ofType TypeVolume rs) (0%nat, []) w2)
    as [r3 w3]. simpl in H3. subst r3. rewrite !bind_run.
  pose proof (deleteImagesWithRetry_gone (ofType TypeImage rs) w3
                (ofType_gone _ _ Hall)) as H4.
  destruct (deleteImagesWithRetry E (ofType TypeImage rs) w3) as [r4 w4].
  simpl in H4. subst r4. reflexivity.
Qed.

End Gone.

Section OneGone.
Context {W : Type} (E : Docker.Env W) (r : Resource) (msg : string) (w : W).
Hypothesis Hkind : In (Type' r) kinds.
Hypothesis Hgone : indicatesGone (Type' r) (ToLower msg) = true.
Hypothesis Hmsg : fst (Docker.Remove E (Type' r) (ID r) w) = Some msg.

Lemma deleteAll_one_gone :
  deleteAll E [r] w = ((1%nat, []), snd (Docker.Remove E (Type' r) (ID r) w)).
Proof.
  unfold deleteAll. rewrite rangeFold_cons. unfold deleteAllBody.
  rewrite bind_run.
  destruct (Docker.Remove E (Type' r) (ID r) w) as [err w1].
  simpl in Hmsg. subst err. unfold ret.
  rewrite deleteAllStep_gone by assumption. reflexivity.
Qed.

Lemma deleteImagesWithRetry_one_gone :
  deleteImagesWithRetry E [r] w
  = ((1%nat, []), snd (Docker.Remove E (Type' r) (ID r) w)).
Proof.
  unfold deleteImagesWithRetry. rewrite bind_run, imagePasses_cons.
  unfold imagePass. rewrite rangeFold_cons. unfold imagePassBody.
  rewrite bind_run.
  destruct (Docker.Remove E (Type' r) (ID r) w) as [err w1].
  simpl in Hmsg. subst err. unfold ret.
  rewrite imagePassStep_gone by assumption. reflexivity.
Qed.

(** The selection of a single resource whose removal is answered at once
    as already gone. *)
Lemma DeleteResources_one_gone : fst (DeleteResources E [r] w) = (1%nat, []).
Proof.
  unfold DeleteResources. rewrite separate_spec. unfold ofType.
  rewrite !filter_cons, !filter_nil.
  cbn [containers images volumes networks].
  pose proof Hkind as Hk. simpl in Hk.
  unfold TypeContainer, TypeImage, TypeVolume, TypeNetwork in *.
  destruct Hk as [Ht|[Ht|[Ht|[Ht|[]]]]];
    repeat case_decide; try congruence;
    repeat (rewrite bind_run;
            first [ rewrite deleteAll_one_gone
                  | rewrite deleteImagesWithRetry_one_gone
                  | change (deleteAll E [] ?w0) with ((0%nat, @nil string), w0)
                  | change (deleteImagesWithRetry E [] ?w0)
                      with ((0%nat, @nil string), w0) ];
            cbv beta iota);
    reflexivity.
Qed.

End OneGone.

(** C3: a removal that fails with a message indicating that the resource
    no longer exists (["not found"] or ["no such"] together with the name
    of the kind, or, for an image, ["image not known"]; matched in the
    message as it is or lowered) is a success: the loop of [deleteAll]
    and the passes over the images add one to the count of deleted
    resources and nothing to the errors (an image is not deferred
    either).  So a selection of one such resource gives one deleted and
    no error, and a selection in which every removal is answered that way
    gives all deleted and no error. *)
Theorem already_removed_is_success {W : Type} (E : Docker.Env W) :
  (forall (r : Resource) (msg : string),
      In (Type' r) kinds ->
      indicatesGone (Type' r) msg = true
      \/ indicatesGone (Type' r) (ToLower msg) = true ->
      isAlreadyRemovedError (Type' r) (Some msg) = true
      /\ (forall d errs, deleteAllStep r (Some msg) (d, errs) = (S d, errs))
      /\ (forall failed d errs,
             imagePassStep r (Some msg) (failed, d, errs) = (failed, S d, errs))
      /\ (forall w, fst (Docker.Remove E (Type' r) (ID r) w) = Some msg ->
                    fst (DeleteResources E [r] w) = (1%nat, [])))
  /\ (forall (rs : list Resource) (w : W),
         Forall (fun r => In (Type' r) kinds /\ answersGone E r) rs ->
         fst (DeleteResources E rs w) = (length rs, [])).
Proof.
  split.
  - intros r msg Hkind Hmatch.
    assert (Hgone : indicatesGone (Type' r) (ToLower msg) = true).
    { destruct Hmatch as [H|H]; [apply indicatesGone_ToLower; assumption | exact H]. }
    split; [rewrite isAlreadyRemovedError_spec; assumption|].
    split; [intros; apply deleteAllStep_gone; assumption|].
    split; [intros; apply imagePassStep_gone; assumption|].
    intros w Hmsg. eapply DeleteResources_one_gone; eassumption.
  - intros rs w. apply DeleteResources_gone.
Qed.

Lemma already_removed_is_success_witness :
  In (Type' exampleContainer) kinds
  /\ indicatesGone (Type' exampleContainer) "docker rm c1: no such container" = true
  /\ fst (Docker.Remove scenarioEnv (Type' exampleContainer) (ID exampleContainer) tt)
     = Some "docker rm c1: no such container"
  /\ fst (DeleteResources scenarioEnv [exampleContainer] tt) = (1%nat, []).
Proof.
  assert (Hkind : In (Type' exampleContainer) kinds) by (simpl; auto).
  assert (Hgone : indicatesGone (Type' exampleContainer)
                    "docker rm c1: no such container" = true) by reflexivity.
  assert (Hmsg : fst (Docker.Remove scenarioEnv (Type' exampleContainer)
                        (ID exampleContainer) tt)
                 = Some "docker rm c1: no such container") by reflexivity.
  split; [exact Hkind|]. split; [exact Hgone|]. split; [exact Hmsg|].
  destruct (already_removed_is_success scenarioEnv) as [Hone _].
  destruct (Hone exampleContainer "docker rm c1: no such container" Hkind
              (or_introl Hgone)) as (_ & _ & _ & Hdelete).
  exact (Hdelete tt Hmsg).
Defined.

(* ===================================================================== *)
(** * The deletion orchestrator: the passes over the images *)
(* ===================================================================== *)




Section Passes.
Context {W : Type} (E : Docker.Env W) (answer : Resource -> option string).





End Passes.




(* ===================================================================== *)
(** * The analysers: the age filter and the stored category *)
(* ===================================================================== *)

Lemma rangeCollect_cons {W A B : Type} (body : A -> M W (option B)) (x : A)
    (xs : list A) (w : W) :
  rangeCollect body (x :: xs) w
  = (let (r, w1) := body x w in
     let (tail, w2) := rangeCollect body xs w1 in
     (match r with Some y => y :: tail | None => tail end, w2)).
Proof. reflexivity. Qed.

(** Every record a collecting loop returns was produced by its body for
    one of the elements. *)
Lemma rangeCollect_In {W A B : Type} (body : A -> M W (option B)) (xs : list A)
    (w : W) (y : B) :
  In y (fst (rangeCollect body xs w)) ->
  exists x w1, In x xs /\ fst (body x w1) = Some y.
Proof.
  revert w. induction xs as [|x xs IH]; intros w Hy; [contradiction|].
  rewrite rangeCollect_cons in Hy.
  destruct (body x w) as [r w1] eqn:Hbody.
  specialize (IH w1).
  destruct (rangeCollect body xs w1) as [tail w2]. cbn [fst] in *.
  assert (Hcase : r = Some y \/ In y tail).
  { destruct r as [y'|]; [destruct Hy as [->|Hy]|]; auto. }
  destruct Hcase as [->|Hin].
  - exists x, w. rewrite Hbody. split; [left|]; reflexivity.
  - destruct (IH Hin) as (x' & w' & Hx' & Hb). exists x', w'. split; [right|]; assumption.
Qed.


Section AgeFilter.
Context {W : Type} (E : Docker.Env W) (cfg : Config.t).
Hypothesis Hduration : Config.OlderThan cfg <= GoTime.maxDuration.



End AgeFilter.

Section Bodies.
Context {W : Type} (E : Docker.Env W) (cfg : Config.t).
Hypothesis Hduration : Config.OlderThan cfg <= GoTime.maxDuration.





End Bodies.

Section AnalyserOutputs.
Context {W : Type} (E : Docker.Env W) (cfg : Config.t).

Lemma AnalyzeContainers_In (w : W) (rs : list ContainerResource.t)
    (r : ContainerResource.t) :
  fst (AnalyzeContainersWithConfig E cfg w) = Ok rs -> In r rs ->
  exists inspectByID c w1, fst (containerBody E cfg inspectByID c w1) = Some r.
Proof.
  unfold AnalyzeContainersWithConfig. rewrite bind_run.
  destruct (Docker.ListContainers E w) as [[containers|e] w1];
    [|unfold ret; discriminate].
  rewrite bind_run.
  destruct (Docker.InspectContainers E _ w1) as [batch w2].
  rewrite bind_run. intros Hrun Hin.
  set (inspectByID := match batch with Ok m => m | Err _ => ∅ end) in *.
  pose proof (rangeCollect_In (containerBody E cfg inspectByID) containers w2 r) as Hc.
  destruct (rangeCollect (containerBody E cfg inspectByID) containers w2)
    as [results w3].
  unfold ret in Hrun. cbn [fst] in *. injection Hrun as ->.
  destruct (Hc Hin) as (c & w' & _ & Hbody). eauto.
Qed.

Lemma AnalyzeImages_In (w : W) (rs : list ImageResource.t) (r : ImageResource.t) :
  fst (AnalyzeImagesWithConfig E cfg w) = Ok rs -> In r rs ->
  exists inUse inspectByID inspectNeeded img w1,
    fst (imageBody E cfg inUse inspectByID inspectNeeded img w1) = Some r.
Proof.
  unfold AnalyzeImagesWithConfig. rewrite bind_run.
  destruct (Docker.ListImages E w) as [[images|e] w1]; [|unfold ret; discriminate].
  rewrite bind_run.
  destruct (Docker.GetImagesInUse E w1) as [used w2].
  destruct (inspectPlan cfg images) as [imageIDs inspectNeeded].
  rewrite bind_run.
  match goal with
  | |- context [let (_, _) := ?c w2 in _] => destruct (c w2) as [inspectByID w3]
  end.
  rewrite bind_run. intros Hrun Hin.
  pose proof (rangeCollect_In
                (imageBody E cfg (orNothingInUse used) inspectByID inspectNeeded)
                images w3 r) as Hc.
  destruct (rangeCollect
              (imageBody E cfg (orNothingInUse used) inspectByID inspectNeeded)
              images w3) as [results w4].
  unfold ret in Hrun. cbn [fst] in *. injection Hrun as ->.
  destruct (Hc Hin) as (img & w' & _ & Hbody). eauto 7.
Qed.

Lemma AnalyzeVolumes_In (w : W) (rs : list VolumeResource.t) (r : VolumeResource.t) :
  fst (AnalyzeVolumesWithConfig E cfg w) = Ok rs -> In r rs ->
  exists inUse inspectByName vol w1,
    fst (volumeBody E cfg inUse inspectByName vol w1) = Some r.
Proof.
  unfold AnalyzeVolumesWithConfig. rewrite bind_run.
  destruct (Docker.ListVolumes E w) as [[volumes|e] w1]; [|unfold ret; discriminate].
  rewrite bind_run.
  destruct (Docker.InspectVolumes E _ w1) as [batch w2].
  rewrite bind_run.
  destruct (Docker.GetVolumesInUse E w2) as [used w3].
  rewrite bind_run. intros Hrun Hin.
  set (inspectByName := match batch with Ok m => m | Err _ => ∅ end) in *.
  pose proof (rangeCollect_In
                (volumeBody E cfg (orNothingInUse used) inspectByName)
                volumes w3 r) as Hc.
  destruct (rangeCollect (volumeBody E cfg (orNothingInUse used) inspectByName)
              volumes w3) as [results w4].
  unfold ret in Hrun. cbn [fst] in *. injection Hrun as ->.
  destruct (Hc Hin) as (vol & w' & _ & Hbody). eauto 6.
Qed.

Lemma AnalyzeNetworks_In (w : W) (rs : list NetworkResource.t)
    (r : NetworkResource.t) :
  fst (AnalyzeNetworksWithConfig E cfg w) = Ok rs -> In r rs ->
  exists inUse net w1, fst (networkBody E cfg inUse net w1) = Some r.
Proof.
  unfold AnalyzeNetworksWithConfig. rewrite bind_run.
  destruct (Docker.ListNetworks E w) as [[networks|e] w1]; [|unfold ret; discriminate].
  rewrite bind_run.
  destruct (Docker.GetNetworksInUse E w1) as [used w2].
  rewrite bind_run. intros Hrun Hin.
  pose proof (rangeCollect_In (networkBody E cfg (orNothingInUse used))
                networks w2 r) as Hc.
  destruct (rangeCollect (networkBody E cfg (orNothingInUse used)) networks w2)
    as [results w3].
  unfold ret in Hrun. cbn [fst] in *. injection Hrun as ->.
  destruct (Hc Hin) as (net & w' & _ & Hbody). eauto.
Qed.

End AnalyserOutputs.



(* ===================================================================== *)
(** * The protection label *)
(* ===================================================================== *)

Section Categorised.
Context {W : Type} (E : Docker.Env W) (cfg : Config.t).

(** A record that an analyser keeps stores the category and the reason
    that its categorisation function gives for the labels it stores. *)
Lemma containerBody_categorised (inspectByID : gmap string Docker.ContainerInspect.t)
    (c : Docker.Container.t) (w : W) (r : ContainerResource.t) :
  fst (containerBody E cfg inspectByID c w) = Some r ->
  (ContainerResource.category r, ContainerResource.protectReason r)
  = categorizeContainer (ContainerResource.container r) (ContainerResource.labels r)
      Config.DefaultConfig.
Proof.
  unfold containerBody. rewrite bind_run.
  destruct (containerDetail E inspectByID c w) as [[createdAt labels] w1].
  change (categorizeContainer c (Some labels) cfg)
    with (categorizeContainer c (Some labels) Config.DefaultConfig).
  destruct (categorizeContainer c (Some labels) Config.DefaultConfig)
    as [category reason] eqn:Hcat.
  rewrite bind_run. destruct (notOldEnough E cfg createdAt w1) as [[|] w2];
    [unfold ret; discriminate|].
  destruct (_ && _)%bool; unfold ret; cbn [fst]; [discriminate|].
  intros [= <-]. cbn. rewrite Hcat. reflexivity.
Qed.

Lemma imageBody_categorised (inUse : gmap string bool)
    (inspectByID : gmap string Docker.ImageInspect.t)
    (inspectNeeded : gmap string bool) (img : Docker.Image.t) (w : W)
    (r : ImageResource.t) :
  fst (imageBody E cfg inUse inspectByID inspectNeeded img w) = Some r ->
  (ImageResource.category r, ImageResource.protectReason r)
  = categorizeImage (ImageResource.image r) (ImageResource.inUse r)
      (ImageResource.labels r) Config.DefaultConfig.
Proof.
  unfold imageBody. rewrite bind_run.
  destruct (imageDetail E inspectByID inspectNeeded img w) as [d w1].
  destruct (imageFallbacks E img d) as [[size labels] createdAt].
  rewrite bind_run. destruct (notOldEnough E cfg createdAt w1) as [[|] w2];
    [unfold ret; discriminate|].
  repeat (destruct (_ && _)%bool; [unfold ret; discriminate|]).
  match goal with
  | |- context [categorizeImage ?i ?u ?l cfg] =>
      change (categorizeImage i u l cfg)
        with (categorizeImage i u l Config.DefaultConfig);
      destruct (categorizeImage i u l Config.DefaultConfig) eqn:Hcat
  end.
  unfold ret. cbn [fst]. intros [= <-]. cbn. rewrite Hcat. reflexivity.
Qed.

Lemma volumeBody_categorised (inUse : gmap string bool)
    (inspectByName : gmap string Docker.VolumeInspect.t) (vol : Docker.Volume.t)
    (w : W) (r : VolumeResource.t) :
  fst (volumeBody E cfg inUse inspectByName vol w) = Some r ->
  (VolumeResource.category r, VolumeResource.protectReason r)
  = categorizeVolume (VolumeResource.volume r) (VolumeResource.inUse r)
      (VolumeResource.labels r) Config.DefaultConfig.
Proof.
  unfold volumeBody. rewrite bind_run.
  destruct (volumeDetail E inspectByName vol w) as [[[labels createdAt] project] w1].
  rewrite bind_run. destruct (notOldEnough E cfg createdAt w1) as [[|] w2];
    [unfold ret; discriminate|].
  destruct (_ && _)%bool; [unfold ret; discriminate|].
  match goal with
  | |- context [categorizeVolume ?v ?u ?l cfg] =>
      change (categorizeVolume v u l cfg)
        with (categorizeVolume v u l Config.DefaultConfig);
      destruct (categorizeVolume v u l Config.DefaultConfig) eqn:Hcat
  end.
  unfold ret. cbn [fst]. intros [= <-]. cbn. rewrite Hcat. reflexivity.
Qed.

Lemma networkBody_categorised (inUse : gmap string bool) (net : Docker.Network.t)
    (w : W) (r : NetworkResource.t) :
  fst (networkBody E cfg inUse net w) = Some r ->
  (NetworkResource.category r, NetworkResource.protectReason r)
  = categorizeNetwork (NetworkResource.network r) (NetworkResource.inUse r)
      (NetworkResource.labels r) Config.DefaultConfig.
Proof.
  unfold networkBody. rewrite bind_run.
  destruct (networkDetail E net w) as [[[labels createdAt] project] w1].
  rewrite bind_run. destruct (notOldEnough E cfg createdAt w1) as [[|] w2];
    [unfold ret; discriminate|].
  match goal with
  | |- context [categorizeNetwork ?v ?u ?l cfg] =>
      change (categorizeNetwork v u l cfg)
        with (categorizeNetwork v u l Config.DefaultConfig);
      destruct (categorizeNetwork v u l Config.DefaultConfig) eqn:Hcat
  end.
  unfold ret. cbn [fst]. intros [= <-]. cbn. rewrite Hcat. reflexivity.
Qed.

End Categorised.

(** The policy of each kind under the label. *)
Lemma categorize_protected_by_label (labels : option (gmap string string)) :
  index labels Docker.LabelProtect = "true" ->
  (forall c cfg, categorizeContainer c labels cfg = (CategoryProtected, "protected by label"))
  /\ (forall img inUse cfg,
         categorizeImage img inUse labels cfg = (CategoryProtected, "protected by label"))
  /\ (forall vol inUse cfg,
         categorizeVolume vol inUse labels cfg = (CategoryProtected, "protected by label"))
  /\ (forall net inUse cfg,
         categorizeNetwork net inUse labels cfg = (CategoryProtected, "protected by label")).
Proof.
  intros Hlabel.
  assert (Hp : protectedByLabel labels = true) by (apply protectedByLabel_index, Hlabel).
  repeat split; intros.
  - unfold categorizeContainer. case_decide; [reflexivity | contradiction].
  - unfold categorizeImage. rewrite Hp. reflexivity.
  - unfold categorizeVolume. rewrite Hp. reflexivity.
  - unfold categorizeNetwork. rewrite Hp. reflexivity.
Qed.

(** C1: a label mapping that holds [sweep.protect=true] makes the
    categorisation function of each of the four kinds answer [protected]
    with the reason ["protected by label"], whatever the state, the in-use
    status, the name and the configuration are; and every record that one
    of the four analysers returns with such labels has the category
    [protected], that reason, and answers [IsProtected]. *)
Theorem protect_label_always_wins {W : Type} (E : Docker.Env W)
    (labels : option (gmap string string)) :
  index labels Docker.LabelProtect = "true" ->
  (forall c cfg, categorizeContainer c labels cfg = (CategoryProtected, "protected by label"))
  /\ (forall img inUse cfg,
         categorizeImage img inUse labels cfg = (CategoryProtected, "protected by label"))
  /\ (forall vol inUse cfg,
         categorizeVolume vol inUse labels cfg = (CategoryProtected, "protected by label"))
  /\ (forall net inUse cfg,
         categorizeNetwork net inUse labels cfg = (CategoryProtected, "protected by label"))
  /\ (forall cfg w rs r,
         fst (AnalyzeContainersWithConfig E cfg w) = Ok rs -> In r rs ->
         ContainerResource.labels r = labels ->
         ContainerResource.category r = CategoryProtected
         /\ ContainerResource.protectReason r = "protected by label"
         /\ ContainerResource.IsProtected r = true)
  /\ (forall cfg w rs r,
         fst (AnalyzeImagesWithConfig E cfg w) = Ok rs -> In r rs ->
         ImageResource.labels r = labels ->
         ImageResource.category r = CategoryProtected
         /\ ImageResource.protectReason r = "protected by label"
         /\ ImageResource.IsProtected r = true)
  /\ (forall cfg w rs r,
         fst (AnalyzeVolumesWithConfig E cfg w) = Ok rs -> In r rs ->
         VolumeResource.labels r = labels ->
         VolumeResource.category r = CategoryProtected
         /\ VolumeResource.protectReason r = "protected by label"
         /\ VolumeResource.IsProtected r = true)
  /\ (forall cfg w rs r,
         fst (AnalyzeNetworksWithConfig E cfg w) = Ok rs -> In r rs ->
         NetworkResource.labels r = labels ->
         NetworkResource.category r = CategoryProtected
         /\ NetworkResource.protectReason r = "protected by label"
         /\ NetworkResource.IsProtected r = true).
Proof.
  intros Hlabel.
  destruct (categorize_protected_by_label labels Hlabel) as (Hc & Hi & Hv & Hn).
  split; [exact Hc|]. split; [exact Hi|]. split; [exact Hv|]. split; [exact Hn|].
  split; [|split; [|split]]; intros cfg w rs r Hrun Hin Hlabels.
  - destruct (AnalyzeContainers_In E cfg w rs r Hrun Hin) as (ib & c & w1 & Hbody).
    apply containerBody_categorised in Hbody. rewrite Hlabels, Hc in Hbody.
    injection Hbody as Hcat Hreason. unfold ContainerResource.IsProtected.
    rewrite Hcat. repeat split; auto.
  - destruct (AnalyzeImages_In E cfg w rs r Hrun Hin) as (u & ib & need & img & w1 & Hbody).
    apply imageBody_categorised in Hbody. rewrite Hlabels, Hi in Hbody.
    injection Hbody as Hcat Hreason. unfold ImageResource.IsProtected.
    rewrite Hcat. repeat split; auto.
  - destruct (AnalyzeVolumes_In E cfg w rs r Hrun Hin) as (u & ib & vol & w1 & Hbody).
    apply volumeBody_categorised in Hbody. rewrite Hlabels, Hv in Hbody.
    injection Hbody as Hcat Hreason. unfold VolumeResource.IsProtected.
    rewrite Hcat. repeat split; auto.
  - destruct (AnalyzeNetworks_In E cfg w rs r Hrun Hin) as (u & net & w1 & Hbody).
    apply networkBody_categorised in Hbody. rewrite Hlabels, Hn in Hbody.
    injection Hbody as Hcat Hreason. unfold NetworkResource.IsProtected.
    rewrite Hcat. repeat split; auto.
Qed.

Lemma protect_label_always_wins_witness :
  index protectLabels Docker.LabelProtect = "true"
  /\ categorizeContainer (containerInState "exited") protectLabels Config.DefaultConfig
     = (CategoryProtected, "protected by label")
  /\ categorizeVolume (Docker.Volume.mk "data-01" "local" "") false protectLabels
       Config.DefaultConfig
     = (CategoryProtected, "protected by label").
Proof.
  assert (H : index protectLabels Docker.LabelProtect = "true") by reflexivity.
  destruct (protect_label_always_wins scenarioEnv protectLabels H)
    as (Hc & _ & Hv & _).
  split; [exact H|]. split; [apply Hc | apply Hv].
Defined.

(* ===================================================================== *)
(** * Batch inspection *)
(* ===================================================================== *)

(** One turn of the loop of the batch inspections. *)
Lemma inspectFrom_step {W : Type} (E : Docker.Env W) {I : Type} (command : list string)
    (decode : string -> Fallible (list I)) (wrap : string -> string)
    (add : gmap string I -> I -> gmap string I) (ids : list string) (start : nat)
    (result : gmap string I) (w : W) :
  Docker.inspectFrom E command decode wrap add ids start result w
  = if decide (start < length ids)%nat then
      match Docker.Run E (command ++ Docker.slice ids start (Docker.batchEnd ids start)) w with
      | (Err e, w1) => (Err e, w1)
      | (Ok out, w1) =>
          match decode out with
          | Err e => (Err (wrap e), w1)
          | Ok inspected =>
              Docker.inspectFrom E command decode wrap add ids
                (start + Docker.batchSize) (fold_left add inspected result) w1
          end
      end
    else (Ok result, w).
Proof.
  rewrite Docker.inspectFrom_equation_1.
  destruct (lt_dec start (length ids)) as [Hlt|Hge]; case_decide; try lia; simpl.
  - destruct (Docker.Run E _ w) as [[out|e] w1] eqn:Hrun; simpl; [|reflexivity].
    destruct (decode out) as [inspected|e] eqn:Hdec; simpl; reflexivity.
  - reflexivity.
Qed.


Section Batches.
Context {W : Type} (E : Docker.Env W) {I : Type} (command : list string)
  (decode : string -> Fallible (list I)) (wrap : string -> string)
  (add : gmap string I -> I -> gmap string I).




End Batches.


Section Absorbed.
Context {W : Type} (E : Docker.Env W) (cfg : Config.t).




End Absorbed.






(* ===================================================================== *)
(** * The result of an analysis and its views *)
(* ===================================================================== *)




Lemma wrap_in_range (z : Z) : Int64.min <= z <= Int64.max -> Int64.wrap z = z.
Proof.
  unfold Int64.wrap, Int64.min, Int64.max. intros H.
  rewrite Z.mod_small by lia. lia.
Qed.

Lemma wrap_add_wrap (a b : Z) : Int64.wrap (Int64.wrap a + b) = Int64.wrap (a + b).
Proof.
  unfold Int64.wrap. f_equal.
  replace (((a + 2 ^ 63) mod 2 ^ 64 - 2 ^ 63 + b + 2 ^ 63))
    with ((a + 2 ^ 63) mod 2 ^ 64 + b) by lia.
  rewrite Zplus_mod_idemp_l. f_equal. lia.
Qed.

Lemma wrap_wrap (a : Z) : Int64.wrap (Int64.wrap a) = Int64.wrap a.
Proof.
  pose proof (wrap_add_wrap a 0) as H. rewrite !Z.add_0_r in H. exact H.
Qed.

(** Adding up resources whose size is 0 keeps a wrapped total. *)
Lemma fold_sizes_zero (l : list Resource) (total : Z) :
  Forall (fun x => Size x = 0) l ->
  fold_left (fun t res => Int64.add t (Size res)) l (Int64.wrap total) = Int64.wrap total.
Proof.
  induction 1 as [|x l Hx _ IH]; [reflexivity|].
  cbn [fold_left]. unfold Int64.add at 2. rewrite Hx, Z.add_0_r, wrap_wrap. exact IH.
Qed.

Lemma fold_sizes_images (l : list ImageResource.t) (total : Z) :
  fold_left (fun t res => Int64.add t (Size res)) (map ImageResource.asResource l)
    (Int64.wrap total)
  = Int64.wrap (total + foldr Z.add 0 (map ImageResource.size l)).
Proof.
  revert total. induction l as [|i l IH]; intros total.
  - simpl. rewrite Z.add_0_r. reflexivity.
  - cbn [map fold_left foldr]. unfold Int64.add at 2. rewrite wrap_add_wrap, IH.
    f_equal. cbn. unfold ImageResource.Size. lia.
Qed.

(** X2: [TotalSize] counts the suggested images only (containers, volumes and
    networks have size 0): it is the sum of their sizes, reduced to an
    [int64]; so it is that sum whenever the sum is one. *)
Theorem TotalSize_counts_suggested_images (r : Sweep.Result.t) :
  Sweep.Result.TotalSize r = Int64.wrap (suggestedImageBytes r)
  /\ (Int64.min <= suggestedImageBytes r <= Int64.max ->
      Sweep.Result.TotalSize r = suggestedImageBytes r).
Proof.
  assert (Heq : Sweep.Result.TotalSize r = Int64.wrap (suggestedImageBytes r)).
  { unfold Sweep.Result.TotalSize, Sweep.Result.Suggested, suggestedImageBytes.
    rewrite !fold_left_app.
    change 0 with (Int64.wrap 0) at 1.
    rewrite fold_sizes_zero
      by (apply Forall_forall; intros x Hx;
          apply list_elem_of_fmap in Hx as (y & -> & _); reflexivity).
    rewrite fold_sizes_images, Z.add_0_l.
    rewrite !fold_sizes_zero
      by (apply Forall_forall; intros x Hx;
          apply list_elem_of_fmap in Hx as (y & -> & _); reflexivity).
    reflexivity. }
  split; [exact Heq|]. intros Hrange. rewrite Heq. apply wrap_in_range, Hrange.
Qed.

Lemma TotalSize_counts_suggested_images_witness :
  Int64.min <= suggestedImageBytes exampleResult <= Int64.max
  /\ Sweep.Result.TotalSize exampleResult = 10485760.
Proof.
  assert (H : Int64.min <= suggestedImageBytes exampleResult <= Int64.max)
    by (vm_compute; split; discriminate).
  split; [exact H|].
  rewrite (proj2 (TotalSize_counts_suggested_images exampleResult) H). reflexivity.
Defined.

(* ===================================================================== *)
(** * The names shown for the resources *)
(* ===================================================================== *)

Lemma length_take (n : nat) (s : string) :
  String.length (take n s) = Nat.min n (String.length s).
Proof.
  revert s. induction n as [|n IH]; intros [|c s]; cbn [take String.length Nat.min];
    try reflexivity.
  rewrite IH. reflexivity.
Qed.

Lemma length_append (a b : string) :
  String.length (a +:+ b) = (String.length a + String.length b)%nat.
Proof.
  induction a as [|c a IH]; [reflexivity|].
  rewrite app_cons. cbn [String.length]. rewrite IH. reflexivity.
Qed.

Lemma take_drop (n : nat) (s : string) : take n s +:+ drop n s = s.
Proof.
  revert s. induction n as [|n IH]; intros [|c s]; try reflexivity.
  cbn [take drop]. rewrite app_cons, IH. reflexivity.
Qed.

(** The truncation to a column of [limit] bytes. *)
Lemma truncate_spec (limit : nat) (name : string) :
  (3 <= limit)%nat ->
  String.length (truncate limit name) = Nat.min limit (String.length name)
  /\ ((String.length name <= limit)%nat -> truncate limit name = name)
  /\ ((limit < String.length name)%nat ->
      truncate limit name = take (limit - 3) name +:+ "...").
Proof.
  intros Hlimit. unfold truncate.
  destruct (Nat.ltb_spec limit (String.length name)) as [Hlong|Hfits].
  - rewrite length_append, length_take. cbn [String.length].
    repeat split; try reflexivity; lia.
  - repeat split; try reflexivity; lia.
Qed.

Lemma trimImageID_spec (id : string) :
  (String.length (trimImageID id) <= 12)%nat
  /\ exists rest, (id = trimImageID id +:+ rest
                   \/ id = "sha256:" +:+ trimImageID id +:+ rest).
Proof.
  unfold trimImageID.
  set (bare := if (_ && _)%bool then drop 7 id else id).
  assert (Hbare : id = bare \/ id = "sha256:" +:+ bare).
  { subst bare. destruct (Nat.ltb 7 (String.length id)); cbn [andb]; [|left; reflexivity].
    case_bool_decide as Hp; [right|left; reflexivity].
    rewrite <- Hp. symmetry. apply take_drop. }
  destruct (Nat.ltb_spec 12 (String.length bare)) as [Hlong|Hfits].
  - split; [rewrite length_take; lia|]. exists (drop 12 bare).
    rewrite take_drop. exact Hbare.
  - split; [exact Hfits|]. exists "".
    assert (Hnil : forall s : string, s +:+ "" = s).
    { induction s as [|c s IH]; [reflexivity|]. rewrite app_cons, IH. reflexivity. }
    rewrite Hnil. exact Hbare.
Qed.

(** X3: the name shown for a resource fits its column: at most 20 bytes for a
    container, at most 30 for an image, a volume and a network.  A name
    that fits is shown as it is (for a container, without a leading
    [/]); a longer one is cut to the column less three bytes and ends in
    three dots; an image without a repository is shown as [<none>:]
    followed by at most 12 bytes taken from the start of its ID, after
    the prefix [sha256:] if there is one. *)
Theorem DisplayName_fits_its_column :
  (forall c : ContainerResource.t,
      let name := TrimPrefix (Docker.Container.Names (ContainerResource.container c)) "/" in
      String.length (ContainerResource.DisplayName c) = Nat.min 20 (String.length name)
      /\ ((String.length name <= 20)%nat -> ContainerResource.DisplayName c = name)
      /\ ((20 < String.length name)%nat ->
          ContainerResource.DisplayName c = take 17 name +:+ "..."))
  /\ (forall i : ImageResource.t,
         (String.length (ImageResource.DisplayName i) <= 30)%nat
         /\ (Docker.Image.Repository (ImageResource.image i) = "<none>" ->
             exists short rest,
               ImageResource.DisplayName i = "<none>:" +:+ short
               /\ (String.length short <= 12)%nat
               /\ (Docker.Image.ID (ImageResource.image i) = short +:+ rest
                   \/ Docker.Image.ID (ImageResource.image i)
                      = "sha256:" +:+ short +:+ rest)))
  /\ (forall v : VolumeResource.t,
         let name := Docker.Volume.Name (VolumeResource.volume v) in
         String.length (VolumeResource.DisplayName v) = Nat.min 30 (String.length name)
         /\ ((String.length name <= 30)%nat -> VolumeResource.DisplayName v = name)
         /\ ((30 < String.length name)%nat ->
             VolumeResource.DisplayName v = take 27 name +:+ "..."))
  /\ (forall n : NetworkResource.t,
         let name := Docker.Network.Name (NetworkResource.network n) in
         String.length (NetworkResource.DisplayName n) = Nat.min 30 (String.length name)
         /\ ((String.length name <= 30)%nat -> NetworkResource.DisplayName n = name)
         /\ ((30 < String.length name)%nat ->
             NetworkResource.DisplayName n = take 27 name +:+ "...")).
Proof.
  split; [|split; [|split]].
  - intros c name. apply (truncate_spec 20). lia.
  - intros i. unfold ImageResource.DisplayName.
    destruct (trimImageID_spec (Docker.Image.ID (ImageResource.image i)))
      as (Hlen & rest & Hid).
    case_decide as Hrepo.
    + split.
      * rewrite length_append. cbn [String.length]. lia.
      * intros _. exists (trimImageID (Docker.Image.ID (ImageResource.image i))), rest.
        repeat split; auto.
    + split; [|contradiction].
      match goal with
      | |- (String.length (truncate 30 ?s) <= 30)%nat =>
          destruct (truncate_spec 30 s) as (Hl & _); [lia|rewrite Hl; lia]
      end.
  - intros v name. apply (truncate_spec 30). lia.
  - intros n name. apply (truncate_spec 30). lia.
Qed.

(* ===================================================================== *)
(** * The records the analysers return *)
(* ===================================================================== *)

Ltac settle_category Hcat :=
  injection Hcat as -> ->; cbn;
  intuition (try discriminate; try congruence).

(** X4: the categories and the reasons the analysers store.  No record has
    the category [in_use]; the reason is empty exactly for a record that
    is not protected.  A container is suggested exactly when it is not
    protected and its state is [exited], [dead] or [created]; an image,
    when it is not protected and dangling; a volume, when it is not
    protected and anonymous; a network, whenever it is not protected (no
    network is merely unused).  An image, a volume or a network in use,
    and a system network, is protected; and the details of a suggested
    image read [dangling], those of a suggested volume [anonymous]. *)
Theorem analysed_records_are_consistent {W : Type} (E : Docker.Env W) (cfg : Config.t)
    (w : W) :
  (forall rs r,
      fst (AnalyzeContainersWithConfig E cfg w) = Ok rs -> In r rs ->
      In (ContainerResource.category r) [CategoryProtected; CategorySuggested; CategoryUnused]
      /\ (ContainerResource.protectReason r = ""
          <-> ContainerResource.IsProtected r = false)
      /\ (ContainerResource.IsSuggested r = true
          <-> ContainerResource.IsProtected r = false
              /\ In (Docker.Container.State (ContainerResource.container r))
                   ["exited"; "dead"; "created"]))
  /\ (forall rs r,
         fst (AnalyzeImagesWithConfig E cfg w) = Ok rs -> In r rs ->
         In (ImageResource.category r) [CategoryProtected; CategorySuggested; CategoryUnused]
         /\ (ImageResource.protectReason r = "" <-> ImageResource.IsProtected r = false)
         /\ (ImageResource.IsSuggested r = true
             <-> ImageResource.IsProtected r = false /\ ImageResource.IsDangling r = true)
         /\ (ImageResource.inUse r = true -> ImageResource.IsProtected r = true)
         /\ (ImageResource.IsSuggested r = true -> ImageResource.Details r = "dangling"))
  /\ (forall rs r,
         fst (AnalyzeVolumesWithConfig E cfg w) = Ok rs -> In r rs ->
         In (VolumeResource.category r) [CategoryProtected; CategorySuggested; CategoryUnused]
         /\ (VolumeResource.protectReason r = "" <-> VolumeResource.IsProtected r = false)
         /\ (VolumeResource.IsSuggested r = true
             <-> VolumeResource.IsProtected r = false /\ VolumeResource.IsAnonymous r = true)
         /\ (VolumeResource.inUse r = true -> VolumeResource.IsProtected r = true)
         /\ (VolumeResource.IsSuggested r = true -> VolumeResource.Details r = "anonymous"))
  /\ (forall rs r,
         fst (AnalyzeNetworksWithConfig E cfg w) = Ok rs -> In r rs ->
         In (NetworkResource.category r) [CategoryProtected; CategorySuggested]
         /\ (NetworkResource.protectReason r = "" <-> NetworkResource.IsProtected r = false)
         /\ (NetworkResource.IsSuggested r = negb (NetworkResource.IsProtected r))
         /\ (NetworkResource.inUse r = true -> NetworkResource.IsProtected r = true)
         /\ (member Docker.SystemNetworks
               (Docker.Network.Name (NetworkResource.network r)) = true ->
             NetworkResource.IsProtected r = true)).
Proof.
  split; [|split; [|split]]; intros rs r Hrun Hin.
  - destruct (AnalyzeContainers_In E cfg w rs r Hrun Hin) as (ib & c & w1 & Hbody).
    apply containerBody_categorised in Hbody.
    unfold ContainerResource.IsProtected, ContainerResource.IsSuggested.
    destruct r as [c0 cat labels created project reason].
    cbn [ContainerResource.category ContainerResource.protectReason
           ContainerResource.container ContainerResource.labels] in *.
    unfold categorizeContainer in Hbody.
    repeat match type of Hbody with
           | context [decide ?P] => destruct (decide P)
           end; settle_category Hbody.
  - destruct (AnalyzeImages_In E cfg w rs r Hrun Hin)
      as (u & ib & need & img & w1 & Hbody).
    apply imageBody_categorised in Hbody.
    unfold ImageResource.IsProtected, ImageResource.IsSuggested,
      ImageResource.IsDangling, ImageResource.Details.
    destruct r as [i0 cat used size labels created reason].
    cbn [ImageResource.category ImageResource.protectReason ImageResource.image
           ImageResource.labels ImageResource.inUse] in *.
    unfold categorizeImage, isDangling in Hbody.
    destruct (protectedByLabel labels), used; [settle_category Hbody..|].
    destruct (decide (Docker.Image.Repository i0 = "<none>")) as [Hrepo|Hrepo];
      [rewrite (bool_decide_eq_true_2 _ Hrepo) in *
      |rewrite (bool_decide_eq_false_2 _ Hrepo) in *]; cbn [andb] in *;
      [destruct (bool_decide (Docker.Image.Tag i0 = "<none>"))|];
      settle_category Hbody.
  - destruct (AnalyzeVolumes_In E cfg w rs r Hrun Hin) as (u & ib & vol & w1 & Hbody).
    apply volumeBody_categorised in Hbody.
    unfold VolumeResource.IsProtected, VolumeResource.IsSuggested,
      VolumeResource.IsAnonymous, VolumeResource.Details.
    destruct r as [v0 cat used labels created project reason].
    cbn [VolumeResource.category VolumeResource.protectReason VolumeResource.volume
           VolumeResource.labels VolumeResource.inUse] in *.
    unfold categorizeVolume in Hbody.
    destruct (protectedByLabel labels), used; [settle_category Hbody..|].
    destruct (Docker.IsAnonymousVolume (Docker.Volume.Name v0)); settle_category Hbody.
  - destruct (AnalyzeNetworks_In E cfg w rs r Hrun Hin) as (u & net & w1 & Hbody).
    apply networkBody_categorised in Hbody.
    unfold NetworkResource.IsProtected, NetworkResource.IsSuggested.
    destruct r as [n0 cat used labels created project reason].
    cbn [NetworkResource.category NetworkResource.protectReason NetworkResource.network
           NetworkResource.labels NetworkResource.inUse] in *.
    unfold categorizeNetwork in Hbody.
    destruct (protectedByLabel labels),
      (member Docker.SystemNetworks (Docker.Network.Name n0)), used;
      settle_category Hbody.
Qed.

(* ===================================================================== *)
(** * The filters of the configuration, and the flags they come from *)
(* ===================================================================== *)

Section Filters.
Context {W : Type} (E : Docker.Env W) (cfg : Config.t).

Lemma containerBody_filters (inspectByID : gmap string Docker.ContainerInspect.t)
    (c : Docker.Container.t) (w : W) (r : ContainerResource.t) :
  fst (containerBody E cfg inspectByID c w) = Some r ->
  Config.Exited cfg = true ->
  Docker.Container.State (ContainerResource.container r) = "exited".
Proof.
  unfold containerBody. rewrite bind_run.
  destruct (containerDetail E inspectByID c w) as [[createdAt labels] w1].
  destruct (categorizeContainer c (Some labels) cfg) as [category reason].
  rewrite bind_run. destruct (notOldEnough E cfg createdAt w1) as [[|] w2];
    [unfold ret; discriminate|].
  intros Hbody Hexited. rewrite Hexited in Hbody. cbn [andb] in Hbody.
  case_bool_decide as Hstate; cbn [negb] in Hbody; unfold ret in Hbody;
    cbn [fst] in Hbody; [|discriminate].
  injection Hbody as <-. exact Hstate.
Qed.

Lemma imageBody_filters (inUse : gmap string bool)
    (inspectByID : gmap string Docker.ImageInspect.t)
    (inspectNeeded : gmap string bool) (img : Docker.Image.t) (w : W)
    (r : ImageResource.t) :
  fst (imageBody E cfg inUse inspectByID inspectNeeded img w) = Some r ->
  (Config.Dangling cfg = true -> ImageResource.IsDangling r = true)
  /\ (Config.NoDangling cfg = true -> ImageResource.IsDangling r = false)
  /\ (0 < Config.MinSize cfg -> Config.MinSize cfg <= ImageResource.Size r).
Proof.
  unfold imageBody. rewrite bind_run.
  destruct (imageDetail E inspectByID inspectNeeded img w) as [d w1].
  destruct (imageFallbacks E img d) as [[size labels] createdAt].
  rewrite bind_run. destruct (notOldEnough E cfg createdAt w1) as [[|] w2];
    [unfold ret; discriminate|].
  destruct (Z.ltb_spec 0 (Config.MinSize cfg)) as [Hmin|Hmin];
    [destruct (Z.ltb_spec size (Config.MinSize cfg)) as [Hsz|Hsz]|]; cbn [andb];
    [unfold ret; discriminate|..];
    (destruct (Config.Dangling cfg), (Config.NoDangling cfg),
       (isDangling img) eqn:Hdangling; cbn [andb negb];
     try (unfold ret; discriminate);
     match goal with
     | |- context [categorizeImage ?i ?u ?l cfg] =>
         destruct (categorizeImage i u l cfg) as [category reason]
     end;
     unfold ret; cbn [fst]; intros [= <-];
     unfold ImageResource.IsDangling, ImageResource.Size;
     cbn [ImageResource.image ImageResource.size];
     fold (isDangling img); rewrite Hdangling;
     repeat split; intros; first [reflexivity | discriminate | lia]).
Qed.

Lemma volumeBody_filters (inUse : gmap string bool)
    (inspectByName : gmap string Docker.VolumeInspect.t) (vol : Docker.Volume.t)
    (w : W) (r : VolumeResource.t) :
  fst (volumeBody E cfg inUse inspectByName vol w) = Some r ->
  Config.Anonymous cfg = true -> VolumeResource.IsAnonymous r = true.
Proof.
  unfold volumeBody. rewrite bind_run.
  destruct (volumeDetail E inspectByName vol w) as [[[labels createdAt] project] w1].
  rewrite bind_run. destruct (notOldEnough E cfg createdAt w1) as [[|] w2];
    [unfold ret; discriminate|].
  intros Hbody Hanon. rewrite Hanon in Hbody. cbn [andb] in Hbody.
  destruct (Docker.IsAnonymousVolume (Docker.Volume.Name vol)) eqn:Hname;
    cbn [negb] in Hbody; [|unfold ret in Hbody; discriminate].
  destruct (categorizeVolume vol _ labels cfg) as [category reason].
  unfold ret in Hbody. cbn [fst] in Hbody. injection Hbody as <-.
  exact Hname.
Qed.

End Filters.

(** The image policy suggests dangling images only. *)
Lemma suggested_image_is_dangling (r : ImageResource.t) :
  (ImageResource.category r, ImageResource.protectReason r)
  = categorizeImage (ImageResource.image r) (ImageResource.inUse r)
      (ImageResource.labels r) Config.DefaultConfig ->
  ImageResource.IsSuggested r = true -> ImageResource.IsDangling r = true.
Proof.
  unfold ImageResource.IsSuggested, ImageResource.IsDangling, categorizeImage.
  fold (isDangling (ImageResource.image r)).
  destruct r as [i0 cat used size labels created reason].
  cbn [ImageResource.category ImageResource.protectReason ImageResource.image
         ImageResource.labels ImageResource.inUse].
  destruct (protectedByLabel labels), used, (isDangling i0);
    intros [= -> ->] Hsuggested; try reflexivity;
    vm_compute in Hsuggested; discriminate.
Qed.

(** The image filters, for the records of one run of the analyser. *)
Lemma filters_hold_of_images {W : Type} (E : Docker.Env W) (cfg : Config.t) (w : W)
    (rs : list ImageResource.t) :
  fst (AnalyzeImagesWithConfig E cfg w) = Ok rs ->
  (Config.Dangling cfg = true ->
   Forall (fun r => ImageResource.IsDangling r = true) rs)
  /\ (Config.NoDangling cfg = true ->
      Forall (fun r => ImageResource.IsDangling r = false
                       /\ ImageResource.IsSuggested r = false) rs)
  /\ (Config.Dangling cfg = true -> Config.NoDangling cfg = true -> rs = [])
  /\ (0 < Config.MinSize cfg ->
      Forall (fun r => Config.MinSize cfg <= ImageResource.Size r) rs).
Proof.
  intros Hrun.
  assert (Hall : forall r, In r rs ->
             (Config.Dangling cfg = true -> ImageResource.IsDangling r = true)
             /\ (Config.NoDangling cfg = true -> ImageResource.IsDangling r = false)
             /\ (0 < Config.MinSize cfg -> Config.MinSize cfg <= ImageResource.Size r)).
  { intros r Hin.
    destruct (AnalyzeImages_In E cfg w rs r Hrun Hin)
      as (u & ib & need & img & w1 & Hbody).
    exact (imageBody_filters E cfg u ib need img w1 r Hbody). }
  split; [|split; [|split]].
  - intros Hd. apply List.Forall_forall. intros r Hin. apply (Hall r Hin), Hd.
  - intros Hn. apply List.Forall_forall. intros r Hin.
    assert (Hnot : ImageResource.IsDangling r = false) by (apply (Hall r Hin), Hn).
    split; [exact Hnot|].
    destruct (AnalyzeImages_In E cfg w rs r Hrun Hin)
      as (u & ib & need & img & w1 & Hbody).
    apply imageBody_categorised in Hbody.
    pose proof (suggested_image_is_dangling r Hbody) as Hsugg.
    destruct (ImageResource.IsSuggested r); [|reflexivity].
    specialize (Hsugg eq_refl). congruence.
  - intros Hd Hn. destruct rs as [|r rs]; [reflexivity|].
    destruct (Hall r (or_introl eq_refl)) as (H1 & H2 & _).
    specialize (H1 Hd). specialize (H2 Hn). congruence.
  - intros Hmin. apply List.Forall_forall. intros r Hin. apply (Hall r Hin), Hmin.
Qed.

(** X5: the filters of the configuration hold of every record an analyser
    returns, whatever the age filter did: with [Exited], every container
    returned is in the state [exited]; with [Dangling], every image
    returned is dangling; with [NoDangling], none is, and so none is
    suggested; with both, no image is returned at all; with a minimum
    size, every image returned has at least that size; with [Anonymous],
    every volume returned is anonymous. *)
Theorem filters_hold_of_every_record {W : Type} (E : Docker.Env W) (cfg : Config.t)
    (w : W) :
  (forall rs, fst (AnalyzeContainersWithConfig E cfg w) = Ok rs ->
      Config.Exited cfg = true ->
      Forall (fun r => Docker.Container.State (ContainerResource.container r) = "exited")
        rs)
  /\ (forall rs, fst (AnalyzeImagesWithConfig E cfg w) = Ok rs ->
         (Config.Dangling cfg = true ->
          Forall (fun r => ImageResource.IsDangling r = true) rs)
         /\ (Config.NoDangling cfg = true ->
             Forall (fun r => ImageResource.IsDangling r = false
                              /\ ImageResource.IsSuggested r = false) rs)
         /\ (Config.Dangling cfg = true -> Config.NoDangling cfg = true -> rs = [])
         /\ (0 < Config.MinSize cfg ->
             Forall (fun r => Config.MinSize cfg <= ImageResource.Size r) rs))
  /\ (forall rs, fst (AnalyzeVolumesWithConfig E cfg w) = Ok rs ->
         Config.Anonymous cfg = true ->
         Forall (fun r => VolumeResource.IsAnonymous r = true) rs).
Proof.
  split; [|split].
  - intros rs Hrun Hexited. apply List.Forall_forall. intros r Hin.
    destruct (AnalyzeContainers_In E cfg w rs r Hrun Hin) as (ib & c & w1 & Hbody).
    exact (containerBody_filters E cfg ib c w1 r Hbody Hexited).
  - intros rs Hrun. exact (filters_hold_of_images E cfg w rs Hrun).
  - intros rs Hrun Hanon. apply List.Forall_forall. intros r Hin.
    destruct (AnalyzeVolumes_In E cfg w rs r Hrun Hin) as (u & ib & vol & w1 & Hbody).
    exact (volumeBody_filters E cfg u ib vol w1 r Hbody Hanon).
Qed.

Lemma filters_hold_of_every_record_witness :
  fst (AnalyzeContainersWithConfig listingEnv narrowConfig tt)
  = Ok [ContainerResource.mk (containerInState "exited") CategorySuggested (Some ∅) 0 "" ""]
  /\ fst (AnalyzeImagesWithConfig listingEnv narrowConfig tt)
     = Ok [ImageResource.mk nginxImage CategoryUnused false 52428800 (Some ∅) 0 ""]
  /\ fst (AnalyzeVolumesWithConfig listingEnv narrowConfig tt)
     = Ok [VolumeResource.mk (Docker.Volume.mk anonymousName "local" "")
             CategorySuggested false None 0 "" ""]
  /\ Forall (fun r => Docker.Container.State (ContainerResource.container r) = "exited")
       [ContainerResource.mk (containerInState "exited") CategorySuggested (Some ∅) 0 "" ""]
  /\ Forall (fun r => ImageResource.IsDangling r = false
                      /\ ImageResource.IsSuggested r = false)
       [ImageResource.mk nginxImage CategoryUnused false 52428800 (Some ∅) 0 ""]
  /\ Forall (fun r => VolumeResource.IsAnonymous r = true)
       [VolumeResource.mk (Docker.Volume.mk anonymousName "local" "")
          CategorySuggested false None 0 "" ""].
Proof.
  assert (Hc : fst (AnalyzeContainersWithConfig listingEnv narrowConfig tt)
               = Ok [ContainerResource.mk (containerInState "exited") CategorySuggested
                       (Some ∅) 0 "" ""]) by (vm_compute; reflexivity).
  assert (Hi : fst (AnalyzeImagesWithConfig listingEnv narrowConfig tt)
               = Ok [ImageResource.mk nginxImage CategoryUnused false 52428800
                       (Some ∅) 0 ""]) by (vm_compute; reflexivity).
  assert (Hv : fst (AnalyzeVolumesWithConfig listingEnv narrowConfig tt)
               = Ok [VolumeResource.mk (Docker.Volume.mk anonymousName "local" "")
                       CategorySuggested false None 0 "" ""]) by (vm_compute; reflexivity).
  destruct (filters_hold_of_every_record listingEnv narrowConfig tt)
    as (Fc & Fi & Fv).
  split; [exact Hc|]. split; [exact Hi|]. split; [exact Hv|].
  split; [exact (Fc _ Hc eq_refl)|].
  split; [exact (proj1 (proj2 (Fi _ Hi)) eq_refl)|].
  exact (Fv _ Hv eq_refl).
Defined.

Import Cmd.

(** X6: the configuration [buildConfig] makes of the flags.  [--gc] forces
    [Yes] and clears both dangling filters; without [--gc], [NoDangling]
    is set unless [--dangling] alone was given, so that a sweep hides
    dangling images by default.  After [validateTypeSpecificFlags] has
    accepted the flags, the two dangling filters are never set together.
    And unless [--gc] or [--dangling] was given, no image that the image
    analyser returns for the configuration is dangling or suggested: the
    suggested resources of such a sweep, which [--yes] deletes, hold no
    image. *)
Theorem default_sweep_suggests_no_image {W : Type} (E : Docker.Env W)
    (timeParseDuration : string -> option Z) (parseSize : string -> Fallible Z)
    (f : Flags) (cfg : Config.t) :
  buildConfig timeParseDuration parseSize f = Ok cfg ->
  (flagGC f = true ->
   Config.Yes cfg = true /\ Config.Dangling cfg = false /\ Config.NoDangling cfg = false)
  /\ (flagGC f = false ->
      Config.Yes cfg = flagYes f /\ Config.Dangling cfg = flagDangling f
      /\ Config.NoDangling cfg = (flagNoDangling f || negb (flagDangling f))%bool)
  /\ Config.DryRun cfg = flagDryRun f
  /\ Config.Exited cfg = flagExited f
  /\ Config.Anonymous cfg = flagAnonymous f
  /\ (flagOlderThan f = "" -> Config.OlderThan cfg = 0)
  /\ (flagMinSize f = "" -> Config.MinSize cfg = 0)
  /\ (forall includeContainers includeImages includeVolumes includeNetworks,
         validateTypeSpecificFlags f includeContainers includeImages includeVolumes
           includeNetworks = None ->
         (Config.Dangling cfg && Config.NoDangling cfg)%bool = false)
  /\ (flagGC f = false -> flagDangling f = false ->
      forall (w : W) (result : Sweep.Result.t),
        fst (AnalyzeImagesWithConfig E cfg w) = Ok (Sweep.Result.Images result) ->
        Forall (fun r => ImageResource.IsDangling r = false
                         /\ ImageResource.IsSuggested r = false)
          (Sweep.Result.Images result)
        /\ ofType TypeImage (Sweep.Result.Suggested result) = []).
Proof.
  unfold buildConfig. intros Hbuild.
  assert (Hcfg : exists d sz,
             cfg = {| Config.Yes := if flagGC f then true else flagYes f;
                      Config.DryRun := flagDryRun f;
                      Config.OlderThan := d; Config.MinSize := sz;
                      Config.Dangling := if flagGC f then false else flagDangling f;
                      Config.NoDangling :=
                        if flagGC f then false
                        else if (negb (flagDangling f) && negb (flagNoDangling f))%bool
                             then true else flagNoDangling f;
                      Config.Exited := flagExited f;
                      Config.Anonymous := flagAnonymous f |}
             /\ (flagOlderThan f = "" -> d = 0) /\ (flagMinSize f = "" -> sz = 0)).
  { destruct (decide (flagOlderThan f = "")) as [Ho|Ho];
      [rewrite (bool_decide_eq_true_2 _ Ho) in Hbuild
      |rewrite (bool_decide_eq_false_2 _ Ho) in Hbuild]; cbn [negb] in Hbuild;
      [|destruct (Config.ParseDuration timeParseDuration (flagOlderThan f)) as [d|e];
        [|discriminate]];
      (destruct (decide (flagMinSize f = "")) as [Hs|Hs];
       [rewrite (bool_decide_eq_true_2 _ Hs) in Hbuild
       |rewrite (bool_decide_eq_false_2 _ Hs) in Hbuild]; cbn [negb] in Hbuild;
       [|destruct (parseSize (flagMinSize f)) as [sz|e]; [|discriminate]]);
      injection Hbuild as <-; eexists _, _; (split; [reflexivity|]);
      split; intros; first [reflexivity | contradiction]. }
  destruct Hcfg as (d & sz & -> & Hd & Hsz).
  cbn [Config.Yes Config.DryRun Config.OlderThan Config.MinSize Config.Dangling
         Config.NoDangling Config.Exited Config.Anonymous].
  split; [intros ->; auto|].
  split; [intros ->; destruct (flagDangling f), (flagNoDangling f); auto|].
  do 5 (split; [auto|]).
  split.
  - intros ic ii iv inet Hvalid. unfold validateTypeSpecificFlags in Hvalid.
    destruct (flagGC f), (flagDangling f), (flagNoDangling f); try reflexivity;
      exfalso; cbn [andb] in Hvalid;
      repeat match type of Hvalid with
             | (if ?b then _ else _) = None => destruct b; try discriminate
             end.
  - intros Hgc Hdangling w result Hrun.
    match type of Hrun with
    | fst (AnalyzeImagesWithConfig E ?c w) = _ =>
        destruct (filters_hold_of_images E c w _ Hrun) as (_ & Hno & _)
    end.
    assert (Hall : Forall (fun r => ImageResource.IsDangling r = false
                                    /\ ImageResource.IsSuggested r = false)
                     (Sweep.Result.Images result)).
    { apply Hno. cbn. rewrite Hgc, Hdangling. destruct (flagNoDangling f); reflexivity. }
    split; [exact Hall|].
    unfold ofType, Sweep.Result.Suggested.
    rewrite !filter_app.
    assert (Hnone : forall l : list ImageResource.t,
               Forall (fun r => ImageResource.IsSuggested r = false) l ->
               filter (fun i => ImageResource.IsSuggested i = true) l = []).
    { induction 1 as [|x l Hx _ IH]; [reflexivity|].
      rewrite filter_cons, decide_False by congruence. exact IH. }
    rewrite (Hnone (Sweep.Result.Images result))
      by (eapply List.Forall_impl; [|exact Hall]; intros ? [_ ?]; assumption).
    assert (Hother : forall (A : Type) (as' : A -> Resource) (l : list A),
               (forall x, Type' (as' x) <> TypeImage) ->
               filter (fun r => Type' r = TypeImage) (map as' l) = []).
    { intros A as' l Hty. induction l as [|x l IH]; [reflexivity|].
      cbn [map]. rewrite filter_cons, decide_False by apply Hty. exact IH. }
    rewrite (Hother _ ContainerResource.asResource), (Hother _ VolumeResource.asResource),
      (Hother _ NetworkResource.asResource) by (intros x; discriminate).
    reflexivity.
Qed.

Lemma default_sweep_suggests_no_image_witness :
  buildConfig (fun _ => None) (fun _ => Err "invalid size") yesFlags = Ok yesConfig
  /\ fst (AnalyzeImagesWithConfig listingEnv yesConfig tt)
     = Ok (Sweep.Result.Images yesResult)
  /\ ofType TypeImage (Sweep.Result.Suggested yesResult) = [].
Proof.
  assert (Hbuild : buildConfig (fun _ => None) (fun _ => Err "invalid size") yesFlags
                   = Ok yesConfig) by reflexivity.
  assert (Hrun : fst (AnalyzeImagesWithConfig listingEnv yesConfig tt)
                 = Ok (Sweep.Result.Images yesResult)) by (vm_compute; reflexivity).
  split; [exact Hbuild|]. split; [exact Hrun|].
  destruct (default_sweep_suggests_no_image listingEnv _ _ yesFlags yesConfig Hbuild)
    as (_ & _ & _ & _ & _ & _ & _ & _ & Hno).
  exact (proj2 (Hno eq_refl eq_refl tt yesResult Hrun)).
Defined.

(* ===================================================================== *)
(** * Removing one resource *)
(* ===================================================================== *)



(* ===================================================================== *)
(** * The labels of a listing *)
(* ===================================================================== *)

Lemma HasPrefix_one (c d : ascii) (s : string) :
  HasPrefix (String c s) (String d "") = bool_decide (c = d).
Proof.
  unfold HasPrefix. cbn [String.prefix].
  destruct (ascii_dec d c) as [->|Hne].
  - rewrite bool_decide_eq_true_2 by reflexivity. destruct s; reflexivity.
  - rewrite bool_decide_eq_false_2 by congruence. reflexivity.
Qed.

Lemma Contains_one_cons (c d : ascii) (s : string) :
  Contains (String c s) (String d "") = false ->
  c <> d /\ Contains s (String d "") = false.
Proof.
  cbn [Contains]. rewrite HasPrefix_one. intros H.
  apply orb_false_iff in H as [Hc Hs]. apply bool_decide_eq_false in Hc. auto.
Qed.

Lemma string_of_list_ascii_app (l : list ascii) (s : string) :
  string_of_list_ascii (l ++ list_ascii_of_string s) = string_of_list_ascii l +:+ s.
Proof.
  induction l as [|c l IH]; cbn.
  - apply string_of_list_ascii_of_string.
  - rewrite IH. reflexivity.
Qed.

(** The scan of [Split] over a piece without the separator: to the end
    of the text, and to the next separator. *)
Lemma splitScan_last (d : ascii) (p : string) (current : list ascii) :
  Contains p (String d "") = false ->
  splitScan O current p (String d "") = [string_of_list_ascii (rev current) +:+ p].
Proof.
  revert current. induction p as [|c p IH]; intros current Hp.
  - cbn. rewrite <- (string_of_list_ascii_app (rev current) ""). cbn.
    rewrite app_nil_r. reflexivity.
  - apply Contains_one_cons in Hp as [Hc Hp].
    cbn [splitScan]. rewrite HasPrefix_one, bool_decide_eq_false_2 by exact Hc.
    rewrite IH by exact Hp. cbn [rev].
    rewrite <- !string_of_list_ascii_app. do 2 f_equal.
    rewrite <- app_assoc. reflexivity.
Qed.

Lemma splitScan_piece (d : ascii) (p rest : string) (current : list ascii) :
  Contains p (String d "") = false ->
  splitScan O current (p +:+ String d rest) (String d "")
  = (string_of_list_ascii (rev current) +:+ p) :: splitScan O [] rest (String d "").
Proof.
  revert current. induction p as [|c p IH]; intros current Hp.
  - change ("" +:+ String d rest) with (String d rest).
    cbn [splitScan]. rewrite HasPrefix_one, bool_decide_eq_true_2 by reflexivity.
    cbn [String.length Nat.sub]. f_equal.
    rewrite <- (string_of_list_ascii_app (rev current) ""). cbn.
    rewrite app_nil_r. reflexivity.
  - apply Contains_one_cons in Hp as [Hc Hp].
    rewrite app_cons. cbn [splitScan].
    rewrite HasPrefix_one, bool_decide_eq_false_2 by exact Hc.
    rewrite IH by exact Hp. cbn [rev]. f_equal.
    rewrite <- !string_of_list_ascii_app. f_equal.
    rewrite <- app_assoc. reflexivity.
Qed.

(** Splitting what was joined gives the pieces back, when no piece holds
    the separator. *)
Lemma Split_Join (d : ascii) (pieces : list string) :
  pieces <> [] ->
  Forall (fun p => Contains p (String d "") = false) pieces ->
  Split (Join pieces (String d "")) (String d "") = pieces.
Proof.
  intros Hne Hall. unfold Split.
  induction Hall as [|p rest Hp Hrest IH]; [contradiction|].
  destruct rest as [|q rest].
  - cbn [Join]. rewrite splitScan_last by exact Hp. reflexivity.
  - change (Join (p :: q :: rest) (String d ""))
      with (p +:+ String d "" +:+ Join (q :: rest) (String d "")).
    change (String d "" +:+ Join (q :: rest) (String d ""))
      with (String d (Join (q :: rest) (String d ""))).
    rewrite splitScan_piece by exact Hp. rewrite IH by discriminate. reflexivity.
Qed.

(** Cutting a key, the separator and a value apart, when the key does
    not hold the separator. *)
Lemma Cut_key (d : ascii) (key value : string) :
  Contains key (String d "") = false ->
  Cut (key +:+ String d value) (String d "") = Some (key, value).
Proof.
  induction key as [|c key IH]; intros Hkey.
  - change ("" +:+ String d value) with (String d value).
    cbn [Cut]. rewrite HasPrefix_one, bool_decide_eq_true_2 by reflexivity.
    reflexivity.
  - apply Contains_one_cons in Hkey as [Hc Hkey].
    rewrite app_cons. cbn [Cut].
    rewrite HasPrefix_one, bool_decide_eq_false_2 by exact Hc.
    rewrite IH by exact Hkey. reflexivity.
Qed.

Lemma renderLabel_plain (label : string * string) :
  plainLabel label -> Contains (renderLabel label) "," = false.
Proof.
  intros (Hk & _ & Hv). unfold renderLabel.
  destruct (Contains (fst label +:+ "=" +:+ snd label) ",") eqn:H; [|reflexivity].
  exfalso. clear -Hk Hv H. revert H Hk.
  induction (fst label) as [|c key IH]; intros H Hk.
  - change ("" +:+ "=" +:+ snd label) with (String "=" (snd label)) in H.
    cbn [Contains] in H. rewrite HasPrefix_one in H.
    rewrite bool_decide_eq_false_2 in H by discriminate. cbn [orb] in H. congruence.
  - apply Contains_one_cons in Hk as [Hc Hk].
    rewrite app_cons in H. cbn [Contains] in H. rewrite HasPrefix_one in H.
    rewrite bool_decide_eq_false_2 in H by exact Hc. cbn [orb] in H. auto.
Qed.

(** X8: [ParseLabels] reads back the labels of a listing: for labels without
    a comma, and without an equals sign in a key, the map it returns
    holds each key with the value of the last label of that key.  So a
    listing that ends in [sweep.protect=true] marks its resource as
    protected by label. *)
Theorem ParseLabels_reads_back (labels : list (string * string)) :
  Forall plainLabel labels ->
  Docker.ParseLabels (renderLabels labels) = labelMap labels
  /\ (forall key value,
         last labels = Some (key, value) ->
         Docker.ParseLabels (renderLabels labels) !! key = Some value)
  /\ (last labels = Some (Docker.LabelProtect, "true") ->
      protectedByLabel (Some (Docker.ParseLabels (renderLabels labels))) = true).
Proof.
  intros Hplain.
  assert (Hmap : Docker.ParseLabels (renderLabels labels) = labelMap labels).
  { unfold Docker.ParseLabels, renderLabels, labelMap.
    destruct labels as [|label labels]; [reflexivity|].
    rewrite decide_False.
    2:{ intros H. apply (f_equal String.length) in H.
        assert (Hhead : exists tail,
                   Join (map renderLabel (label :: labels)) ","
                   = fst label +:+ String "=" tail).
        { destruct labels as [|l2 labels].
          - exists (snd label). reflexivity.
          - exists (snd label +:+ "," +:+ Join (map renderLabel (l2 :: labels)) ",").
            change (Join (map renderLabel (label :: l2 :: labels)) ",")
              with (renderLabel label +:+ ","
                    +:+ Join (map renderLabel (l2 :: labels)) ",").
            unfold renderLabel. rewrite !app_assoc_string. reflexivity. }
        destruct Hhead as [tail Hhead]. rewrite Hhead, length_append in H.
        cbn [String.length] in H. lia. }
    rewrite (Split_Join ","); [|discriminate|].
    2:{ apply Forall_map. eapply List.Forall_impl; [|exact Hplain].
        intros l. apply renderLabel_plain. }
    generalize (∅ : gmap string string) as m.
    induction Hplain as [|l rest Hl _ IH]; intros m; [reflexivity|].
    cbn [map fold_left]. rewrite <- IH. f_equal.
    unfold SplitN2, renderLabel.
    change ("=" +:+ snd l) with (String "=" (snd l)).
    rewrite Cut_key by apply Hl. reflexivity. }
  assert (Hlast : forall key value, last labels = Some (key, value) ->
                    labelMap labels !! key = Some value).
  { intros key value Hl. unfold labelMap.
    destruct (last_Some labels (key, value)) as [Hsplit _].
    destruct (Hsplit Hl) as [front ->].
    rewrite fold_left_app. cbn [fold_left fst snd]. apply lookup_insert_eq. }
  split; [exact Hmap|]. split.
  - intros key value Hl. rewrite Hmap. apply Hlast, Hl.
  - intros Hl. unfold protectedByLabel, index. rewrite Hmap.
    rewrite (Hlast _ _ Hl). reflexivity.
Qed.

Lemma ParseLabels_reads_back_witness :
  Forall plainLabel [("com.docker.compose.project", "shop"); ("sweep.protect", "true")]
  /\ renderLabels [("com.docker.compose.project", "shop"); ("sweep.protect", "true")]
     = "com.docker.compose.project=shop,sweep.protect=true"
  /\ protectedByLabel
       (Some (Docker.ParseLabels "com.docker.compose.project=shop,sweep.protect=true"))
     = true.
Proof.
  assert (Hplain : Forall plainLabel
                     [("com.docker.compose.project", "shop"); ("sweep.protect", "true")])
    by (repeat constructor).
  split; [exact Hplain|]. split; [reflexivity|].
  exact (proj2 (proj2 (ParseLabels_reads_back _ Hplain)) eq_refl).
Defined.

(* ===================================================================== *)
(** * The choice of the runtime *)
(* ===================================================================== *)


(* ===================================================================== *)
(** * Durations in days, weeks, months and years *)
(* ===================================================================== *)

Lemma decimalFrom_acc (d : Decimal.uint) (acc : positive) :
  Config.decimalFrom (Z.pos acc) (NilEmpty.string_of_uint d)
  = Some (Z.pos (Pos.of_uint_acc d acc)).
Proof.
  revert acc. induction d as [|d IH|d IH|d IH|d IH|d IH|d IH|d IH|d IH|d IH|d IH];
    intros acc; [reflexivity|..];
    cbn [NilEmpty.string_of_uint Pos.of_uint_acc Config.decimalFrom];
    match goal with
    | |- context [Config.digitValue ?c] =>
        let v := eval vm_compute in (Config.digitValue c) in
        change (Config.digitValue c) with v
    end; cbv beta iota; rewrite <- IH; f_equal; lia.
Qed.

Lemma decimalFrom_of_uint (d : Decimal.uint) :
  Config.decimalFrom 0 (NilEmpty.string_of_uint d) = Some (Z.of_N (Pos.of_uint d)).
Proof.
  induction d as [|d IH|d IH|d IH|d IH|d IH|d IH|d IH|d IH|d IH|d IH];
    [reflexivity|exact IH|..];
    cbn [NilEmpty.string_of_uint Pos.of_uint Config.decimalFrom];
    match goal with
    | |- context [Config.digitValue ?c] =>
        let v := eval vm_compute in (Config.digitValue c) in
        change (Config.digitValue c) with v
    end; cbv beta iota; apply (decimalFrom_acc d).
Qed.

(** The digits of [n] are not empty and read back as [n]. *)
Lemma decimalFrom_decimal (n : N) :
  decimal n <> "" /\ Config.decimalFrom 0 (decimal n) = Some (Z.of_N n).
Proof.
  unfold decimal.
  assert (Hnil : N.to_uint n <> Decimal.Nil).
  { destruct n as [|p]; [discriminate|]. apply DecimalPos.Unsigned.to_uint_nonnil. }
  assert (Heq : NilZero.string_of_uint (N.to_uint n)
                = NilEmpty.string_of_uint (N.to_uint n)).
  { destruct (N.to_uint n); [contradiction|reflexivity..]. }
  rewrite Heq. split.
  - destruct (N.to_uint n); [contradiction|discriminate..].
  - rewrite decimalFrom_of_uint.
    change (Pos.of_uint (N.to_uint n)) with (N.of_uint (N.to_uint n)).
    rewrite DecimalN.Unsigned.of_to. reflexivity.
Qed.

(** The regular expression matches digits followed by a unit letter. *)
Lemma matchCustom_digits (digits : string) (unit : ascii) (acc value : Z) :
  digits <> "" ->
  Config.decimalFrom acc digits = Some value ->
  In unit customUnits ->
  Config.matchCustom (digits +:+ String unit "") = Some (digits, unit).
Proof.
  intros Hne Hdigits Hunit. revert acc Hdigits.
  induction digits as [|c digits IH]; [contradiction|]. intros acc Hdigits.
  cbn [Config.decimalFrom] in Hdigits.
  destruct (Config.digitValue c) as [v|] eqn:Hc; [|discriminate].
  destruct digits as [|c2 digits].
  - change (String c "" +:+ String unit "") with (String c (String unit "")).
    cbn [Config.matchCustom]. rewrite Hc.
    simpl in Hunit. destruct Hunit as [<-|[<-|[<-|[<-|[<-|[]]]]]]; reflexivity.
  - assert (Hrec : Config.matchCustom (String c2 digits +:+ String unit "")
                   = Some (String c2 digits, unit))
      by (apply (IH ltac:(discriminate) _ Hdigits)).
    rewrite app_cons.
    assert (Hstep : forall rest, rest <> "" ->
               Config.matchCustom (String c (String c2 rest))
               = match Config.digitValue c, Config.matchCustom (String c2 rest) with
                 | Some _, Some (ds, u) => Some (String c ds, u)
                 | _, _ => None
                 end).
    { intros [|c3 rest] Hrest; [contradiction|reflexivity]. }
    rewrite app_cons in *. rewrite Hstep.
    + rewrite Hc, Hrec. reflexivity.
    + destruct digits; discriminate.
Qed.

Lemma wrap_mul_wrap (a b : Z) : Int64.wrap (Int64.wrap a * b) = Int64.wrap (a * b).
Proof.
  unfold Int64.wrap. f_equal.
  pose proof (Z.div_mod (a + 2 ^ 63) (2 ^ 64) ltac:(lia)) as Hdiv.
  replace (((a + 2 ^ 63) mod 2 ^ 64 - 2 ^ 63) * b + 2 ^ 63)
    with (a * b + 2 ^ 63 + (- ((a + 2 ^ 63) / 2 ^ 64) * b) * 2 ^ 64) by lia.
  apply Z_mod_plus_full.
Qed.

(** X10: [ParseDuration] on a number of days, weeks, months or years that the
    standard parser rejects: the duration is the number (the largest
    [int] for digits beyond it) times the days of the unit times 24
    hours, reduced to an [int64].  It is exact whenever that product is
    a [Duration]; beyond, it wraps around, and a result that is not
    positive switches the age filter off: no record is too recent for
    it. *)
Theorem ParseDuration_custom_units (timeParseDuration : string -> option Z)
    (n : N) (unit : ascii) :
  In unit customUnits ->
  timeParseDuration (decimal n +:+ String unit "") = None ->
  let nanoseconds := Z.min (Z.of_N n) Int64.max * unitDays unit * 24 * Config.Hour in
  Config.ParseDuration timeParseDuration (decimal n +:+ String unit "")
  = Ok (Int64.wrap nanoseconds)
  /\ (nanoseconds <= Int64.max ->
      Config.ParseDuration timeParseDuration (decimal n +:+ String unit "")
      = Ok (Z.of_N n * unitDays unit * 86400000000000))
  /\ (Int64.wrap nanoseconds <= 0 ->
      forall (W : Type) (E : Docker.Env W) (cfg : Config.t) (createdAt : Z) (w : W),
        Config.OlderThan cfg = Int64.wrap nanoseconds ->
        notOldEnough E cfg createdAt w = (false, w)).
Proof.
  intros Hunit Hstd nanoseconds.
  destruct (decimalFrom_decimal n) as [Hne Hvalue].
  assert (Hparse : Config.ParseDuration timeParseDuration (decimal n +:+ String unit "")
                   = Ok (Int64.wrap nanoseconds)).
  { unfold Config.ParseDuration. rewrite decide_False.
    2:{ intros H. apply (f_equal String.length) in H. rewrite length_append in H.
        cbn [String.length] in H. lia. }
    rewrite Hstd, (matchCustom_digits _ _ _ _ Hne Hvalue Hunit).
    unfold Config.atoiDigits. rewrite Hvalue.
    destruct (decimal n) as [|c ds] eqn:Hd; [contradiction|].
    cbv [from_option id]. unfold Int64.mul.
    assert (Hmin : (if Int64.max <? Z.of_N n then Int64.max else Z.of_N n)
                   = Z.min (Z.of_N n) Int64.max).
    { destruct (Z.ltb_spec Int64.max (Z.of_N n)); lia. }
    rewrite Hmin. subst nanoseconds. unfold unitDays.
    simpl in Hunit. destruct Hunit as [<-|[<-|[<-|[<-|[<-|[]]]]]];
      cbv [Ascii.eqb Bool.eqb andb orb];
      rewrite <- ?Z.mul_assoc, !wrap_mul_wrap, <- ?Z.mul_assoc, ?wrap_mul_wrap,
        <- ?Z.mul_assoc, ?wrap_mul_wrap; f_equal; f_equal; lia. }
  split; [exact Hparse|]. split.
  - intros Hfits. rewrite Hparse. f_equal.
    assert (Hdays : 1 <= unitDays unit).
    { unfold unitDays. repeat destruct (Ascii.eqb unit _); lia. }
    assert (Hn : Z.of_N n <= Int64.max).
    { destruct (Z.le_gt_cases (Z.of_N n) Int64.max) as [H|H]; [exact H|].
      exfalso. subst nanoseconds. rewrite Z.min_r in Hfits by lia.
      unfold Int64.max, Config.Hour in *. nia. }
    subst nanoseconds. rewrite Z.min_l in * by exact Hn.
    rewrite wrap_in_range; [unfold Config.Hour; lia|].
    split; [|exact Hfits]. unfold Int64.min, Config.Hour. nia.
  - intros Hoff W E cfg createdAt w Hcfg. unfold notOldEnough.
    destruct (Z.ltb_spec 0 (Config.OlderThan cfg)) as [Hpos|_]; [lia|].
    reflexivity.
Qed.

Lemma ParseDuration_custom_units_witness :
  In "d"%char customUnits
  /\ decimal 7 +:+ "d" = "7d"
  /\ Config.ParseDuration (fun _ => None) "7d" = Ok 604800000000000
  /\ decimal 106752 +:+ "d" = "106752d"
  /\ Config.ParseDuration (fun _ => None) "106752d" = Ok (-9223371273709551616).
Proof.
  assert (Hunit : In "d"%char customUnits) by (simpl; auto).
  split; [exact Hunit|]. split; [reflexivity|].
  split.
  - apply (proj1 (ParseDuration_custom_units (fun _ => None) 7 "d" Hunit eq_refl)).
  - split; [reflexivity|].
    apply (proj1 (ParseDuration_custom_units (fun _ => None) 106752 "d" Hunit eq_refl)).
Defined.

(* ===================================================================== *)
(** * The commands of a batch inspection *)
(* ===================================================================== *)


Lemma slice_batch (ids : list string) (start : nat) :
  Docker.slice ids start (Docker.batchEnd ids start) = firstn 100 (skipn start ids).
Proof.
  unfold Docker.slice, Docker.batchEnd, Docker.batchSize.
  destruct (Nat.ltb_spec (length ids) (start + 100)) as [Hshort|Hlong].
  - rewrite !firstn_all2; [reflexivity| |]; rewrite length_skipn; lia.
  - f_equal. lia.
Qed.

Section BatchJournal.
Context {W : Type} (E : Docker.Env W) {I : Type} (command : list string)
  (decode : string -> Fallible (list I)) (wrap : string -> string)
  (add : gmap string I -> I -> gmap string I) (ids : list string).

(** The loop of a batch inspection in the observed environment: the
    same result, and in the journal one command for each batch that was
    reached. *)
Lemma inspectFrom_recording (fuel : nat) :
  forall (start : nat) (result : gmap string I) (w : W) (log : list (list string)),
    (length ids - start <= fuel)%nat ->
    exists reached rest,
      Docker.inspectFrom (recording E) command decode wrap add ids start result (w, log)
      = (fst (Docker.inspectFrom E command decode wrap add ids start result w),
         (snd (Docker.inspectFrom E command decode wrap add ids start result w),
          log ++ map (fun batch => command ++ batch) reached))
      /\ batchesFrom fuel (skipn start ids) = reached ++ rest
      /\ (forall m,
             fst (Docker.inspectFrom E command decode wrap add ids start result w) = Ok m ->
             rest = []).
Proof.
  induction fuel as [|fuel IH]; intros start result w log Hfuel.
  - exists [], []. rewrite !inspectFrom_step.
    rewrite !decide_False by lia. cbn [map]. rewrite app_nil_r. auto.
  - rewrite !inspectFrom_step.
    destruct (decide (start < length ids)%nat) as [Hlt|Hge].
    + rewrite Run_recording, slice_batch.
      assert (Hcut : batchesFrom (S fuel) (skipn start ids)
                     = firstn 100 (skipn start ids)
                       :: batchesFrom fuel (skipn (start + 100) ids)).
      { cbn [batchesFrom].
        destruct (skipn start ids) as [|id tail] eqn:Hskip.
        - apply (f_equal (@length string)) in Hskip. rewrite length_skipn in Hskip.
          cbn [length] in Hskip. lia.
        - rewrite <- Hskip. do 2 f_equal.
          rewrite Nat.add_comm. apply skipn_skipn. }
      destruct (Docker.Run E (command ++ firstn 100 (skipn start ids)) w)
        as [[out|e] w1]; cbn [fst snd].
      * destruct (decode out) as [inspected|e].
        -- destruct (IH (start + Docker.batchSize)%nat (fold_left add inspected result) w1
                        (log ++ [command ++ firstn 100 (skipn start ids)]))
             as (reached & rest & Hrun & Hsplit & Hdone).
           { unfold Docker.batchSize. lia. }
           exists (firstn 100 (skipn start ids) :: reached), rest.
           rewrite Hrun. cbn [map]. rewrite <- app_assoc. cbn [app].
           split; [reflexivity|]. split; [|exact Hdone].
           rewrite Hcut. unfold Docker.batchSize in Hsplit. rewrite Hsplit. reflexivity.
        -- exists [firstn 100 (skipn start ids)], (batchesFrom fuel (skipn (start + 100) ids)).
           cbn [fst snd map].
           split; [reflexivity|]. split; [exact Hcut|]. discriminate.
      * exists [firstn 100 (skipn start ids)], (batchesFrom fuel (skipn (start + 100) ids)).
        cbn [fst snd map].
        split; [reflexivity|]. split; [exact Hcut|]. discriminate.
    + exists [], []. cbn [map fst snd]. rewrite app_nil_r.
      split; [reflexivity|]. split; [|auto].
      rewrite skipn_all2 by lia. reflexivity.
Qed.


End BatchJournal.


(* ===================================================================== *)
(** * The errors of a deletion, and resources of another type *)
(* ===================================================================== *)

(** A property of the loop state that the body keeps for the elements
    of the list holds when the loop ends. *)
Lemma rangeFold_invariant {W A S : Type} (body : A -> S -> M W S) (P : S -> Prop)
    (xs : list A) (s : S) (w : W) :
  P s ->
  (forall x s w, In x xs -> P s -> P (fst (body x s w))) ->
  P (fst (rangeFold body xs s w)).
Proof.
  revert s w. induction xs as [|x xs IH]; intros s w Hs Hbody; [exact Hs|].
  rewrite rangeFold_cons.
  pose proof (Hbody x s w (or_introl eq_refl) Hs) as Hx.
  destruct (body x s w) as [s1 w1]. cbn [fst] in Hx.
  apply IH; [exact Hx|]. intros y s' w' Hy. apply Hbody. right. exact Hy.
Qed.

Lemma ofType_In (t : string) (rs : list Resource) (r : Resource) :
  In r (ofType t rs) -> In r rs /\ Type' r = t.
Proof.
  unfold ofType. rewrite <- list_elem_of_In, list_elem_of_filter, list_elem_of_In. tauto.
Qed.

Lemma ofType_four_kinds (t : string) (rs : list Resource) :
  In t kinds -> ofType t (filter (fun r => In (Type' r) kinds) rs) = ofType t rs.
Proof.
  intros Ht. unfold ofType. induction rs as [|r rs IH]; [reflexivity|].
  rewrite !(filter_cons _ r).
  destruct (decide (In (Type' r) kinds)) as [Hk|Hk].
  - rewrite filter_cons. destruct (decide (Type' r = t)); [f_equal|]; exact IH.
  - rewrite decide_False by congruence. exact IH.
Qed.

Section Attribution.
Context {W : Type} (E : Docker.Env W) (rs : list Resource).

Lemma deleteAll_attributed (selected : list Resource) (w : W) :
  Forall (fun r => In r rs /\ In (Type' r) kinds) selected ->
  Forall (attributed rs) (snd (fst (deleteAll E selected w))).
Proof.
  intros Hsel. unfold deleteAll.
  apply (rangeFold_invariant (deleteAllBody E)
           (fun st => Forall (attributed rs) (snd st))); [constructor|].
  intros r [deleted errors] w1 Hr Herrors. cbn [snd] in Herrors.
  unfold deleteAllBody. rewrite bind_run.
  destruct (Docker.Remove E (Type' r) (ID r) w1) as [[e|] w2];
    unfold ret, deleteAllStep; cbn [fst snd]; [|exact Herrors].
  destruct (isAlreadyRemovedError (Type' r) (Some e)); cbn [snd]; [exact Herrors|].
  apply Forall_app. split; [exact Herrors|]. constructor; [|constructor].
  rewrite List.Forall_forall in Hsel. destruct (Hsel r Hr) as [Hin Hkind].
  exists r, e. auto.
Qed.

Lemma imagePass_attributed (pending : list Resource) (deleted : nat)
    (errors : list string) (w : W) :
  Forall (fun r => In r rs /\ In (Type' r) kinds) pending ->
  Forall (attributed rs) errors ->
  Forall (fun r => In r rs /\ In (Type' r) kinds)
    (fst (fst (fst (imagePass E pending deleted errors w))))
  /\ Forall (attributed rs) (snd (fst (imagePass E pending deleted errors w))).
Proof.
  intros Hsel Herrors. unfold imagePass.
  apply (rangeFold_invariant (imagePassBody E)
           (fun st => Forall (fun r => In r rs /\ In (Type' r) kinds) (fst (fst st))
                      /\ Forall (attributed rs) (snd st)));
    [split; [constructor|exact Herrors]|].
  intros r [[failed d] errs] w1 Hr [Hfailed Herrs]. cbn [fst snd] in *.
  rewrite List.Forall_forall in Hsel. pose proof (Hsel r Hr) as [Hin Hkind].
  unfold imagePassBody. rewrite bind_run.
  destruct (Docker.Remove E (Type' r) (ID r) w1) as [[e|] w2];
    unfold ret, imagePassStep; cbn [fst snd]; [|auto].
  destruct (isAlreadyRemovedError (Type' r) (Some e)); cbn [fst snd]; [auto|].
  destruct (isDependencyError (Some e)); cbn [fst snd].
  - split; [|exact Herrs]. apply Forall_app. split; [exact Hfailed|].
    constructor; [auto|constructor].
  - split; [exact Hfailed|]. apply Forall_app. split; [exact Herrs|].
    constructor; [|constructor]. exists r, e. auto.
Qed.

Lemma imagePasses_attributed (n : nat) :
  forall (pending : list Resource) (deleted : nat) (errors : list string) (w : W),
    Forall (fun r => In r rs /\ In (Type' r) kinds) pending ->
    Forall (attributed rs) errors ->
    Forall (fun r => In r rs /\ In (Type' r) kinds)
      (fst (fst (fst (imagePasses E n pending deleted errors w))))
    /\ Forall (attributed rs) (snd (fst (imagePasses E n pending deleted errors w))).
Proof.
  induction n as [|n IH]; intros pending deleted errors w Hsel Herrors.
  - destruct pending; cbn; auto.
  - destruct pending as [|r pending]; [cbn; auto|].
    rewrite imagePasses_cons.
    destruct (imagePass_attributed (r :: pending) deleted errors w Hsel Herrors)
      as [Hfailed Herrs].
    destruct (imagePass E (r :: pending) deleted errors w) as [st w1].
    cbn [fst snd] in *. apply IH; assumption.
Qed.

Lemma deleteImagesWithRetry_attributed (selected : list Resource) (w : W) :
  Forall (fun r => In r rs /\ In (Type' r) kinds) selected ->
  Forall (attributed rs) (snd (fst (deleteImagesWithRetry E selected w))).
Proof.
  intros Hsel. unfold deleteImagesWithRetry. rewrite bind_run.
  destruct (imagePasses_attributed 3 selected O [] w Hsel (List.Forall_nil _))
    as [Hpending Herrors].
  destruct (imagePasses E 3 selected O [] w) as [[[pending d] errs] w1].
  cbn [fst snd] in *. unfold ret. cbn [fst snd].
  apply Forall_app. split; [exact Herrors|].
  apply Forall_map. eapply List.Forall_impl; [|exact Hpending].
  intros r [Hin Hkind]. exists r, "has dependent images (not deleted)". auto.
Qed.

End Attribution.

(** X12: every error that [DeleteResources] returns names one of the
    selected resources, of one of the four kinds: it is the name shown
    for it, a colon, and the text of the failure.  A selected resource of
    any other type is passed over: the outcome, and what the runtime is
    asked to do, are those of the selection without it; so a selection
    that holds no resource of the four kinds runs no command and reports
    neither a deletion nor an error. *)
Theorem DeleteResources_attributes_every_error {W : Type} (E : Docker.Env W)
    (rs : list Resource) (w : W) :
  Forall (attributed rs) (snd (fst (DeleteResources E rs w)))
  /\ DeleteResources E rs w
     = DeleteResources E (filter (fun r => In (Type' r) kinds) rs) w
  /\ (Forall (fun r => ~ In (Type' r) kinds) rs ->
      DeleteResources E rs w = ((O, []), w)
      /\ journal (DeleteResources (recording E) rs) w = []).
Proof.
  assert (Hsel : forall t, In t kinds ->
             Forall (fun r => In r rs /\ In (Type' r) kinds) (ofType t rs)).
  { intros t Ht. apply List.Forall_forall. intros r Hr.
    apply ofType_In in Hr as [Hin <-]. auto. }
  assert (Hsame : forall (V : Type) (F : Docker.Env V) (v : V),
             DeleteResources F rs v
             = DeleteResources F (filter (fun r => In (Type' r) kinds) rs) v).
  { intros V F v. unfold DeleteResources. rewrite !separate_spec.
    rewrite !ofType_four_kinds by (simpl; auto). reflexivity. }
  split; [|split; [apply Hsame|]].
  - unfold DeleteResources. rewrite separate_spec.
    cbn [containers images volumes networks]. rewrite !bind_run.
    pose proof (deleteAll_attributed E rs (ofType TypeContainer rs) w
                  (Hsel TypeContainer ltac:(simpl; auto 6))) as H1.
    destruct (deleteAll E (ofType TypeContainer rs) w) as [[d1 e1] w1].
    rewrite !bind_run.
    pose proof (deleteAll_attributed E rs (ofType TypeNetwork rs) w1
                  (Hsel TypeNetwork ltac:(simpl; auto 6))) as H2.
    destruct (deleteAll E (ofType TypeNetwork rs) w1) as [[d2 e2] w2].
    rewrite !bind_run.
    pose proof (deleteAll_attributed E rs (ofType TypeVolume rs) w2
                  (Hsel TypeVolume ltac:(simpl; auto 6))) as H3.
    destruct (deleteAll E (ofType TypeVolume rs) w2) as [[d3 e3] w3].
    rewrite !bind_run.
    pose proof (deleteImagesWithRetry_attributed E rs (ofType TypeImage rs) w3
                  (Hsel TypeImage ltac:(simpl; auto 6))) as H4.
    destruct (deleteImagesWithRetry E (ofType TypeImage rs) w3) as [[d4 e4] w4].
    unfold ret. cbn [fst snd] in *.
    repeat (apply Forall_app; split); assumption.
  - intros Hnone.
    assert (Hnil : filter (fun r => In (Type' r) kinds) rs = []).
    { clear Hsel Hsame. induction Hnone as [|r rest Hr _ IH]; [reflexivity|].
      rewrite filter_cons, decide_False by exact Hr. exact IH. }
    unfold journal. rewrite (Hsame _ E w), (Hsame _ (recording E) (w, [])), Hnil.
    split; reflexivity.
Qed.

Lemma DeleteResources_attributes_every_error_witness :
  snd (fst (DeleteResources scenarioEnv
              [exampleContainer; exampleImage "i1"; exampleImage "i2"] tt))
  = ["i1: has dependent images (not deleted)"]
  /\ attributed [exampleContainer; exampleImage "i1"; exampleImage "i2"]
       "i1: has dependent images (not deleted)".
Proof.
  assert (Herrors : snd (fst (DeleteResources scenarioEnv
                       [exampleContainer; exampleImage "i1"; exampleImage "i2"] tt))
                    = ["i1: has dependent images (not deleted)"])
    by (vm_compute; reflexivity).
  split; [exact Herrors|].
  pose proof (proj1 (DeleteResources_attributes_every_error scenarioEnv
                       [exampleContainer; exampleImage "i1"; exampleImage "i2"] tt))
    as Hall.
  rewrite Herrors in Hall. exact (Forall_inv Hall).
Defined.

(* ===================================================================== *)
(** * The commands of an analysis *)
(* ===================================================================== *)

Section RunsOnly.
Context {W : Type} (E : Docker.Env W) (P : list string -> Prop).

Lemma runsOnly_ret {A : Type} (a : A) : runsOnly (W := W) P (ret a).
Proof. intros w log. exists []. rewrite app_nil_r. split; [reflexivity|constructor]. Qed.

Lemma runsOnly_bind {A B : Type} (c : M (W * list (list string)) A)
    (k : A -> M (W * list (list string)) B) :
  runsOnly P c -> (forall a, runsOnly P (k a)) -> runsOnly P (bind c k).
Proof.
  intros Hc Hk w log. rewrite bind_run.
  destruct (Hc w log) as (added1 & H1 & Hp1).
  destruct (c (w, log)) as [a [w1 log1]]. cbn [snd] in H1. subst log1.
  destruct (Hk a w1 (log ++ added1)) as (added2 & H2 & Hp2).
  exists (added1 ++ added2). rewrite H2, app_assoc.
  split; [reflexivity|]. apply Forall_app. auto.
Qed.

Lemma runsOnly_journaled {A : Type} (c : M W A) : runsOnly P (journaled c).
Proof.
  intros w log. unfold journaled. cbn [fst snd].
  destruct (c w) as [a w1]. exists []. rewrite app_nil_r.
  split; [reflexivity|constructor].
Qed.

Lemma runsOnly_Run (args : list string) :
  P args -> runsOnly P (Docker.Run (recording E) args).
Proof.
  intros Hargs w log. rewrite Run_recording. cbn [snd].
  exists [args]. split; [reflexivity|]. constructor; [exact Hargs|constructor].
Qed.

Lemma runsOnly_inspectFrom {I : Type} (command : list string)
    (decode : string -> Fallible (list I)) (wrap : string -> string)
    (add : gmap string I -> I -> gmap string I) (ids : list string) (start : nat)
    (result : gmap string I) :
  (forall batch, P (command ++ batch)) ->
  runsOnly P (Docker.inspectFrom (recording E) command decode wrap add ids start result).
Proof.
  intros Hcommand w log.
  destruct (inspectFrom_recording E command decode wrap add ids
              (length ids - start) start result w log (le_n _))
    as (reached & rest & Hrun & _).
  rewrite Hrun. cbn [snd]. eexists. split; [reflexivity|].
  apply Forall_map. apply List.Forall_forall. intros batch _. apply Hcommand.
Qed.

Lemma runsOnly_rangeCollect {A B : Type}
    (body : A -> M (W * list (list string)) (option B)) (xs : list A) :
  (forall x, runsOnly P (body x)) -> runsOnly P (rangeCollect body xs).
Proof.
  intros Hbody. induction xs as [|x xs IH]; [apply runsOnly_ret|].
  cbn [rangeCollect]. apply runsOnly_bind; [apply Hbody|]. intros r.
  apply runsOnly_bind; [exact IH|]. intros tail. apply runsOnly_ret.
Qed.

Lemma runsOnly_notOldEnough (cfg : Config.t) (createdAt : Z) :
  runsOnly P (notOldEnough (recording E) cfg createdAt).
Proof.
  unfold notOldEnough. destruct (_ && _)%bool; [|apply runsOnly_ret].
  apply runsOnly_bind; [apply runsOnly_journaled|]. intros now. apply runsOnly_ret.
Qed.

End RunsOnly.

Section AnalysisCommands.
Context {W : Type} (E : Docker.Env W) (cfg : Config.t).

Lemma inspection_inspect (rest : list string) : inspection ("inspect" :: rest).
Proof. exists rest. left. reflexivity. Qed.

Lemma inspection_volume (rest : list string) : inspection ("volume" :: "inspect" :: rest).
Proof. exists rest. right. reflexivity. Qed.

Lemma containers_run_inspections :
  runsOnly inspection (AnalyzeContainersWithConfig (recording E) cfg).
Proof.
  unfold AnalyzeContainersWithConfig.
  apply runsOnly_bind; [apply runsOnly_journaled|].
  intros [containers|e]; [|apply runsOnly_ret].
  apply runsOnly_bind.
  { unfold Docker.InspectContainers. destruct (filter _ _); [apply runsOnly_ret|].
    apply runsOnly_inspectFrom. intros batch. apply inspection_inspect. }
  intros batch. apply runsOnly_bind; [|intros results; apply runsOnly_ret].
  apply runsOnly_rangeCollect. intros c. unfold containerBody.
  apply runsOnly_bind.
  { unfold containerDetail. destruct (_ !! _); [apply runsOnly_ret|].
    apply runsOnly_bind; [|intros r; apply runsOnly_ret].
    unfold Docker.InspectContainer.
    apply runsOnly_bind; [|intros r; apply runsOnly_ret].
    apply runsOnly_Run, inspection_inspect. }
  intros [createdAt labels]. destruct (categorizeContainer _ _ _) as [category reason].
  apply runsOnly_bind; [apply runsOnly_notOldEnough|].
  intros [|]; [apply runsOnly_ret|]. destruct (_ && _)%bool; apply runsOnly_ret.
Qed.

Lemma imageBody_runs (P : list string -> Prop) (inUse : gmap string bool)
    (inspectByID : gmap string Docker.ImageInspect.t)
    (inspectNeeded : gmap string bool) (img : Docker.Image.t) :
  (inspectNeeded = ∅ \/ forall rest, P ("inspect" :: rest)) ->
  runsOnly P (imageBody (recording E) cfg inUse inspectByID inspectNeeded img).
Proof.
  intros Hp. unfold imageBody.
  apply runsOnly_bind.
  { unfold imageDetail. destruct (_ !! _); [apply runsOnly_ret|].
    destruct (member inspectNeeded _) eqn:Hneeded; [|apply runsOnly_ret].
    destruct Hp as [->|Hp]; [unfold member in Hneeded; rewrite lookup_empty in Hneeded;
                             discriminate|].
    apply runsOnly_bind; [|intros r; apply runsOnly_ret].
    unfold Docker.InspectImage.
    apply runsOnly_bind; [|intros r; apply runsOnly_ret].
    apply runsOnly_Run, Hp. }
  intros d. destruct (imageFallbacks _ img d) as [[size labels] createdAt].
  apply runsOnly_bind; [apply runsOnly_notOldEnough|].
  intros [|]; [apply runsOnly_ret|].
  repeat (destruct (_ && _)%bool; [apply runsOnly_ret|]).
  destruct (categorizeImage _ _ _ _) as [category reason]. apply runsOnly_ret.
Qed.

Lemma images_run_inspections :
  runsOnly inspection (AnalyzeImagesWithConfig (recording E) cfg).
Proof.
  unfold AnalyzeImagesWithConfig.
  apply runsOnly_bind; [apply runsOnly_journaled|].
  intros [images|e]; [|apply runsOnly_ret].
  apply runsOnly_bind; [apply runsOnly_journaled|]. intros used.
  destruct (inspectPlan cfg images) as [imageIDs inspectNeeded].
  apply runsOnly_bind.
  { case_decide; [apply runsOnly_ret|].
    apply runsOnly_bind; [|intros batch; apply runsOnly_ret].
    unfold Docker.InspectImages. destruct (filter _ _); [apply runsOnly_ret|].
    apply runsOnly_inspectFrom. intros batch. apply inspection_inspect. }
  intros inspectByID. apply runsOnly_bind; [|intros results; apply runsOnly_ret].
  apply runsOnly_rangeCollect. intros img. apply imageBody_runs.
  right. apply inspection_inspect.
Qed.

Lemma volumes_run_inspections :
  runsOnly inspection (AnalyzeVolumesWithConfig (recording E) cfg).
Proof.
  unfold AnalyzeVolumesWithConfig.
  apply runsOnly_bind; [apply runsOnly_journaled|].
  intros [volumes|e]; [|apply runsOnly_ret].
  apply runsOnly_bind.
  { unfold Docker.InspectVolumes. destruct (filter _ _); [apply runsOnly_ret|].
    apply runsOnly_inspectFrom. intros batch. apply inspection_volume. }
  intros batch. apply runsOnly_bind; [apply runsOnly_journaled|]. intros used.
  apply runsOnly_bind; [|intros results; apply runsOnly_ret].
  apply runsOnly_rangeCollect. intros vol. unfold volumeBody.
  apply runsOnly_bind.
  { unfold volumeDetail. destruct (_ !! _); [apply runsOnly_ret|].
    apply runsOnly_bind; [|intros r; apply runsOnly_ret].
    unfold Docker.InspectVolume.
    apply runsOnly_bind; [|intros r; apply runsOnly_ret].
    apply runsOnly_Run, inspection_volume. }
  intros [[labels createdAt] project].
  apply runsOnly_bind; [apply runsOnly_notOldEnough|].
  intros [|]; [apply runsOnly_ret|].
  destruct (_ && _)%bool; [apply runsOnly_ret|].
  destruct (categorizeVolume _ _ _ _) as [category reason]. apply runsOnly_ret.
Qed.

(** The plan of the image analyser asks for no inspection when no
    listed image needs one. *)
Lemma inspectPlan_nothing (images : list Docker.Image.t) :
  Forall (fun img => needsInspect cfg img = false) images ->
  snd (inspectPlan cfg images) = ∅.
Proof.
  intros Hall. unfold inspectPlan.
  match goal with
  | |- snd (fold_left ?f images _) = ∅ =>
      assert (Hfold : forall ids : list string, snd (fold_left f images (ids, ∅)) = ∅)
  end.
  { induction Hall as [|img images Himg _ IH]; intros ids; [reflexivity|].
    cbn [fold_left]. rewrite Himg. case_decide; apply IH. }
  apply Hfold.
Qed.

Lemma images_run_nothing (w : W) (images : list Docker.Image.t) :
  fst (Docker.ListImages E w) = Ok images ->
  Forall (fun img => needsInspect cfg img = false) images ->
  journal (AnalyzeImagesWithConfig (recording E) cfg) w = [].
Proof.
  intros Hlist Hall.
  unfold journal, AnalyzeImagesWithConfig. rewrite bind_run.
  cbn [recording Docker.ListImages]. unfold journaled at 1. cbn [fst snd].
  destruct (Docker.ListImages E w) as [[listed|e] w1]; cbn [fst] in Hlist;
    [injection Hlist as ->|discriminate].
  match goal with
  | |- snd (snd (?c (w1, []))) = [] =>
      assert (Hrest : runsOnly (W := W) (fun _ => False) c)
  end.
  { apply runsOnly_bind; [apply runsOnly_journaled|]. intros used.
    pose proof (inspectPlan_nothing images Hall) as Hplan.
    destruct (inspectPlan cfg images) as [imageIDs inspectNeeded].
    cbn [snd] in Hplan. subst inspectNeeded.
    apply runsOnly_bind; [rewrite decide_True by reflexivity; apply runsOnly_ret|].
    intros inspectByID. apply runsOnly_bind; [|intros results; apply runsOnly_ret].
    apply runsOnly_rangeCollect. intros img. apply imageBody_runs. left. reflexivity. }
  destruct (Hrest w1 []) as (added & Hadded & Hnone).
  rewrite Hadded. destruct added as [|a added]; [reflexivity|].
  inversion Hnone; contradiction.
Qed.

End AnalysisCommands.

(** X13: the analysers of containers, images and volumes run inspections and
    nothing else: every command they pass to the runtime, beside the
    listing and in-use queries of the package [docker], is [inspect] or
    [volume inspect] followed by identifiers; an analysis removes
    nothing.  The image analyser runs no command at all when no listed
    image needs an inspection: each carries its labels and, where the
    configuration filters on them, its size and its creation time. *)
Theorem analysers_run_inspections_only {W : Type} (E : Docker.Env W) (cfg : Config.t)
    (w : W) :
  Forall inspection (journal (AnalyzeContainersWithConfig (recording E) cfg) w)
  /\ Forall inspection (journal (AnalyzeImagesWithConfig (recording E) cfg) w)
  /\ Forall inspection (journal (AnalyzeVolumesWithConfig (recording E) cfg) w)
  /\ (forall images,
         fst (Docker.ListImages E w) = Ok images ->
         Forall (fun img => needsInspect cfg img = false) images ->
         journal (AnalyzeImagesWithConfig (recording E) cfg) w = []).
Proof.
  unfold journal.
  destruct (containers_run_inspections E cfg w []) as (a1 & H1 & Hp1).
  destruct (images_run_inspections E cfg w []) as (a2 & H2 & Hp2).
  destruct (volumes_run_inspections E cfg w []) as (a3 & H3 & Hp3).
  rewrite H1, H2, H3. cbn [app].
  split; [exact Hp1|]. split; [exact Hp2|]. split; [exact Hp3|].
  intros images Hlist Hall.
  pose proof (images_run_nothing E cfg w images Hlist Hall) as Hnone.
  unfold journal in Hnone. rewrite H2 in Hnone. exact Hnone.
Qed.

Lemma analysers_run_inspections_only_witness :
  journal (AnalyzeContainersWithConfig (recording listingEnv) Config.DefaultConfig) tt
  = [["inspect"; "c1"; "c2"];
     ["inspect"; "--format"; "{{json .}}"; "c1"];
     ["inspect"; "--format"; "{{json .}}"; "c2"]]
  /\ Forall inspection
       [["inspect"; "c1"; "c2"];
        ["inspect"; "--format"; "{{json .}}"; "c1"];
        ["inspect"; "--format"; "{{json .}}"; "c2"]]
  /\ journal (AnalyzeImagesWithConfig (recording listingEnv) Config.DefaultConfig) tt = [].
Proof.
  assert (Hc : journal (AnalyzeContainersWithConfig (recording listingEnv)
                          Config.DefaultConfig) tt
               = [["inspect"; "c1"; "c2"];
                  ["inspect"; "--format"; "{{json .}}"; "c1"];
                  ["inspect"; "--format"; "{{json .}}"; "c2"]])
    by (vm_compute; reflexivity).
  destruct (analysers_run_inspections_only listingEnv Config.DefaultConfig tt)
    as (Hcontainers & _ & _ & Himages).
  split; [exact Hc|]. split; [rewrite <- Hc; exact Hcontainers|].
  apply (Himages [danglingImage; nginxImage]); [reflexivity|].
  repeat constructor.
Defined.

(* ===================================================================== *)
(** * The records of an analysis and the listing *)
(* ===================================================================== *)

Lemma rangeCollect_sublist {W A B : Type} (proj : B -> A) (body : A -> M W (option B))
    (xs : list A) (w : W) :
  (forall x w y, fst (body x w) = Some y -> proj y = x) ->
  sublist (map proj (fst (rangeCollect body xs w))) xs.
Proof.
  intros Hproj. revert w. induction xs as [|x xs IH]; intros w; [constructor|].
  rewrite rangeCollect_cons.
  pose proof (Hproj x w) as Hx. destruct (body x w) as [r w1]. cbn [fst] in Hx.
  specialize (IH w1). destruct (rangeCollect body xs w1) as [tail w2]. cbn [fst] in *.
  destruct r as [y|].
  - cbn [map]. rewrite (Hx y eq_refl). constructor. exact IH.
  - constructor. exact IH.
Qed.

Lemma rangeCollect_all {W A B : Type} (proj : B -> A) (body : A -> M W (option B))
    (xs : list A) (w : W) :
  (forall x w, exists y, fst (body x w) = Some y /\ proj y = x) ->
  map proj (fst (rangeCollect body xs w)) = xs.
Proof.
  intros Hkept. revert w. induction xs as [|x xs IH]; intros w; [reflexivity|].
  rewrite rangeCollect_cons.
  destruct (Hkept x w) as (y & Hy & Hproj). destruct (body x w) as [r w1].
  cbn [fst] in Hy. subst r.
  specialize (IH w1). destruct (rangeCollect body xs w1) as [tail w2]. cbn [fst] in *.
  cbn [map]. rewrite Hproj, IH. reflexivity.
Qed.

Section Listing.
Context {W : Type} (E : Docker.Env W) (cfg : Config.t).

Lemma notOldEnough_off (createdAt : Z) (w : W) :
  Config.OlderThan cfg <= 0 -> notOldEnough E cfg createdAt w = (false, w).
Proof.
  intros Hoff. unfold notOldEnough.
  destruct (Z.ltb_spec 0 (Config.OlderThan cfg)); [lia|reflexivity].
Qed.

Lemma containerBody_record (inspectByID : gmap string Docker.ContainerInspect.t)
    (c : Docker.Container.t) (w : W) :
  (forall r, fst (containerBody E cfg inspectByID c w) = Some r ->
             ContainerResource.container r = c)
  /\ (Config.OlderThan cfg <= 0 -> Config.Exited cfg = false ->
      exists r, fst (containerBody E cfg inspectByID c w) = Some r).
Proof.
  unfold containerBody. rewrite bind_run.
  destruct (containerDetail E inspectByID c w) as [[createdAt labels] w1].
  destruct (categorizeContainer c (Some labels) cfg) as [category reason].
  rewrite bind_run. split.
  - destruct (notOldEnough E cfg createdAt w1) as [[|] w2]; [unfold ret; discriminate|].
    destruct (_ && _)%bool; unfold ret; cbn [fst]; [discriminate|].
    intros r [= <-]. reflexivity.
  - intros Hoff Hexited. rewrite (notOldEnough_off createdAt w1 Hoff), Hexited.
    cbn [andb]. unfold ret. cbn [fst]. eauto.
Qed.

Lemma imageBody_record (inUse : gmap string bool)
    (inspectByID : gmap string Docker.ImageInspect.t)
    (inspectNeeded : gmap string bool) (img : Docker.Image.t) (w : W) :
  (forall r, fst (imageBody E cfg inUse inspectByID inspectNeeded img w) = Some r ->
             ImageResource.image r = img)
  /\ (Config.OlderThan cfg <= 0 -> Config.MinSize cfg <= 0 ->
      Config.Dangling cfg = false -> Config.NoDangling cfg = false ->
      exists r, fst (imageBody E cfg inUse inspectByID inspectNeeded img w) = Some r).
Proof.
  unfold imageBody. rewrite bind_run.
  destruct (imageDetail E inspectByID inspectNeeded img w) as [d w1].
  destruct (imageFallbacks E img d) as [[size labels] createdAt].
  rewrite bind_run. split.
  - destruct (notOldEnough E cfg createdAt w1) as [[|] w2]; [unfold ret; discriminate|].
    repeat (destruct (_ && _)%bool; [unfold ret; discriminate|]).
    destruct (categorizeImage img _ labels cfg) as [category reason].
    unfold ret. cbn [fst]. intros r [= <-]. reflexivity.
  - intros Hoff Hmin Hd Hn. rewrite (notOldEnough_off createdAt w1 Hoff), Hd, Hn.
    destruct (Z.ltb_spec 0 (Config.MinSize cfg)); [lia|]. cbn [andb].
    destruct (categorizeImage img _ labels cfg) as [category reason].
    unfold ret. cbn [fst]. eauto.
Qed.

Lemma volumeBody_record (inUse : gmap string bool)
    (inspectByName : gmap string Docker.VolumeInspect.t) (vol : Docker.Volume.t)
    (w : W) :
  (forall r, fst (volumeBody E cfg inUse inspectByName vol w) = Some r ->
             VolumeResource.volume r = vol)
  /\ (Config.OlderThan cfg <= 0 -> Config.Anonymous cfg = false ->
      exists r, fst (volumeBody E cfg inUse inspectByName vol w) = Some r).
Proof.
  unfold volumeBody. rewrite bind_run.
  destruct (volumeDetail E inspectByName vol w) as [[[labels createdAt] project] w1].
  rewrite bind_run. split.
  - destruct (notOldEnough E cfg createdAt w1) as [[|] w2]; [unfold ret; discriminate|].
    destruct (_ && _)%bool; [unfold ret; discriminate|].
    destruct (categorizeVolume vol _ labels cfg) as [category reason].
    unfold ret. cbn [fst]. intros r [= <-]. reflexivity.
  - intros Hoff Hanon. rewrite (notOldEnough_off createdAt w1 Hoff), Hanon.
    cbn [andb]. destruct (categorizeVolume vol _ labels cfg) as [category reason].
    unfold ret. cbn [fst]. eauto.
Qed.

Lemma networkBody_record (inUse : gmap string bool) (net : Docker.Network.t) (w : W) :
  (forall r, fst (networkBody E cfg inUse net w) = Some r ->
             NetworkResource.network r = net)
  /\ (Config.OlderThan cfg <= 0 ->
      exists r, fst (networkBody E cfg inUse net w) = Some r).
Proof.
  unfold networkBody. rewrite bind_run.
  destruct (networkDetail E net w) as [[[labels createdAt] project] w1].
  rewrite bind_run. split.
  - destruct (notOldEnough E cfg createdAt w1) as [[|] w2]; [unfold ret; discriminate|].
    destruct (categorizeNetwork net _ labels cfg) as [category reason].
    unfold ret. cbn [fst]. intros r [= <-]. reflexivity.
  - intros Hoff. rewrite (notOldEnough_off createdAt w1 Hoff).
    destruct (categorizeNetwork net _ labels cfg) as [category reason].
    unfold ret. cbn [fst]. eauto.
Qed.

End Listing.

(** X14: an analysis returns the listing, filtered: whenever the listing
    succeeds the analysis does, whatever the inspections and the in-use
    queries answer, and its records are records of listed resources, in
    the order of the listing, each listed resource at most once.  With
    no filter configured it returns one record for every listed
    resource: nothing is left out. *)
Theorem analysis_keeps_the_listing {W : Type} (E : Docker.Env W) (cfg : Config.t)
    (w : W) :
  (forall listed, fst (Docker.ListContainers E w) = Ok listed ->
     exists rs,
       fst (AnalyzeContainersWithConfig E cfg w) = Ok rs
       /\ sublist (map ContainerResource.container rs) listed
       /\ (Config.OlderThan cfg <= 0 -> Config.Exited cfg = false ->
           map ContainerResource.container rs = listed))
  /\ (forall listed, fst (Docker.ListImages E w) = Ok listed ->
        exists rs,
          fst (AnalyzeImagesWithConfig E cfg w) = Ok rs
          /\ sublist (map ImageResource.image rs) listed
          /\ (Config.OlderThan cfg <= 0 -> Config.MinSize cfg <= 0 ->
              Config.Dangling cfg = false -> Config.NoDangling cfg = false ->
              map ImageResource.image rs = listed))
  /\ (forall listed, fst (Docker.ListVolumes E w) = Ok listed ->
        exists rs,
          fst (AnalyzeVolumesWithConfig E cfg w) = Ok rs
          /\ sublist (map VolumeResource.volume rs) listed
          /\ (Config.OlderThan cfg <= 0 -> Config.Anonymous cfg = false ->
              map VolumeResource.volume rs = listed))
  /\ (forall listed, fst (Docker.ListNetworks E w) = Ok listed ->
        exists rs,
          fst (AnalyzeNetworksWithConfig E cfg w) = Ok rs
          /\ sublist (map NetworkResource.network rs) listed
          /\ (Config.OlderThan cfg <= 0 ->
              map NetworkResource.network rs = listed)).
Proof.
  split; [|split; [|split]]; intros listed Hlist.
  - unfold AnalyzeContainersWithConfig. rewrite bind_run.
    destruct (Docker.ListContainers E w) as [[containers|e] w1]; cbn [fst] in Hlist;
      [injection Hlist as ->|discriminate].
    rewrite bind_run. destruct (Docker.InspectContainers E _ w1) as [batch w2].
    rewrite bind_run.
    set (body := containerBody E cfg match batch with Ok m => m | Err _ => ∅ end).
    pose proof (rangeCollect_sublist ContainerResource.container body listed w2) as Hsub.
    pose proof (rangeCollect_all ContainerResource.container body listed w2) as Hall.
    destruct (rangeCollect body listed w2) as [results w3]. cbn [fst] in *.
    exists results. unfold ret. cbn [fst]. split; [reflexivity|]. split.
    + apply Hsub. intros x v y. apply containerBody_record.
    + intros Hoff Hexited. apply Hall. intros x v.
      destruct (containerBody_record E cfg match batch with Ok m => m | Err _ => ∅ end
                  x v) as [Hrec Hkept].
      destruct (Hkept Hoff Hexited) as [r Hr]. exists r. split; [exact Hr|].
      apply Hrec, Hr.
  - unfold AnalyzeImagesWithConfig. rewrite bind_run.
    destruct (Docker.ListImages E w) as [[images|e] w1]; cbn [fst] in Hlist;
      [injection Hlist as ->|discriminate].
    rewrite bind_run. destruct (Docker.GetImagesInUse E w1) as [used w2].
    destruct (inspectPlan cfg listed) as [imageIDs inspectNeeded].
    rewrite bind_run.
    match goal with
    | |- context [let (_, _) := ?c w2 in _] => destruct (c w2) as [inspectByID w3]
    end.
    rewrite bind_run.
    set (body := imageBody E cfg (orNothingInUse used) inspectByID inspectNeeded).
    pose proof (rangeCollect_sublist ImageResource.image body listed w3) as Hsub.
    pose proof (rangeCollect_all ImageResource.image body listed w3) as Hall.
    destruct (rangeCollect body listed w3) as [results w4]. cbn [fst] in *.
    exists results. unfold ret. cbn [fst]. split; [reflexivity|]. split.
    + apply Hsub. intros x v y. apply imageBody_record.
    + intros Hoff Hmin Hd Hn. apply Hall. intros x v.
      destruct (imageBody_record E cfg (orNothingInUse used) inspectByID
                  inspectNeeded x v) as [Hrec Hkept].
      destruct (Hkept Hoff Hmin Hd Hn) as [r Hr]. exists r. split; [exact Hr|].
      apply Hrec, Hr.
  - unfold AnalyzeVolumesWithConfig. rewrite bind_run.
    destruct (Docker.ListVolumes E w) as [[volumes|e] w1]; cbn [fst] in Hlist;
      [injection Hlist as ->|discriminate].
    rewrite bind_run. destruct (Docker.InspectVolumes E _ w1) as [batch w2].
    rewrite bind_run. destruct (Docker.GetVolumesInUse E w2) as [used w3].
    rewrite bind_run.
    set (body := volumeBody E cfg (orNothingInUse used)
                   match batch with Ok m => m | Err _ => ∅ end).
    pose proof (rangeCollect_sublist VolumeResource.volume body listed w3) as Hsub.
    pose proof (rangeCollect_all VolumeResource.volume body listed w3) as Hall.
    destruct (rangeCollect body listed w3) as [results w4]. cbn [fst] in *.
    exists results. unfold ret. cbn [fst]. split; [reflexivity|]. split.
    + apply Hsub. intros x v y. apply volumeBody_record.
    + intros Hoff Hanon. apply Hall. intros x v.
      destruct (volumeBody_record E cfg (orNothingInUse used)
                  match batch with Ok m => m | Err _ => ∅ end x v) as [Hrec Hkept].
      destruct (Hkept Hoff Hanon) as [r Hr]. exists r. split; [exact Hr|].
      apply Hrec, Hr.
  - unfold AnalyzeNetworksWithConfig. rewrite bind_run.
    destruct (Docker.ListNetworks E w) as [[networks|e] w1]; cbn [fst] in Hlist;
      [injection Hlist as ->|discriminate].
    rewrite bind_run. destruct (Docker.GetNetworksInUse E w1) as [used w2].
    rewrite bind_run.
    set (body := networkBody E cfg (orNothingInUse used)).
    pose proof (rangeCollect_sublist NetworkResource.network body listed w2) as Hsub.
    pose proof (rangeCollect_all NetworkResource.network body listed w2) as Hall.
    destruct (rangeCollect body listed w2) as [results w3]. cbn [fst] in *.
    exists results. unfold ret. cbn [fst]. split; [reflexivity|]. split.
    + apply Hsub. intros x v y. apply networkBody_record.
    + intros Hoff. apply Hall. intros x v.
      destruct (networkBody_record E cfg (orNothingInUse used) x v) as [Hrec Hkept].
      destruct (Hkept Hoff) as [r Hr]. exists r. split; [exact Hr|].
      apply Hrec, Hr.
Qed.

(* ===================================================================== *)
(** * The labels and the compose project of a record *)
(* ===================================================================== *)

Section Projects.
Context {W : Type} (E : Docker.Env W) (cfg : Config.t).

Lemma containerBody_project (inspectByID : gmap string Docker.ContainerInspect.t)
    (c : Docker.Container.t) (w : W) (r : ContainerResource.t) :
  fst (containerBody E cfg inspectByID c w) = Some r ->
  ContainerResource.labels r <> None
  /\ ContainerResource.composeProject r
     = Docker.ComposeProjectFromLabels (ContainerResource.labels r).
Proof.
  unfold containerBody. rewrite bind_run.
  destruct (containerDetail E inspectByID c w) as [[createdAt labels] w1].
  destruct (categorizeContainer c (Some labels) cfg) as [category reason].
  rewrite bind_run.
  destruct (notOldEnough E cfg createdAt w1) as [[|] w2]; [unfold ret; discriminate|].
  destruct (_ && _)%bool; unfold ret; cbn [fst]; [discriminate|].
  intros [= <-]. split; [discriminate|reflexivity].
Qed.

Lemma imageBody_labels (inUse : gmap string bool)
    (inspectByID : gmap string Docker.ImageInspect.t)
    (inspectNeeded : gmap string bool) (img : Docker.Image.t) (w : W)
    (r : ImageResource.t) :
  fst (imageBody E cfg inUse inspectByID inspectNeeded img w) = Some r ->
  ImageResource.labels r <> None.
Proof.
  unfold imageBody. rewrite bind_run.
  destruct (imageDetail E inspectByID inspectNeeded img w) as [[[size0 labels0] created0] w1].
  assert (Hlabels : snd (fst (imageFallbacks E img (size0, labels0, created0))) <> None).
  { unfold imageFallbacks. destruct labels0; discriminate. }
  destruct (imageFallbacks E img (size0, labels0, created0)) as [[size labels] createdAt].
  cbn [fst snd] in Hlabels.
  rewrite bind_run.
  destruct (notOldEnough E cfg createdAt w1) as [[|] w2]; [unfold ret; discriminate|].
  repeat (destruct (_ && _)%bool; [unfold ret; discriminate|]).
  destruct (categorizeImage img _ labels cfg) as [category reason].
  unfold ret. cbn [fst]. intros [= <-]. exact Hlabels.
Qed.

Lemma volumeBody_project (inUse : gmap string bool)
    (inspectByName : gmap string Docker.VolumeInspect.t) (vol : Docker.Volume.t)
    (w : W) (r : VolumeResource.t) :
  fst (volumeBody E cfg inUse inspectByName vol w) = Some r ->
  VolumeResource.composeProject r
  = Docker.ComposeProjectFromLabels (VolumeResource.labels r).
Proof.
  unfold volumeBody. rewrite bind_run.
  assert (Hdetail : snd (fst (volumeDetail E inspectByName vol w))
                    = Docker.ComposeProjectFromLabels
                        (fst (fst (fst (volumeDetail E inspectByName vol w))))).
  { unfold volumeDetail. destruct (_ !! _); [reflexivity|].
    rewrite bind_run. destruct (Docker.InspectVolume E _ w) as [[inspect|e] w1];
      reflexivity. }
  destruct (volumeDetail E inspectByName vol w) as [[[labels createdAt] project] w1].
  cbn [fst snd] in Hdetail.
  rewrite bind_run.
  destruct (notOldEnough E cfg createdAt w1) as [[|] w2]; [unfold ret; discriminate|].
  destruct (_ && _)%bool; [unfold ret; discriminate|].
  destruct (categorizeVolume vol _ labels cfg) as [category reason].
  unfold ret. cbn [fst]. intros [= <-]. exact Hdetail.
Qed.

Lemma networkBody_project (inUse : gmap string bool) (net : Docker.Network.t)
    (w : W) (r : NetworkResource.t) :
  fst (networkBody E cfg inUse net w) = Some r ->
  NetworkResource.composeProject r
  = Docker.ComposeProjectFromLabels (NetworkResource.labels r).
Proof.
  unfold networkBody. rewrite bind_run.
  assert (Hdetail : snd (fst (networkDetail E net w))
                    = Docker.ComposeProjectFromLabels
                        (fst (fst (fst (networkDetail E net w))))).
  { unfold networkDetail. rewrite bind_run.
    destruct (Docker.InspectNetwork E _ w) as [[inspect|e] w1]; reflexivity. }
  destruct (networkDetail E net w) as [[[labels createdAt] project] w1].
  cbn [fst snd] in Hdetail.
  rewrite bind_run.
  destruct (notOldEnough E cfg createdAt w1) as [[|] w2]; [unfold ret; discriminate|].
  destruct (categorizeNetwork net _ labels cfg) as [category reason].
  unfold ret. cbn [fst]. intros [= <-]. exact Hdetail.
Qed.

End Projects.

(** X15: the compose project of a record is read off the labels the record
    stores: the label of Docker Compose when it is set and not empty,
    else the label of Podman Compose, else (and for a record without
    labels) the empty string.  The labels of an analysed container and of
    an analysed image are never the nil map. *)
Theorem compose_project_follows_labels {W : Type} (E : Docker.Env W) (cfg : Config.t)
    (w : W) :
  (forall labels,
      Docker.ComposeProjectFromLabels labels
      = if decide (index labels Docker.LabelComposeProject = "")
        then index labels Docker.LabelPodmanProject
        else index labels Docker.LabelComposeProject)
  /\ (forall rs r,
         fst (AnalyzeContainersWithConfig E cfg w) = Ok rs -> In r rs ->
         ContainerResource.labels r <> None
         /\ ContainerResource.ComposeProject r
            = Docker.ComposeProjectFromLabels (ContainerResource.labels r))
  /\ (forall rs r,
         fst (AnalyzeImagesWithConfig E cfg w) = Ok rs -> In r rs ->
         ImageResource.labels r <> None)
  /\ (forall rs r,
         fst (AnalyzeVolumesWithConfig E cfg w) = Ok rs -> In r rs ->
         VolumeResource.ComposeProject r
         = Docker.ComposeProjectFromLabels (VolumeResource.labels r))
  /\ (forall rs r,
         fst (AnalyzeNetworksWithConfig E cfg w) = Ok rs -> In r rs ->
         NetworkResource.ComposeProject r
         = Docker.ComposeProjectFromLabels (NetworkResource.labels r)).
Proof.
  split; [|split; [|split; [|split]]].
  - intros [g|]; [reflexivity|]. cbn. reflexivity.
  - intros rs r Hrun Hin.
    destruct (AnalyzeContainers_In E cfg w rs r Hrun Hin) as (ib & c & w1 & Hbody).
    exact (containerBody_project E cfg ib c w1 r Hbody).
  - intros rs r Hrun Hin.
    destruct (AnalyzeImages_In E cfg w rs r Hrun Hin)
      as (u & ib & need & img & w1 & Hbody).
    exact (imageBody_labels E cfg u ib need img w1 r Hbody).
  - intros rs r Hrun Hin.
    destruct (AnalyzeVolumes_In E cfg w rs r Hrun Hin) as (u & ib & vol & w1 & Hbody).
    exact (volumeBody_project E cfg u ib vol w1 r Hbody).
  - intros rs r Hrun Hin.
    destruct (AnalyzeNetworks_In E cfg w rs r Hrun Hin) as (u & net & w1 & Hbody).
    exact (networkBody_project E cfg u net w1 r Hbody).
Qed.

(* ===================================================================== *)
(** * An in-use query that fails *)
(* ===================================================================== *)

Section InUse.
Context {W : Type} (E : Docker.Env W) (cfg : Config.t).

Lemma imageBody_inUse (inUse : gmap string bool)
    (inspectByID : gmap string Docker.ImageInspect.t)
    (inspectNeeded : gmap string bool) (img : Docker.Image.t) (w : W)
    (r : ImageResource.t) :
  fst (imageBody E cfg inUse inspectByID inspectNeeded img w) = Some r ->
  inUse = ∅ -> ImageResource.inUse r = false.
Proof.
  unfold imageBody. rewrite bind_run.
  destruct (imageDetail E inspectByID inspectNeeded img w) as [d w1].
  destruct (imageFallbacks E img d) as [[size labels] createdAt].
  rewrite bind_run.
  destruct (notOldEnough E cfg createdAt w1) as [[|] w2]; [unfold ret; discriminate|].
  repeat (destruct (_ && _)%bool; [unfold ret; discriminate|]).
  destruct (categorizeImage img _ labels cfg) as [category reason].
  unfold ret. cbn [fst]. intros [= <-] ->. reflexivity.
Qed.

Lemma volumeBody_inUse (inUse : gmap string bool)
    (inspectByName : gmap string Docker.VolumeInspect.t) (vol : Docker.Volume.t)
    (w : W) (r : VolumeResource.t) :
  fst (volumeBody E cfg inUse inspectByName vol w) = Some r ->
  inUse = ∅ -> VolumeResource.inUse r = false.
Proof.
  unfold volumeBody. rewrite bind_run.
  destruct (volumeDetail E inspectByName vol w) as [[[labels createdAt] project] w1].
  rewrite bind_run.
  destruct (notOldEnough E cfg createdAt w1) as [[|] w2]; [unfold ret; discriminate|].
  destruct (_ && _)%bool; [unfold ret; discriminate|].
  destruct (categorizeVolume vol _ labels cfg) as [category reason].
  unfold ret. cbn [fst]. intros [= <-] ->. reflexivity.
Qed.

Lemma networkBody_inUse (inUse : gmap string bool) (net : Docker.Network.t)
    (w : W) (r : NetworkResource.t) :
  fst (networkBody E cfg inUse net w) = Some r ->
  inUse = ∅ -> NetworkResource.inUse r = false.
Proof.
  unfold networkBody. rewrite bind_run.
  destruct (networkDetail E net w) as [[[labels createdAt] project] w1].
  rewrite bind_run.
  destruct (notOldEnough E cfg createdAt w1) as [[|] w2]; [unfold ret; discriminate|].
  destruct (categorizeNetwork net _ labels cfg) as [category reason].
  unfold ret. cbn [fst]. intros [= <-] ->. reflexivity.
Qed.

(** The records of an analysis, with the in-use set that was used. *)
Lemma AnalyzeImages_In_used (w : W) (rs : list ImageResource.t) (r : ImageResource.t) :
  fst (AnalyzeImagesWithConfig E cfg w) = Ok rs -> In r rs ->
  exists w0 inspectByID inspectNeeded img w1,
    fst (imageBody E cfg (orNothingInUse (fst (Docker.GetImagesInUse E w0)))
           inspectByID inspectNeeded img w1) = Some r.
Proof.
  unfold AnalyzeImagesWithConfig. rewrite bind_run.
  destruct (Docker.ListImages E w) as [[images|e] w1]; [|unfold ret; discriminate].
  rewrite bind_run.
  destruct (Docker.GetImagesInUse E w1) as [used w2] eqn:Hused.
  destruct (inspectPlan cfg images) as [imageIDs inspectNeeded].
  rewrite bind_run.
  match goal with
  | |- context [let (_, _) := ?c w2 in _] => destruct (c w2) as [inspectByID w3]
  end.
  rewrite bind_run. intros Hrun Hin.
  pose proof (rangeCollect_In
                (imageBody E cfg (orNothingInUse used) inspectByID inspectNeeded)
                images w3 r) as Hc.
  destruct (rangeCollect
              (imageBody E cfg (orNothingInUse used) inspectByID inspectNeeded)
              images w3) as [results w4].
  unfold ret in Hrun. cbn [fst] in *. injection Hrun as ->.
  destruct (Hc Hin) as (img & w' & _ & Hbody).
  exists w1, inspectByID, inspectNeeded, img, w'. rewrite Hused. exact Hbody.
Qed.

Lemma AnalyzeVolumes_In_used (w : W) (rs : list VolumeResource.t) (r : VolumeResource.t) :
  fst (AnalyzeVolumesWithConfig E cfg w) = Ok rs -> In r rs ->
  exists w0 inspectByName vol w1,
    fst (volumeBody E cfg (orNothingInUse (fst (Docker.GetVolumesInUse E w0)))
           inspectByName vol w1) = Some r.
Proof.
  unfold AnalyzeVolumesWithConfig. rewrite bind_run.
  destruct (Docker.ListVolumes E w) as [[volumes|e] w1]; [|unfold ret; discriminate].
  rewrite bind_run.
  destruct (Docker.InspectVolumes E _ w1) as [batch w2].
  rewrite bind_run.
  destruct (Docker.GetVolumesInUse E w2) as [used w3] eqn:Hused.
  rewrite bind_run. intros Hrun Hin.
  set (inspectByName := match batch with Ok m => m | Err _ => ∅ end) in *.
  pose proof (rangeCollect_In
                (volumeBody E cfg (orNothingInUse used) inspectByName)
                volumes w3 r) as Hc.
  destruct (rangeCollect (volumeBody E cfg (orNothingInUse used) inspectByName)
              volumes w3) as [results w4].
  unfold ret in Hrun. cbn [fst] in *. injection Hrun as ->.
  destruct (Hc Hin) as (vol & w' & _ & Hbody).
  exists w2, inspectByName, vol, w'. rewrite Hused. exact Hbody.
Qed.

Lemma AnalyzeNetworks_In_used (w : W) (rs : list NetworkResource.t)
    (r : NetworkResource.t) :
  fst (AnalyzeNetworksWithConfig E cfg w) = Ok rs -> In r rs ->
  exists w0 net w1,
    fst (networkBody E cfg (orNothingInUse (fst (Docker.GetNetworksInUse E w0)))
           net w1) = Some r.
Proof.
  unfold AnalyzeNetworksWithConfig. rewrite bind_run.
  destruct (Docker.ListNetworks E w) as [[networks|e] w1]; [|unfold ret; discriminate].
  rewrite bind_run.
  destruct (Docker.GetNetworksInUse E w1) as [used w2] eqn:Hused.
  rewrite bind_run. intros Hrun Hin.
  pose proof (rangeCollect_In (networkBody E cfg (orNothingInUse used))
                networks w2 r) as Hc.
  destruct (rangeCollect (networkBody E cfg (orNothingInUse used)) networks w2)
    as [results w3].
  unfold ret in Hrun. cbn [fst] in *. injection Hrun as ->.
  destruct (Hc Hin) as (net & w' & _ & Hbody).
  exists w1, net, w'. rewrite Hused. exact Hbody.
Qed.

End InUse.

(** X16: an in-use query that fails does not fail the analysis: it counts as
    nothing in use.  Then no record of the kind is marked in use, a
    record is protected only by its label (a network, also as a system
    network), and every dangling image, every anonymous volume and every
    other network without the label is suggested for deletion, whether a
    container uses it or not. *)
Theorem failed_in_use_query_protects_nothing {W : Type} (E : Docker.Env W)
    (cfg : Config.t) (w : W) :
  ((forall w0, exists e, fst (Docker.GetImagesInUse E w0) = Err e) ->
   forall rs r,
     fst (AnalyzeImagesWithConfig E cfg w) = Ok rs -> In r rs ->
     ImageResource.inUse r = false
     /\ ImageResource.IsProtected r = protectedByLabel (ImageResource.labels r)
     /\ ImageResource.IsSuggested r
        = (negb (protectedByLabel (ImageResource.labels r))
           && ImageResource.IsDangling r)%bool)
  /\ ((forall w0, exists e, fst (Docker.GetVolumesInUse E w0) = Err e) ->
      forall rs r,
        fst (AnalyzeVolumesWithConfig E cfg w) = Ok rs -> In r rs ->
        VolumeResource.inUse r = false
        /\ VolumeResource.IsProtected r = protectedByLabel (VolumeResource.labels r)
        /\ VolumeResource.IsSuggested r
           = (negb (protectedByLabel (VolumeResource.labels r))
              && VolumeResource.IsAnonymous r)%bool)
  /\ ((forall w0, exists e, fst (Docker.GetNetworksInUse E w0) = Err e) ->
      forall rs r,
        fst (AnalyzeNetworksWithConfig E cfg w) = Ok rs -> In r rs ->
        NetworkResource.inUse r = false
        /\ NetworkResource.IsProtected r
           = (protectedByLabel (NetworkResource.labels r)
              || member Docker.SystemNetworks
                   (Docker.Network.Name (NetworkResource.network r)))%bool
        /\ NetworkResource.IsSuggested r = negb (NetworkResource.IsProtected r)).
Proof.
  split; [|split]; intros Hfails rs r Hrun Hin.
  - destruct (AnalyzeImages_In_used E cfg w rs r Hrun Hin)
      as (w0 & ib & need & img & w1 & Hbody).
    destruct (Hfails w0) as [e He]. rewrite He in Hbody. cbn [orNothingInUse] in Hbody.
    pose proof (imageBody_inUse E cfg ∅ ib need img w1 r Hbody eq_refl) as Hused.
    apply imageBody_categorised in Hbody. rewrite Hused in Hbody.
    split; [exact Hused|].
    unfold ImageResource.IsProtected, ImageResource.IsSuggested, ImageResource.IsDangling.
    fold (isDangling (ImageResource.image r)). unfold categorizeImage in Hbody.
    destruct (protectedByLabel (ImageResource.labels r)),
      (isDangling (ImageResource.image r));
      injection Hbody as -> _; split; reflexivity.
  - destruct (AnalyzeVolumes_In_used E cfg w rs r Hrun Hin)
      as (w0 & ib & vol & w1 & Hbody).
    destruct (Hfails w0) as [e He]. rewrite He in Hbody. cbn [orNothingInUse] in Hbody.
    pose proof (volumeBody_inUse E cfg ∅ ib vol w1 r Hbody eq_refl) as Hused.
    apply volumeBody_categorised in Hbody. rewrite Hused in Hbody.
    split; [exact Hused|].
    unfold VolumeResource.IsProtected, VolumeResource.IsSuggested,
      VolumeResource.IsAnonymous.
    unfold categorizeVolume in Hbody.
    destruct (protectedByLabel (VolumeResource.labels r)),
      (Docker.IsAnonymousVolume (Docker.Volume.Name (VolumeResource.volume r)));
      injection Hbody as -> _; split; reflexivity.
  - destruct (AnalyzeNetworks_In_used E cfg w rs r Hrun Hin)
      as (w0 & net & w1 & Hbody).
    destruct (Hfails w0) as [e He]. rewrite He in Hbody. cbn [orNothingInUse] in Hbody.
    pose proof (networkBody_inUse E cfg ∅ net w1 r Hbody eq_refl) as Hused.
    apply networkBody_categorised in Hbody. rewrite Hused in Hbody.
    split; [exact Hused|].
    unfold NetworkResource.IsProtected, NetworkResource.IsSuggested.
    unfold categorizeNetwork in Hbody.
    destruct (protectedByLabel (NetworkResource.labels r)),
      (member Docker.SystemNetworks (Docker.Network.Name (NetworkResource.network r)));
      injection Hbody as -> _; split; reflexivity.
Qed.

Lemma failed_in_use_query_protects_nothing_witness :
  fst (AnalyzeVolumesWithConfig blindEnv Config.DefaultConfig tt)
  = Ok [VolumeResource.mk (Docker.Volume.mk "data-01" "local" "")
          CategoryUnused false None 0 "" "";
        VolumeResource.mk (Docker.Volume.mk anonymousName "local" "")
          CategorySuggested false None 0 "" ""]
  /\ VolumeResource.IsSuggested
       (VolumeResource.mk (Docker.Volume.mk anonymousName "local" "")
          CategorySuggested false None 0 "" "") = true.
Proof.
  assert (Hrun : fst (AnalyzeVolumesWithConfig blindEnv Config.DefaultConfig tt)
                 = Ok [VolumeResource.mk (Docker.Volume.mk "data-01" "local" "")
                         CategoryUnused false None 0 "" "";
                       VolumeResource.mk (Docker.Volume.mk anonymousName "local" "")
                         CategorySuggested false None 0 "" ""])
    by (vm_compute; reflexivity).
  split; [exact Hrun|].
  destruct (failed_in_use_query_protects_nothing blindEnv Config.DefaultConfig tt)
    as (_ & Hvolumes & _).
  destruct (Hvolumes (fun _ => ex_intro _ "unavailable" eq_refl) _
              (VolumeResource.mk (Docker.Volume.mk anonymousName "local" "")
                 CategorySuggested false None 0 "" "") Hrun)
    as (_ & _ & Hsuggested); [simpl; auto|].
  rewrite Hsuggested. reflexivity.
Defined.

(* ===================================================================== *)
(** * The listings *)
(* ===================================================================== *)




(* ===================================================================== *)
(** * The in-use queries *)
(* ===================================================================== *)







(* ===================================================================== *)
(** * An analysis reads and does not remove *)
(* ===================================================================== *)

Section Observed.
Context {W : Type} (F : Docker.Env (W * list (list string))) (P : list string -> Prop).
Hypothesis Hexec : forall runtime args, P args -> runsOnly P (Docker.exec F runtime args).
Hypothesis Hcontainers : runsOnly P (Docker.ListContainers F).
Hypothesis Himages : runsOnly P (Docker.ListImages F).
Hypothesis Hvolumes : runsOnly P (Docker.ListVolumes F).
Hypothesis Hnetworks : runsOnly P (Docker.ListNetworks F).
Hypothesis HimagesInUse : runsOnly P (Docker.GetImagesInUse F).
Hypothesis HvolumesInUse : runsOnly P (Docker.GetVolumesInUse F).
Hypothesis HnetworksInUse : runsOnly P (Docker.GetNetworksInUse F).
Hypothesis HinspectNetwork : forall id, runsOnly P (Docker.InspectNetwork F id).
Hypothesis Hnow : runsOnly P (Docker.timeNow F).
Hypothesis Hinspect : forall rest, P ("inspect" :: rest).
Hypothesis Hvolume : forall rest, P ("volume" :: "inspect" :: rest).

Lemma observed_Run (args : list string) : P args -> runsOnly P (Docker.Run F args).
Proof.
  intros Hargs. unfold Docker.Run.
  apply runsOnly_bind; [apply Hexec, Hargs|]. intros r. apply runsOnly_ret.
Qed.

Lemma observed_inspectFrom {I : Type} (command : list string)
    (decode : string -> Fallible (list I)) (wrap : string -> string)
    (add : gmap string I -> I -> gmap string I) (ids : list string) :
  (forall batch, P (command ++ batch)) ->
  forall (fuel start : nat) (result : gmap string I),
    (length ids - start <= fuel)%nat ->
    runsOnly P (Docker.inspectFrom F command decode wrap add ids start result).
Proof.
  intros Hcommand. induction fuel as [|fuel IH]; intros start result Hfuel w log.
  - rewrite inspectFrom_step, decide_False by lia.
    exists []. rewrite app_nil_r. split; [reflexivity|constructor].
  - rewrite inspectFrom_step. case_decide as Hlt.
    + destruct (observed_Run _ (Hcommand (Docker.slice ids start (Docker.batchEnd ids start)))
                  w log) as (added & Hadded & Hp).
      destruct (Docker.Run F _ (w, log)) as [[out|e] [w1 log1]]. cbn [snd] in Hadded.
      subst log1.
      * destruct (decode out) as [inspected|e].
        -- destruct (IH (start + Docker.batchSize)%nat (fold_left add inspected result)
                        ltac:(unfold Docker.batchSize; lia) w1 (log ++ added))
             as (added2 & Hadded2 & Hp2).
           exists (added ++ added2). rewrite Hadded2, app_assoc.
           split; [reflexivity|]. apply Forall_app. auto.
        -- exists added. auto.
      * exists added. cbn [snd] in *. auto.
    + exists []. rewrite app_nil_r. split; [reflexivity|constructor].
Qed.

Lemma observed_notOldEnough (cfg : Config.t) (createdAt : Z) :
  runsOnly P (notOldEnough F cfg createdAt).
Proof.
  unfold notOldEnough. destruct (_ && _)%bool; [|apply runsOnly_ret].
  apply runsOnly_bind; [exact Hnow|]. intros now. apply runsOnly_ret.
Qed.

Lemma observed_containers (cfg : Config.t) :
  runsOnly P (AnalyzeContainersWithConfig F cfg).
Proof.
  unfold AnalyzeContainersWithConfig.
  apply runsOnly_bind; [exact Hcontainers|].
  intros [containers|e]; [|apply runsOnly_ret].
  apply runsOnly_bind.
  { unfold Docker.InspectContainers. destruct (filter _ _) as [|id ids] eqn:Hids;
      [apply runsOnly_ret|].
    apply (observed_inspectFrom ["inspect"]) with (fuel := length (id :: ids));
      [intros batch; apply Hinspect|lia]. }
  intros batch. apply runsOnly_bind; [|intros results; apply runsOnly_ret].
  apply runsOnly_rangeCollect. intros c. unfold containerBody.
  apply runsOnly_bind.
  { unfold containerDetail. destruct (_ !! _); [apply runsOnly_ret|].
    apply runsOnly_bind; [|intros r; apply runsOnly_ret].
    unfold Docker.InspectContainer.
    apply runsOnly_bind; [|intros r; apply runsOnly_ret].
    apply observed_Run, Hinspect. }
  intros [createdAt labels]. destruct (categorizeContainer _ _ _) as [category reason].
  apply runsOnly_bind; [apply observed_notOldEnough|].
  intros [|]; [apply runsOnly_ret|]. destruct (_ && _)%bool; apply runsOnly_ret.
Qed.

Lemma observed_images (cfg : Config.t) :
  runsOnly P (AnalyzeImagesWithConfig F cfg).
Proof.
  unfold AnalyzeImagesWithConfig.
  apply runsOnly_bind; [exact Himages|].
  intros [images|e]; [|apply runsOnly_ret].
  apply runsOnly_bind; [exact HimagesInUse|]. intros used.
  destruct (inspectPlan cfg images) as [imageIDs inspectNeeded].
  apply runsOnly_bind.
  { case_decide; [apply runsOnly_ret|].
    apply runsOnly_bind; [|intros batch; apply runsOnly_ret].
    unfold Docker.InspectImages. destruct (filter _ _) as [|id ids] eqn:Hids;
      [apply runsOnly_ret|].
    apply (observed_inspectFrom ["inspect"]) with (fuel := length (id :: ids));
      [intros batch; apply Hinspect|lia]. }
  intros inspectByID. apply runsOnly_bind; [|intros results; apply runsOnly_ret].
  apply runsOnly_rangeCollect. intros img. unfold imageBody.
  apply runsOnly_bind.
  { unfold imageDetail. destruct (_ !! _); [apply runsOnly_ret|].
    destruct (member inspectNeeded _); [|apply runsOnly_ret].
    apply runsOnly_bind; [|intros r; apply runsOnly_ret].
    unfold Docker.InspectImage.
    apply runsOnly_bind; [|intros r; apply runsOnly_ret].
    apply observed_Run, Hinspect. }
  intros d. destruct (imageFallbacks _ img d) as [[size labels] createdAt].
  apply runsOnly_bind; [apply observed_notOldEnough|].
  intros [|]; [apply runsOnly_ret|].
  repeat (destruct (_ && _)%bool; [apply runsOnly_ret|]).
  destruct (categorizeImage _ _ _ _) as [category reason]. apply runsOnly_ret.
Qed.

Lemma observed_volumes (cfg : Config.t) :
  runsOnly P (AnalyzeVolumesWithConfig F cfg).
Proof.
  unfold AnalyzeVolumesWithConfig.
  apply runsOnly_bind; [exact Hvolumes|].
  intros [volumes|e]; [|apply runsOnly_ret].
  apply runsOnly_bind.
  { unfold Docker.InspectVolumes. destruct (filter _ _) as [|id ids] eqn:Hids;
      [apply runsOnly_ret|].
    apply (observed_inspectFrom ["volume"; "inspect"]) with (fuel := length (id :: ids));
      [intros batch; apply Hvolume|lia]. }
  intros batch. apply runsOnly_bind; [exact HvolumesInUse|]. intros used.
  apply runsOnly_bind; [|intros results; apply runsOnly_ret].
  apply runsOnly_rangeCollect. intros vol. unfold volumeBody.
  apply runsOnly_bind.
  { unfold volumeDetail. destruct (_ !! _); [apply runsOnly_ret|].
    apply runsOnly_bind; [|intros r; apply runsOnly_ret].
    unfold Docker.InspectVolume.
    apply runsOnly_bind; [|intros r; apply runsOnly_ret].
    apply observed_Run, Hvolume. }
  intros [[labels createdAt] project].
  apply runsOnly_bind; [apply observed_notOldEnough|].
  intros [|]; [apply runsOnly_ret|].
  destruct (_ && _)%bool; [apply runsOnly_ret|].
  destruct (categorizeVolume _ _ _ _) as [category reason]. apply runsOnly_ret.
Qed.

Lemma observed_networks (cfg : Config.t) :
  runsOnly P (AnalyzeNetworksWithConfig F cfg).
Proof.
  unfold AnalyzeNetworksWithConfig.
  apply runsOnly_bind; [exact Hnetworks|].
  intros [networks|e]; [|apply runsOnly_ret].
  apply runsOnly_bind; [exact HnetworksInUse|]. intros used.
  apply runsOnly_bind; [|intros results; apply runsOnly_ret].
  apply runsOnly_rangeCollect. intros net. unfold networkBody.
  apply runsOnly_bind.
  { unfold networkDetail.
    apply runsOnly_bind; [apply HinspectNetwork|]. intros r. apply runsOnly_ret. }
  intros [[labels createdAt] project].
  apply runsOnly_bind; [apply observed_notOldEnough|].
  intros [|]; [apply runsOnly_ret|].
  destruct (categorizeNetwork _ _ _ _) as [category reason]. apply runsOnly_ret.
Qed.

End Observed.

Lemma runsOnly_rangeFold {W A S : Type} (P : list string -> Prop)
    (body : A -> S -> M (W * list (list string)) S) (xs : list A) (s : S) :
  (forall x s, runsOnly P (body x s)) -> runsOnly P (rangeFold body xs s).
Proof.
  intros Hbody. revert s. induction xs as [|x xs IH]; intros s; [apply runsOnly_ret|].
  cbn [rangeFold]. apply runsOnly_bind; [apply Hbody|]. exact IH.
Qed.

Section ReadOnly.
Context {W : Type} (E : Docker.Env W) (D : Docker.Impl.Decoders).

Lemma readOnly_Run (args : list string) :
  readOnly args -> runsOnly readOnly (Docker.Run (recording E) args).
Proof. apply runsOnly_Run. Qed.

Lemma readOnly_RunJSON {T : Type} (unmarshal : string -> Fallible T) (args : list string) :
  readOnly args -> runsOnly readOnly (Docker.Impl.RunJSON (recording E) unmarshal args).
Proof.
  intros Hargs. unfold Docker.Impl.RunJSON.
  apply runsOnly_bind; [apply readOnly_Run, Hargs|]. intros r. apply runsOnly_ret.
Qed.

Lemma readOnly_GetImagesInUse :
  runsOnly readOnly (Docker.Impl.GetImagesInUse (recording E)).
Proof.
  unfold Docker.Impl.GetImagesInUse.
  apply runsOnly_bind; [apply readOnly_Run; eexists; left; reflexivity|].
  intros [out|e]; [|apply runsOnly_ret].
  apply runsOnly_bind; [apply readOnly_Run; eexists; left; reflexivity|].
  intros [out2|e]; [|apply runsOnly_ret].
  destruct (Docker.Impl.containerIDs out2); [apply runsOnly_ret|].
  apply runsOnly_bind; [|intros r; apply runsOnly_ret].
  apply readOnly_Run. eexists. right. right. left. reflexivity.
Qed.

Lemma readOnly_GetVolumesInUse :
  runsOnly readOnly (Docker.Impl.GetVolumesInUse (recording E) D).
Proof.
  unfold Docker.Impl.GetVolumesInUse.
  apply runsOnly_bind; [apply readOnly_Run; eexists; left; reflexivity|].
  intros [out|e]; [|apply runsOnly_ret].
  destruct (Docker.Impl.containerIDs out); [apply runsOnly_ret|].
  apply runsOnly_bind; [|intros r; apply runsOnly_ret].
  apply readOnly_Run. eexists. right. right. left. reflexivity.
Qed.

Lemma readOnly_GetNetworksInUse :
  runsOnly readOnly (Docker.Impl.GetNetworksInUse (recording E) D).
Proof.
  unfold Docker.Impl.GetNetworksInUse.
  apply runsOnly_bind; [apply readOnly_Run; eexists; left; reflexivity|].
  intros [out|e]; [|apply runsOnly_ret].
  apply runsOnly_bind; [|intros r; apply runsOnly_ret].
  apply runsOnly_rangeFold. intros cid inUse. unfold Docker.Impl.addNetworksOf.
  case_decide; [apply runsOnly_ret|].
  apply runsOnly_bind; [|intros r; apply runsOnly_ret].
  apply readOnly_Run. eexists. right. right. left. reflexivity.
Qed.

Lemma readOnly_InspectNetwork (id : string) :
  runsOnly readOnly (Docker.Impl.InspectNetwork (recording E) D id).
Proof.
  unfold Docker.Impl.InspectNetwork.
  apply runsOnly_bind; [|intros r; apply runsOnly_ret].
  apply readOnly_Run. eexists. do 6 right. reflexivity.
Qed.

End ReadOnly.

(** X19: an analysis reads and does not remove.  With the listings and
    the in-use queries as the package implements them, every command that
    one of the four analysers passes to the runtime is a listing ([ps],
    [images], [volume ls], [network ls]) or an inspection ([inspect],
    [volume inspect], [network inspect]); and no such command is one
    that [Remove] runs, for any resource. *)
Theorem analysis_is_read_only {W : Type} (E : Docker.Env W) (D : Docker.Impl.Decoders)
    (cfg : Config.t) (w : W) :
  let observed := Docker.Impl.implemented (recording E) D in
  Forall readOnly (journal (AnalyzeContainersWithConfig observed cfg) w)
  /\ Forall readOnly (journal (AnalyzeImagesWithConfig observed cfg) w)
  /\ Forall readOnly (journal (AnalyzeVolumesWithConfig observed cfg) w)
  /\ Forall readOnly (journal (AnalyzeNetworksWithConfig observed cfg) w)
  /\ (forall args resourceType id,
         readOnly args -> ~ In args (removeCalls resourceType id)).
Proof.
  cbv zeta. set (observed := Docker.Impl.implemented (recording E) D).
  assert (Hexec : forall runtime args, readOnly args ->
             runsOnly readOnly (Docker.exec observed runtime args)).
  { intros runtime args Hargs v log. cbn.
    destruct (Docker.exec E runtime args v) as [r v1]. cbn.
    exists [args]. split; [reflexivity|]. constructor; [exact Hargs|constructor]. }
  assert (Hlist : forall (T : Type) (unmarshal : string -> Fallible T) rest,
             runsOnly readOnly
               (Docker.Impl.RunJSON (recording E) unmarshal ("ps" :: rest))
             /\ runsOnly readOnly
                  (Docker.Impl.RunJSON (recording E) unmarshal ("images" :: rest))
             /\ runsOnly readOnly
                  (Docker.Impl.RunJSON (recording E) unmarshal ("volume" :: "ls" :: rest))
             /\ runsOnly readOnly
                  (Docker.Impl.RunJSON (recording E) unmarshal ("network" :: "ls" :: rest))).
  { intros T unmarshal rest. repeat split; apply readOnly_RunJSON; exists rest; tauto. }
  assert (Hnow : runsOnly readOnly (Docker.timeNow observed))
    by apply runsOnly_journaled.
  assert (Hinspect : forall rest, readOnly ("inspect" :: rest))
    by (intros rest; exists rest; tauto).
  assert (Hvolume : forall rest, readOnly ("volume" :: "inspect" :: rest))
    by (intros rest; exists rest; tauto).
  unfold journal.
  destruct (observed_containers observed readOnly Hexec (proj1 (Hlist _ _ _)) Hnow
              Hinspect cfg w []) as (a1 & H1 & Hp1).
  destruct (observed_images observed readOnly Hexec
              (proj1 (proj2 (Hlist _ _ _))) (readOnly_GetImagesInUse E) Hnow
              Hinspect cfg w []) as (a2 & H2 & Hp2).
  destruct (observed_volumes observed readOnly Hexec
              (proj1 (proj2 (proj2 (Hlist _ _ _)))) (readOnly_GetVolumesInUse E D) Hnow
              Hvolume cfg w []) as (a3 & H3 & Hp3).
  destruct (observed_networks observed readOnly
              (proj2 (proj2 (proj2 (Hlist _ _ _)))) (readOnly_GetNetworksInUse E D)
              (readOnly_InspectNetwork E D) Hnow cfg w []) as (a4 & H4 & Hp4).
  rewrite H1, H2, H3, H4. cbn [app].
  split; [exact Hp1|]. split; [exact Hp2|]. split; [exact Hp3|]. split; [exact Hp4|].
  intros args resourceType id (rest & Hargs) Hin. unfold removeCalls in Hin.
  repeat case_decide; cbn [In] in Hin; try contradiction;
    destruct Hin as [<-|[]];
    destruct Hargs as [Ha|[Ha|[Ha|[Ha|[Ha|[Ha|Ha]]]]]]; discriminate.
Qed.
